(** * Document intelligence system: chunker, TF-IDF store and retriever

    A shallow embedding of [src/processors/text_chunker.py],
    [src/search/vector_store.py] and [src/search/retriever.py], and the
    properties of the retrieval core established on it.

    Conventions of the embedding.
    - A Python [str] is a [string] whose characters are the code points
      below 256; [str.isspace], [str.lower] and the regular expression
      class [\s] are written out for that range.
    - A Python [int] is a [Z]; [len] yields a [nat] injected into [Z].
    - A Python [float] is the rational [Q] it denotes; comparisons are
      [Qle_bool] and [Qeq_bool], and an arithmetic operation is the exact
      operation followed by [PyFloat.round], the rounding to the nearest
      binary64 value, ties to even. Infinities, NaN and magnitudes above
      the largest binary64 value are outside the embedding.
    - A raised exception is the [Raise] branch of [result].
    - scikit-learn's [TfidfVectorizer], [cosine_similarity] and numpy's
      [argsort] are not part of the repository: they are parameters of the
      sections that use them. The similarities they return are rationals;
      the store only compares them. *)

From Stdlib Require Import ZArith QArith Qminmax Qround Qpower.
From Stdlib Require Import Ascii String List Bool Lia.
From Stdlib Require Import Permutation Sorted Lqa.
From stdpp Require Import base option list gmap.

Import ListNotations.
Local Open Scope string_scope.
Local Open Scope Z_scope.

(* ===================================================================== *)
(** * Python strings *)
(* ===================================================================== *)

Module PyStr.

(** [len(s)] *)
Definition len (s : string) : Z := Z.of_nat (String.length s).

(** [c.isspace()] on the code points below 256:
    U+0009..U+000D, U+001C..U+001F, U+0020, U+0085, U+00A0. *)
Definition isspace (c : ascii) : bool :=
  let n := nat_of_ascii c in
  ((9 <=? n) && (n <=? 13) || (28 <=? n) && (n <=? 32)
   || (n =? 133) || (n =? 160))%nat.

Definition is_newline (c : ascii) : bool := (nat_of_ascii c =? 10)%nat.

(** [c.lower()] on the code points below 256: A..Z and U+00C0..U+00DE
    (the multiplication sign U+00D7 apart) move up by 32. *)
Definition lower_char (c : ascii) : ascii :=
  let n := nat_of_ascii c in
  if ((65 <=? n) && (n <=? 90)
      || (192 <=? n) && (n <=? 222) && negb (n =? 215))%nat
  then ascii_of_nat (n + 32) else c.

(** [s.lower()] *)
Fixpoint lower (s : string) : string :=
  match s with
  | EmptyString => EmptyString
  | String c r => String (lower_char c) (lower r)
  end.

Definition is_empty (s : string) : bool :=
  match s with EmptyString => true | String _ _ => false end.

(** [s.lstrip()] *)
Fixpoint lstrip (s : string) : string :=
  match s with
  | EmptyString => EmptyString
  | String c r => if isspace c then lstrip r else s
  end.

(** [s.rstrip()] *)
Fixpoint rstrip (s : string) : string :=
  match s with
  | EmptyString => EmptyString
  | String c r =>
      let r' := rstrip r in
      if isspace c && is_empty r' then EmptyString else String c r'
  end.

(** [s.strip()] *)
Definition strip (s : string) : string := lstrip (rstrip s).

(** The loop of [s.split()]: [cur] is the word being read. *)
Fixpoint split_from (s cur : string) : list string :=
  match s with
  | EmptyString => if is_empty cur then [] else [cur]
  | String c r =>
      if isspace c
      then (if is_empty cur then split_from r "" else cur :: split_from r "")
      else split_from r (cur ++ String c "")
  end.

(** [s.split()]: the maximal runs of non-whitespace characters. *)
Definition split (s : string) : list string := split_from s "".

(** [needle in hay] *)
Fixpoint contains (needle hay : string) : bool :=
  if String.prefix needle hay then true
  else match hay with
       | EmptyString => false
       | String _ r => contains needle r
       end.

(** [s[n:]] for [n >= 0] *)
Fixpoint drop (n : nat) (s : string) : string :=
  match n, s with
  | O, _ => s
  | S k, EmptyString => EmptyString
  | S k, String _ r => drop k r
  end.

(** [s[-k:]] for any integer [k]: the last [k] characters when [k > 0],
    the whole string when [k = 0] (Python reads [-0] as [0]), and
    [s[|k|:]] when [k < 0]. *)
Definition tail_slice (k : Z) (s : string) : string :=
  if k =? 0 then s
  else if 0 <? k then drop (String.length s - Z.to_nat k) s
  else drop (Z.to_nat (- k)) s.

(** [set(l)] followed by [len] or by a counting loop only needs the
    distinct elements; the first occurrence of each is kept. *)
Fixpoint distinct (l : list string) : list string :=
  match l with
  | [] => []
  | x :: r => if existsb (String.eqb x) r then distinct r else x :: distinct r
  end.

End PyStr.

(* ===================================================================== *)
(** * Python floats *)
(* ===================================================================== *)

(** A float is a binary64 value: [m * 2 ** u] for integers [m] and [u]
    with [|m| < 2 ** 53] and [u >= -1074]. An operation yields the float
    nearest to the exact result, the one with the even [m] when two are
    equally near. *)
Module PyFloat.

(** [2 ** e] *)
Definition pow2 (e : Z) : Q := (2 ^ e)%Q.

(** The integer nearest to [q], the even one of the two when [q] lies
    half way between them. *)
Definition round_half_even (q : Q) : Z :=
  let f := Qfloor q in
  match (q - inject_Z f ?= 1 # 2)%Q with
  | Lt => f
  | Gt => f + 1
  | Eq => if Z.even f then f else f + 1
  end.

(** For [q > 0], the [e] with [2 ** e <= q < 2 ** (e + 1)]. *)
Definition exponent (q : Q) : Z :=
  let e := Z.log2 (Qnum q) - Z.log2 (Z.pos (Qden q)) in
  if Qle_bool (pow2 e) q then e else e - 1.

(** The exponent [u] of the spacing [2 ** u] of the floats around
    [q > 0]: 53 significant bits, and [-1074] in the subnormal range. *)
Definition ulp_exponent (q : Q) : Z := Z.max (exponent q - 52) (-1074).

(** The float nearest to [q > 0]. *)
Definition round_positive (q : Q) : Q :=
  let u := ulp_exponent q in
  (inject_Z (round_half_even (q / pow2 u)) * pow2 u)%Q.

(** The float nearest to [q]. *)
Definition round (q : Q) : Q :=
  match (q ?= 0)%Q with
  | Eq => 0%Q
  | Gt => round_positive q
  | Lt => (- round_positive (- q))%Q
  end.

(** A float literal: the float nearest to the decimal written. *)
Definition literal (q : Q) : Q := round q.

(** [x + y] on floats; an [int] operand is converted first, exactly for
    the small integers that occur here. *)
Definition add (x y : Q) : Q := round (x + y)%Q.

(** [x * y] on floats *)
Definition mul (x y : Q) : Q := round (x * y)%Q.

(** [n / d] on two [int]s, [d] not zero: the float nearest to the
    quotient. *)
Definition truediv (n d : Z) : Q := round (inject_Z n / inject_Z d)%Q.

(** [q] is a float. *)
Definition is_float (q : Q) : bool := Qeq_bool (round q) q.

End PyFloat.

(* ===================================================================== *)
(** * Python list slices and exceptions *)
(* ===================================================================== *)

(** [l[:k]] for any integer [k]: the first [k] elements when [k >= 0], all
    but the last [|k|] when [k < 0]. *)
Definition slice_to {A} (k : Z) (l : list A) : list A :=
  if 0 <=? k then firstn (Z.to_nat k) l
  else firstn (length l - Z.to_nat (- k)) l.

Inductive exn : Type :=
  | ZeroDivisionError
  | IndexError
  | ValueError
  | NotFittedError
  | AttributeError.

Inductive result (A : Type) : Type :=
  | Return (a : A)
  | Raise (e : exn).
Arguments Return {A} a.
Arguments Raise {A} e.

Definition bind {A B} (m : result A) (k : A -> result B) : result B :=
  match m with
  | Return a => k a
  | Raise e => Raise e
  end.

Notation "'try' x <- m 'in' k" := (bind m (fun x => k))
  (at level 10, x name, m at level 100, k at level 200).

(** A loop [for x in l: ys.append(f(x))] whose body may raise. *)
Fixpoint for_each {A B} (f : A -> result B) (l : list A) : result (list B) :=
  match l with
  | [] => Return []
  | x :: r => try y <- f x in try ys <- for_each f r in Return (y :: ys)
  end.

(* ===================================================================== *)
(** * The chunker ([src/processors/text_chunker.py]) *)
(* ===================================================================== *)

(** The dict built by [_create_chunk]. *)
Record PageChunk : Type := mkPageChunk {
  pc_text : string;
  pc_page_number : Z;
  pc_source : string;
  pc_start_position : Z;
  pc_char_count : Z;
  pc_word_count : Z
}.

(** The same dict once [chunk_document] has set ['chunk_id'] and
    ['document']; ['relevance_score'] is absent until [retrieve] sets it. *)
Record Chunk : Type := mkChunk {
  text : string;
  page_number : Z;
  source : string;
  start_position : Z;
  char_count : Z;
  word_count : Z;
  chunk_id : Z;
  document : string;
  relevance_score : option Q
}.

Record Page : Type := mkPage {
  page_text : string;
  page_no : Z
}.

Record Document : Type := mkDocument {
  file_name : string;
  pages : list Page
}.

(** The three fields set by [TextChunker.__init__]. *)
Record TextChunker : Type := mkTextChunker {
  chunk_size : Z;
  chunk_overlap : Z;
  min_chunk_size : Z
}.

(** [config.py] *)
Definition CHUNK_SIZE : Z := 2000.
Definition CHUNK_OVERLAP : Z := 300.
Definition MIN_CHUNK_SIZE : Z := 100.
Definition MAX_SEARCH_RESULTS : Z := 8.
Definition RELEVANCE_THRESHOLD : Q := PyFloat.literal (3 # 10).

(** [TextChunker()] *)
Definition default_chunker : TextChunker :=
  mkTextChunker CHUNK_SIZE CHUNK_OVERLAP MIN_CHUNK_SIZE.

(** After a newline at the scan position, the number of further characters
    that the match of [\n\s*\n] consumes: greedy [\s*] backtracks to the
    last newline of the whitespace run. [None] when the run holds no
    newline; then the second alternative [\n{2,}] fails as well. *)
Fixpoint separator_rest (s : string) : option nat :=
  match s with
  | EmptyString => None
  | String c r =>
      if PyStr.isspace c then
        match separator_rest r with
        | Some n => Some (S n)
        | None => if PyStr.is_newline c then Some 1%nat else None
        end
      else None
  end.

(** [re.split(r'\n\s*\n|\n{2,}', text)], scanning left to right: [skip]
    counts the characters of the current match still to be consumed and
    [cur] is the piece being read. *)
Fixpoint re_split_from (s : string) (skip : nat) (cur : string) : list string :=
  match s with
  | EmptyString => [cur]
  | String c r =>
      match skip with
      | S k => re_split_from r k cur
      | O =>
          if PyStr.is_newline c then
            match separator_rest r with
            | Some n => cur :: re_split_from r n ""
            | None => re_split_from r 0 (cur ++ String c "")
            end
          else re_split_from r 0 (cur ++ String c "")
      end
  end.

Definition re_split (s : string) : list string := re_split_from s 0 "".

Definition paragraph_separator : string :=
  String (ascii_of_nat 10) (String (ascii_of_nat 10) "").

(** [TextChunker._split_into_paragraphs] *)
Definition _split_into_paragraphs (txt : string) : list string :=
  map (fun p => PyStr.strip p ++ paragraph_separator)
      (List.filter (fun p => negb (PyStr.is_empty (PyStr.strip p))) (re_split txt)).

(** [TextChunker._create_chunk] *)
Definition _create_chunk (txt : string) (page : Z) (src : string) (start_pos : Z)
  : PageChunk :=
  {| pc_text := PyStr.strip txt;
     pc_page_number := page;
     pc_source := src;
     pc_start_position := start_pos;
     pc_char_count := PyStr.len (PyStr.strip txt);
     pc_word_count := Z.of_nat (length (PyStr.split (PyStr.strip txt))) |}.

Section ChunkPage.
Variable self : TextChunker.
Variables (page : Z) (src : string).

(** The buffer that follows a split. *)
Definition next_buffer (current_chunk para : string) : string :=
  if chunk_overlap self <? PyStr.len current_chunk
  then PyStr.tail_slice (chunk_overlap self) current_chunk ++ para
  else para.

(** The loop of [_chunk_page] over the paragraphs, then the final flush;
    the result lists the chunks in the order they are appended. *)
Fixpoint chunk_paragraphs (paragraphs : list string)
         (current_chunk : string) (current_start : Z) : list PageChunk :=
  match paragraphs with
  | [] =>
      if min_chunk_size self <=? PyStr.len (PyStr.strip current_chunk)
      then [_create_chunk current_chunk page src current_start]
      else []
  | para :: rest =>
      if chunk_size self <? PyStr.len current_chunk + PyStr.len para then
        let closed :=
          if negb (PyStr.is_empty (PyStr.strip current_chunk))
          then [_create_chunk current_chunk page src current_start]
          else [] in
        let current_chunk' := next_buffer current_chunk para in
        let current_start' :=
          current_start + (PyStr.len current_chunk' - chunk_overlap self) in
        closed ++ chunk_paragraphs rest current_chunk' current_start'
      else
        chunk_paragraphs rest (current_chunk ++ para) current_start
  end.

(** [TextChunker._chunk_page] *)
Definition _chunk_page (txt : string) : list PageChunk :=
  chunk_paragraphs (_split_into_paragraphs txt) "" 0.
End ChunkPage.

(** The inner loop of [chunk_document]: every chunk of one page receives
    the running [chunk_id] and the document name. *)
Fixpoint number_chunks (name : string) (page_chunks : list PageChunk) (next_id : Z)
  : list Chunk * Z :=
  match page_chunks with
  | [] => ([], next_id)
  | c :: r =>
      let '(cs, last) := number_chunks name r (next_id + 1) in
      ({| text := pc_text c;
          page_number := pc_page_number c;
          source := pc_source c;
          start_position := pc_start_position c;
          char_count := pc_char_count c;
          word_count := pc_word_count c;
          chunk_id := next_id;
          document := name;
          relevance_score := None |} :: cs, last)
  end.

(** The outer loop of [chunk_document] over the pages. *)
Fixpoint chunk_pages (self : TextChunker) (name : string) (ps : list Page)
         (next_id : Z) : list Chunk :=
  match ps with
  | [] => []
  | p :: r =>
      let page_chunks := _chunk_page self (page_no p) name (page_text p) in
      let '(cs, next_id') := number_chunks name page_chunks next_id in
      cs ++ chunk_pages self name r next_id'
  end.

(** [TextChunker.chunk_document]: the counter starts at [0]. *)
Definition chunk_document (self : TextChunker) (d : Document) : list Chunk :=
  chunk_pages self (file_name d) (pages d) 0.

(** [chunk_documents]: one default chunker, the per-document lists
    concatenated in order. *)
Definition chunk_documents (documents : list Document) : list Chunk :=
  flat_map (chunk_document default_chunker) documents.

(* ===================================================================== *)
(** * The TF-IDF store ([src/search/vector_store.py]) *)
(* ===================================================================== *)

(** What the store uses of scikit-learn and numpy. *)
Class Sklearn : Type := {
  (** the state of a [TfidfVectorizer] that holds a vocabulary *)
  vectorizer_t : Type;
  (** one row of a TF-IDF matrix *)
  row : Type;
  (** [vectorizer.fit_transform(texts)]: the fitted vectorizer and one row
      per text, or [ValueError] (empty vocabulary) *)
  fit_transform : list string -> result (vectorizer_t * list row);
  (** [fit_transform] works on the vectorizer object in place: the state
      in which a call that raises leaves the vectorizer, given the state
      before the call ([None]: as constructed) and the texts *)
  fit_transform_failed : option vectorizer_t -> list string -> option vectorizer_t;
  (** whether [vectorizer.transform] finds the vectorizer fitted; it
      raises [NotFittedError] when it does not *)
  fitted : vectorizer_t -> bool;
  (** [vectorizer.transform([query])] on a fitted vectorizer *)
  transform : vectorizer_t -> string -> row;
  (** [cosine_similarity(query_vector, vectors)[0]]; [vectors] may be the
      Python [None] *)
  cosine_similarity : row -> option (list row) -> list Q;
  (** [np.argsort(a)] *)
  argsort : list Q -> list nat;
  (** [len(vectorizer.vocabulary_)] *)
  vocabulary_size : vectorizer_t -> Z
}.

Section VectorStore.
Context {sk : Sklearn}.

(** The attributes of a [VectorStore]. The vectorizer is [None] as long
    as it is as constructed, without a vocabulary; [vectors] is [None] for
    the Python [None]. *)
Record VectorStore : Type := mkVectorStore {
  chunks : list Chunk;
  vectorizer : option vectorizer_t;
  vectors : option (list row);
  is_indexed : bool
}.

(** [VectorStore.__init__] *)
Definition new_store : VectorStore :=
  {| chunks := []; vectorizer := None; vectors := None; is_indexed := false |}.

(** [VectorStore._build_index]: the store it leaves behind and how the
    call ends. *)
Definition _build_index (self : VectorStore) : VectorStore * result unit :=
  match chunks self with
  | [] => (self, Return tt)
  | _ :: _ =>
      let texts := map text (chunks self) in
      match fit_transform texts with
      | Return (v, m) =>
          ({| chunks := chunks self; vectorizer := Some v;
              vectors := Some m; is_indexed := true |}, Return tt)
      | Raise e =>
          ({| chunks := chunks self;
              vectorizer := fit_transform_failed (vectorizer self) texts;
              vectors := vectors self; is_indexed := is_indexed self |}, Raise e)
      end
  end.

(** [VectorStore.add_chunks] *)
Definition add_chunks (self : VectorStore) (cs : list Chunk)
  : VectorStore * result unit :=
  _build_index {| chunks := cs; vectorizer := vectorizer self;
                  vectors := vectors self; is_indexed := is_indexed self |}.

(** The loop of [search] over [top_indices]. *)
Fixpoint collect_results (stored : list Chunk) (similarities : list Q)
         (threshold : Q) (top_indices : list nat) : result (list (Chunk * Q)) :=
  match top_indices with
  | [] => Return []
  | idx :: rest =>
      match similarities !! idx with
      | None => Raise IndexError
      | Some similarity =>
          if Qle_bool threshold similarity then
            match stored !! idx with
            | None => Raise IndexError
            | Some chunk =>
                try results <- collect_results stored similarities threshold rest
                in Return ((chunk, similarity) :: results)
            end
          else collect_results stored similarities threshold rest
      end
  end.

(** [np.argsort(similarities)[::-1][:top_k]] *)
Definition top_indices_of (similarities : list Q) (top_k : Z) : list nat :=
  slice_to top_k (rev (argsort similarities)).

(** The similarities [search] computes for a query on a fitted store. *)
Definition similarities_of (self : VectorStore) (v : vectorizer_t)
           (query : string) : list Q :=
  cosine_similarity (transform v query) (vectors self).

(** [VectorStore.search]; the chunks of the result are copies, here the
    values of the stored dicts. *)
Definition search (self : VectorStore) (query : string) (top_k : Z)
           (threshold : Q) : result (list (Chunk * Q)) :=
  if negb (is_indexed self) then Return []
  else
    match vectorizer self with
    | None => Raise NotFittedError
    | Some v =>
        if fitted v then
          let similarities := similarities_of self v query in
          collect_results (chunks self) similarities threshold
                          (top_indices_of similarities top_k)
        else Raise NotFittedError
    end.

Record Stats : Type := mkStats {
  total_chunks : Z;
  stats_is_indexed : bool;
  stats_vocabulary_size : Z;
  documents : Z
}.

(** [VectorStore.get_stats] *)
Definition get_stats (self : VectorStore) : result Stats :=
  try vocab <-
    (if is_indexed self then
       match vectorizer self with
       | Some v => Return (vocabulary_size v)
       | None => Raise AttributeError
       end
     else Return 0)
  in Return
    {| total_chunks := Z.of_nat (length (chunks self));
       stats_is_indexed := is_indexed self;
       stats_vocabulary_size := vocab;
       documents :=
         Z.of_nat (length (PyStr.distinct (map document (chunks self)))) |}.

End VectorStore.

(* ===================================================================== *)
(** * The retriever ([src/search/retriever.py]) *)
(* ===================================================================== *)

(** [enhancements], in the order of the dict literal. *)
Definition enhancements : list (string * string) :=
  [ ("address", "address registered office location");
    ("director", "director board member officer");
    ("kyc", "kyc know your customer verification");
    ("document", "document form certificate") ].

(** The loop of [_enhance_query], stopping at the first key found. *)
Fixpoint enhance_with (table : list (string * string)) (query query_lower : string)
  : string :=
  match table with
  | [] => query
  | (key, expansion) :: rest =>
      if PyStr.contains key query_lower then query ++ " " ++ expansion
      else enhance_with rest query query_lower
  end.

(** [Retriever._enhance_query] *)
Definition _enhance_query (query : string) : string :=
  enhance_with enhancements query (PyStr.lower query).

(** [l.sort(key=lambda x: x[1], reverse=True)]: the sort is stable, so its
    result is the one of a stable insertion sort. [insert_desc] puts [x]
    before the first element whose score is not above its own. *)
Fixpoint insert_desc {A} (x : A * Q) (l : list (A * Q)) : list (A * Q) :=
  match l with
  | [] => [x]
  | y :: r =>
      if Qle_bool (snd y) (snd x) then x :: y :: r else y :: insert_desc x r
  end.

Fixpoint sort_desc {A} (l : list (A * Q)) : list (A * Q) :=
  match l with
  | [] => []
  | x :: r => insert_desc x (sort_desc r)
  end.

Section Rerank.
(** [R] is what a candidate holds in place of the chunk dict: the dict's
    value, or a reference into a heap of dicts; [deref] reads it. *)
Context {R : Type} (deref : R -> Chunk).

(** [sum(1 for term in query_terms if term in text_lower)] *)
Definition term_matches (query_terms : list string) (text_lower : string) : Z :=
  Z.of_nat (length (List.filter (fun term => PyStr.contains term text_lower) query_terms)).

(** [0.2 if query.lower() in text_lower else 0] *)
Definition phrase_bonus (query text_lower : string) : Q :=
  if PyStr.contains (PyStr.lower query) text_lower
  then PyFloat.literal (2 # 10) else 0%Q.

(** [min(chunk['char_count'] / 1000, 1.0) * 0.05] *)
Definition length_factor (c : Chunk) : Q :=
  PyFloat.mul (Qmin (PyFloat.truediv (char_count c) 1000) 1)
              (PyFloat.literal (5 # 100)).

(** The body of the scoring loop for one candidate. *)
Definition score_candidate (query : string) (query_terms : list string)
           (cand : R * Q) : result (R * Q) :=
  let '(chunk, base_score) := cand in
  let text_lower := PyStr.lower (text (deref chunk)) in
  match query_terms with
  | [] => Raise ZeroDivisionError
  | _ :: _ =>
      let term_bonus :=
        PyFloat.mul (PyFloat.truediv (term_matches query_terms text_lower)
                                     (Z.of_nat (length query_terms)))
                    (PyFloat.literal (1 # 10)) in
      let final_score :=
        PyFloat.add
          (PyFloat.add (PyFloat.add base_score (phrase_bonus query text_lower))
                       term_bonus)
          (length_factor (deref chunk)) in
      Return (chunk, final_score)
  end.

(** [Retriever._rerank_results] *)
Definition _rerank_results (query : string) (results : list (R * Q))
  : result (list (R * Q)) :=
  match results with
  | [] => Return results
  | _ :: _ =>
      let query_terms := PyStr.distinct (PyStr.split (PyStr.lower query)) in
      try scored_results <- for_each (score_candidate query query_terms) results
      in Return (sort_desc scored_results)
  end.

(** The document filter of [retrieve]: [None] and the empty string are
    both falsy. *)
Definition filter_results (filter_document : option string)
           (results : list (R * Q)) : list (R * Q) :=
  match filter_document with
  | None | Some EmptyString => results
  | Some name =>
      List.filter (fun cand => String.eqb (document (deref (fst cand))) name) results
  end.
End Rerank.

(** [chunk['relevance_score'] = score] *)
Definition set_relevance_score (c : Chunk) (score : Q) : Chunk :=
  {| text := text c; page_number := page_number c; source := source c;
     start_position := start_position c; char_count := char_count c;
     word_count := word_count c; chunk_id := chunk_id c;
     document := document c; relevance_score := Some score |}.

Section Retriever.
Context {sk : Sklearn}.

(** [Retriever.retrieve] on the values of the chunk dicts: the store is
    [self.vector_store]. *)
Definition retrieve (vector_store : VectorStore) (query : string)
           (max_results : Z) (threshold : Q) (filter_document : option string)
  : result (list Chunk) :=
  let enhanced_query := _enhance_query query in
  try results <- search vector_store enhanced_query (max_results * 2) threshold in
  let results := filter_results id filter_document results in
  try reranked <- _rerank_results id query results in
  Return (map (fun '(chunk, score) => set_relevance_score chunk score)
              (slice_to max_results reranked)).

(** [Retriever.get_document_chunks] *)
Definition get_document_chunks (vector_store : VectorStore)
           (document_name : string) : list Chunk :=
  List.filter (fun c => String.eqb (document c) document_name) (chunks vector_store).
End Retriever.

(* ===================================================================== *)
(** * An executable instance of the library interface *)
(* ===================================================================== *)

(** A bag-of-words vectorizer with the squared cosine as similarity, and
    the stable argsort that numpy's default sort performs on short arrays
    (up to 16 elements are sorted by insertion, which keeps equal elements
    in index order). It stands in for scikit-learn and numpy where the
    store has to be run on a concrete corpus. *)
Module BagOfWords.

Definition tokens (s : string) : list string := PyStr.split (PyStr.lower s).

Definition count_term (ws : list string) (term : string) : Z :=
  Z.of_nat (length (List.filter (String.eqb term) ws)).

Definition count_row (vocabulary : list string) (s : string) : list Z :=
  map (count_term (tokens s)) vocabulary.

Fixpoint dot (a b : list Z) : Z :=
  match a, b with
  | x :: a', y :: b' => x * y + dot a' b'
  | _, _ => 0
  end.

(** The squared cosine of the angle between two count rows, as a float;
    [0] when one of them is the zero row. *)
Definition similarity (q d : list Z) : Q :=
  let n := dot q q * dot d d in
  if n =? 0 then 0%Q else PyFloat.truediv (dot q d * dot q d) n.

(** The vectorizer once [fit_transform] has been called with texts that
    hold a word: the vocabulary of the last fit that returned, and whether
    the last fit returned. *)
Record bow_vectorizer : Type := mkBowVectorizer {
  bow_vocabulary : list string;
  bow_fitted : bool
}.

Definition bow_fit_transform (texts : list string)
  : result (bow_vectorizer * list (list Z)) :=
  match PyStr.distinct (flat_map tokens texts) with
  | [] => Raise ValueError
  | vocabulary =>
      Return ({| bow_vocabulary := vocabulary; bow_fitted := true |},
              map (count_row vocabulary) texts)
  end.

(** A fit that raises keeps the vocabulary of the vectorizer, if it has
    one, and leaves the vectorizer unfitted: scikit-learn's
    [TfidfVectorizer.fit_transform] replaces its TF-IDF transformer by a
    new one before it builds the vocabulary. *)
Definition bow_fit_transform_failed (before : option bow_vectorizer)
           (texts : list string) : option bow_vectorizer :=
  match before with
  | Some v => Some {| bow_vocabulary := bow_vocabulary v; bow_fitted := false |}
  | None => None
  end.

Definition bow_cosine_similarity (q : list Z) (m : option (list (list Z)))
  : list Q :=
  match m with
  | Some rows => map (similarity q) rows
  | None => [similarity q q]
  end.

(** Insertion of index [i] into a list of indices sorted by their value
    in [a], after every index whose value is not above its own. *)
Fixpoint insert_index (a : list Q) (i : nat) (l : list nat) : list nat :=
  match l with
  | [] => [i]
  | j :: r =>
      if Qle_bool (nth j a 0%Q) (nth i a 0%Q) then j :: insert_index a i r
      else i :: j :: r
  end.

Definition stable_argsort (a : list Q) : list nat :=
  fold_left (fun acc i => insert_index a i acc) (seq 0 (length a)) [].

#[export] Instance library : Sklearn := {|
  vectorizer_t := bow_vectorizer;
  row := list Z;
  fit_transform := bow_fit_transform;
  fit_transform_failed := bow_fit_transform_failed;
  fitted := bow_fitted;
  transform := fun v => count_row (bow_vocabulary v);
  cosine_similarity := bow_cosine_similarity;
  argsort := stable_argsort;
  vocabulary_size := fun v => Z.of_nat (length (bow_vocabulary v))
|}.

End BagOfWords.

(* ===================================================================== *)
(** * Chunk dicts as shared objects *)
(* ===================================================================== *)

(** The default of [nth] on chunk lists and of [deref] on heaps; never
    read within bounds or at an allocated location. *)
Definition empty_chunk : Chunk :=
  {| text := ""; page_number := 0; source := ""; start_position := 0;
     char_count := 0; word_count := 0; chunk_id := 0; document := "";
     relevance_score := None |}.

(** Python lists hold references. Here a chunk dict lives in a heap at a
    location; [self.chunks] is a list of locations, [dict.copy()]
    allocates, and [chunk['relevance_score'] = score] writes through a
    reference. The functions below are [search] and [retrieve] again, with
    the heap passed along. *)

Definition loc : Type := nat.

Abbreviation heap := (gmap loc Chunk).

(** Reading the dict at a reference. *)
Definition deref (h : heap) (l : loc) : Chunk := default empty_chunk (h !! l).

(** [d.copy()]: a new dict with the items of the dict at [l]. *)
Definition dict_copy (h : heap) (l : loc) : heap * loc :=
  let l' := fresh (dom h) in (<[l' := deref h l]> h, l').

(** [chunk['relevance_score'] = score] on the dict at [l]. *)
Definition set_item_relevance_score (h : heap) (l : loc) (score : Q) : heap :=
  alter (fun c => set_relevance_score c score) l h.

Section References.
Context {sk : Sklearn}.

(** The attributes of a [VectorStore], [chunks] as a list of
    references. *)
Record RefStore : Type := mkRefStore {
  chunk_refs : list loc;
  ref_vectorizer : option vectorizer_t;
  ref_vectors : option (list row);
  ref_is_indexed : bool
}.

(** The store of values that a store of references denotes in a heap. *)
Definition view (h : heap) (rs : RefStore) : VectorStore :=
  {| chunks := map (deref h) (chunk_refs rs);
     vectorizer := ref_vectorizer rs;
     vectors := ref_vectors rs;
     is_indexed := ref_is_indexed rs |}.

(** The loop of [search] over [top_indices], each result a fresh copy. *)
Fixpoint collect_results_ref (h : heap) (stored : list loc) (similarities : list Q)
         (threshold : Q) (top_indices : list nat)
  : heap * result (list (loc * Q)) :=
  match top_indices with
  | [] => (h, Return [])
  | idx :: rest =>
      match similarities !! idx with
      | None => (h, Raise IndexError)
      | Some similarity =>
          if Qle_bool threshold similarity then
            match stored !! idx with
            | None => (h, Raise IndexError)
            | Some l =>
                let '(h1, chunk) := dict_copy h l in
                let '(h2, r) :=
                  collect_results_ref h1 stored similarities threshold rest in
                (h2, try results <- r in Return ((chunk, similarity) :: results))
            end
          else collect_results_ref h stored similarities threshold rest
      end
  end.

(** [VectorStore.search] *)
Definition search_ref (h : heap) (self : RefStore) (query : string) (top_k : Z)
           (threshold : Q) : heap * result (list (loc * Q)) :=
  if negb (ref_is_indexed self) then (h, Return [])
  else
    match ref_vectorizer self with
    | None => (h, Raise NotFittedError)
    | Some v =>
        if fitted v then
          let similarities :=
            cosine_similarity (transform v query) (ref_vectors self) in
          collect_results_ref h (chunk_refs self) similarities threshold
                              (top_indices_of similarities top_k)
        else (h, Raise NotFittedError)
    end.

(** The last loop of [retrieve]: the score is written into each dict. *)
Definition attach_scores (h : heap) (top : list (loc * Q)) : heap :=
  fold_left (fun h '(chunk, score) => set_item_relevance_score h chunk score) top h.

(** [Retriever.retrieve] *)
Definition retrieve_ref (h : heap) (vector_store : RefStore) (query : string)
           (max_results : Z) (threshold : Q) (filter_document : option string)
  : heap * result (list loc) :=
  let enhanced_query := _enhance_query query in
  let '(h1, r) :=
    search_ref h vector_store enhanced_query (max_results * 2) threshold in
  match r with
  | Raise e => (h1, Raise e)
  | Return results =>
      let results := filter_results (deref h1) filter_document results in
      match _rerank_results (deref h1) query results with
      | Raise e => (h1, Raise e)
      | Return reranked =>
          let top := slice_to max_results reranked in
          (attach_scores h1 top, Return (map fst top))
      end
  end.

End References.

(* ===================================================================== *)
(** * Vocabulary of the statements *)
(* ===================================================================== *)

(** The identifiers [first], [first + 1], ... of [n] consecutive chunks. *)
Definition ids_from (first : Z) (n : nat) : list Z :=
  map (fun i => first + Z.of_nat i) (seq 0 n).

(** What scikit-learn and numpy document of the functions the store
    calls: a fit that returns leaves a fitted vectorizer and one row per
    text, there is one similarity per row, and argsort permutes the
    indices and lists them by ascending value. *)
Class SklearnLaws (sk : Sklearn) : Prop := {
  fit_transform_fitted :
    forall texts v m, fit_transform texts = Return (v, m) -> fitted v = true;
  fit_transform_rows :
    forall texts v m, fit_transform texts = Return (v, m) -> length m = length texts;
  cosine_similarity_length :
    forall q m, length (cosine_similarity q (Some m)) = length m;
  argsort_permutation :
    forall a, Permutation (argsort a) (seq 0 (length a));
  argsort_ascending :
    forall a, StronglySorted (fun i j => (nth i a 0 <= nth j a 0)%Q) (argsort a)
}.

Section StoreVocabulary.
Context {sk : Sklearn}.

(** A store on which a build has succeeded: flag set, vectorizer fitted,
    one vector per stored chunk. *)
Definition built (s : VectorStore) : Prop :=
  is_indexed s = true
  /\ exists v m, vectorizer s = Some v /\ fitted v = true /\ vectors s = Some m
                 /\ length m = length (chunks s).

(** The number of per-chunk weight vectors; none before the first
    build. *)
Definition vector_count (s : VectorStore) : nat :=
  match vectors s with
  | Some m => length m
  | None => O
  end.

(** The index invariant of the data model. *)
Definition aligned (s : VectorStore) : Prop :=
  vector_count s = length (chunks s).

(** The indices that pass the threshold, in ranking order. *)
Definition passing (similarities : list Q) (threshold : Q) (idxs : list nat)
  : list nat :=
  List.filter (fun i => Qle_bool threshold (nth i similarities 0%Q)) idxs.

(** The public operations of the store. *)
Inductive operation : Type :=
  | AddChunks (cs : list Chunk)
  | Search (query : string) (top_k : Z) (threshold : Q)
  | GetStats.

(** The store an operation leaves behind; [search] and [get_stats]
    assign no attribute. *)
Definition apply_operation (s : VectorStore) (op : operation) : VectorStore :=
  match op with
  | AddChunks cs => fst (add_chunks s cs)
  | Search _ _ _ => s
  | GetStats => s
  end.

Definition run_operations (s : VectorStore) (ops : list operation) : VectorStore :=
  fold_left apply_operation ops s.

(** The operation is no [add_chunks] whose [fit_transform] raises. *)
Definition fit_returns (op : operation) : bool :=
  match op with
  | AddChunks (c :: cs) =>
      match fit_transform (map text (c :: cs)) with
      | Return _ => true
      | Raise _ => false
      end
  | _ => true
  end.

End StoreVocabulary.

(** Descending by score. *)
Definition by_score_desc {A} (x y : A * Q) : Prop := (snd y <= snd x)%Q.

(** The candidates whose score equals [v], in list order. *)
Definition with_score {A} (v : Q) (l : list (A * Q)) : list (A * Q) :=
  List.filter (fun x => Qeq_bool (snd x) v) l.

(** The query terms of the scoring loop: the distinct whitespace-split
    words of the lower-cased query. *)
Definition query_terms_of (query : string) : list string :=
  PyStr.distinct (PyStr.split (PyStr.lower query)).

(** The score in words: the phrase and the terms are looked up in the
    lower-cased chunk text, and the terms are the distinct ones. *)
Definition amended_final_score (query : string) (c : Chunk) (base_score : Q) : Q :=
  let text_lower := PyStr.lower (text c) in
  let phrase :=
    if PyStr.contains (PyStr.lower query) text_lower
    then PyFloat.literal (2 # 10) else 0%Q in
  let matched :=
    length (List.filter (fun term => PyStr.contains term text_lower)
                        (query_terms_of query)) in
  let total := length (query_terms_of query) in
  let term :=
    PyFloat.mul (PyFloat.literal (1 # 10))
                (PyFloat.truediv (Z.of_nat matched) (Z.of_nat total)) in
  let substance :=
    PyFloat.mul (PyFloat.literal (5 # 100))
                (Qmin (PyFloat.truediv (char_count c) 1000) 1) in
  PyFloat.add (PyFloat.add (PyFloat.add base_score phrase) term) substance.

(** The score when the phrase and the terms are looked up in the chunk
    text as it is stored, and every whitespace-split term counts. *)
Definition claimed_final_score (query : string) (c : Chunk) (base_score : Q) : Q :=
  let phrase :=
    if PyStr.contains (PyStr.lower query) (text c)
    then PyFloat.literal (2 # 10) else 0%Q in
  let terms := PyStr.split (PyStr.lower query) in
  let matched :=
    length (List.filter (fun term => PyStr.contains term (text c)) terms) in
  let term :=
    PyFloat.mul (PyFloat.literal (1 # 10))
                (PyFloat.truediv (Z.of_nat matched) (Z.of_nat (length terms))) in
  let substance :=
    PyFloat.mul (PyFloat.literal (5 # 100))
                (Qmin (PyFloat.truediv (char_count c) 1000) 1) in
  PyFloat.add (PyFloat.add (PyFloat.add base_score phrase) term) substance.

(** The score the loop body computes when there is a term. *)
Definition code_final_score (query : string) (c : Chunk) (base_score : Q) : Q :=
  let text_lower := PyStr.lower (text c) in
  PyFloat.add
    (PyFloat.add (PyFloat.add base_score (phrase_bonus query text_lower))
                 (PyFloat.mul
                    (PyFloat.truediv (term_matches (query_terms_of query) text_lower)
                                     (Z.of_nat (length (query_terms_of query))))
                    (PyFloat.literal (1 # 10))))
    (length_factor c).

(** The score of a candidate that earns the three bonuses in full. *)
Definition capped_score (base_score : Q) : Q :=
  PyFloat.add
    (PyFloat.add (PyFloat.add base_score (PyFloat.literal (2 # 10)))
                 (PyFloat.literal (1 # 10)))
    (PyFloat.literal (5 # 100)).

(** A candidate of the reference model read as a candidate of values. *)
Definition lift {R : Type} (get : R -> Chunk) (p : R * Q) : Chunk * Q :=
  (get (fst p), snd p).

(* ===================================================================== *)
(** * Concrete inputs *)
(* ===================================================================== *)

(** Three paragraphs of six characters, separated by blank lines. *)
Definition three_paragraphs : string :=
  "aaaaaa" ++ paragraph_separator ++ "bbbbbb" ++ paragraph_separator ++ "cccccc".

Definition no_overlap_chunker : TextChunker :=
  {| chunk_size := 10; chunk_overlap := 0; min_chunk_size := 1 |}.

(** A page of 109 characters, above [MIN_CHUNK_SIZE]. *)
Definition sample_page_text : string :=
  "Example Bank was founded in 1995 and keeps its registered office, its board and its records in the same city.".

Definition charter : Document :=
  {| file_name := "charter.pdf";
     pages := [ {| page_text := sample_page_text; page_no := 1 |} ] |}.

Definition bylaws : Document :=
  {| file_name := "bylaws.pdf";
     pages := [ {| page_text := sample_page_text; page_no := 1 |} ] |}.

(** A chunk whose text is capitalised. *)
Definition greeting : Chunk :=
  {| text := "Hello World"; page_number := 1; source := "notes.pdf";
     start_position := 0; char_count := 11; word_count := 2; chunk_id := 0;
     document := "notes.pdf"; relevance_score := None |}.

Module Examples.
Import BagOfWords.

Definition make_chunk (txt : string) (id : Z) (doc : string) (page : Z) : Chunk :=
  {| text := txt; page_number := page; source := doc; start_position := 0;
     char_count := PyStr.len txt;
     word_count := Z.of_nat (length (PyStr.split txt));
     chunk_id := id; document := doc; relevance_score := None |}.

Definition chunk_a : Chunk :=
  make_chunk "The registered office of Example Bank is located in City X."
             0 "charter.pdf" 1.

Definition chunk_b : Chunk :=
  make_chunk "Example Bank was founded in 1995." 1 "charter.pdf" 2.

(** The store after [add_chunks([chunk_a, chunk_b])]. *)
Definition bank_store : VectorStore := fst (add_chunks new_store [chunk_a; chunk_b]).

(** Two chunks with the same text, numbered 0 and 1. *)
Definition twin_first : Chunk := make_chunk "Example Bank" 0 "charter.pdf" 1.
Definition twin_second : Chunk := make_chunk "Example Bank" 1 "charter.pdf" 2.

Definition twin_store : VectorStore :=
  fst (add_chunks new_store [twin_first; twin_second]).

(** The store after a build of one chunk followed by an empty build. *)
Definition rebuilt_empty : VectorStore :=
  run_operations new_store [AddChunks [chunk_b]; AddChunks []].

(** A chunk whose text holds no word. *)
Definition blank_chunk : Chunk := make_chunk "   " 0 "blank.pdf" 1.

(** The store after a build of one chunk followed by a build on which
    [fit_transform] raises. *)
Definition rebuilt_blank : VectorStore :=
  run_operations new_store [AddChunks [chunk_b]; AddChunks [blank_chunk]].

(** Two candidates of the reranker for the query [q]: the text of the
    first does not hold it, the text of the second does. *)
Definition without_q : Chunk :=
  {| text := "zzz"; page_number := 1; source := "notes.pdf";
     start_position := 0; char_count := 0; word_count := 1; chunk_id := 0;
     document := "notes.pdf"; relevance_score := None |}.

Definition with_q : Chunk :=
  {| text := "q"; page_number := 1; source := "notes.pdf";
     start_position := 0; char_count := 0; word_count := 1; chunk_id := 1;
     document := "notes.pdf"; relevance_score := None |}.

End Examples.

Module RefExamples.
Import Examples.

(** The two chunk dicts of [bank_store] at locations 0 and 1. *)
Definition bank_heap : heap := <[1%nat := chunk_b]> (<[0%nat := chunk_a]> ∅).

Definition bank_refs : RefStore :=
  {| chunk_refs := [0%nat; 1%nat];
     ref_vectorizer := vectorizer bank_store;
     ref_vectors := vectors bank_store;
     ref_is_indexed := is_indexed bank_store |}.

End RefExamples.

(* ===================================================================== *)
(** * Saving and loading the store *)
(* ===================================================================== *)

Section Persistence.
Context {sk : Sklearn}.

(** The dict that [save] pickles: the chunks, the vectorizer and the
    vectors; the flag [is_indexed] is not part of it. *)
Record SavedStore : Type := mkSavedStore {
  saved_chunks : list Chunk;
  saved_vectorizer : option vectorizer_t;
  saved_vectors : option (list row)
}.

(** [VectorStore.save]: the file at [path] is created or overwritten.
    The files are a map from paths to the values pickled; [pickle.dump]
    followed by [pickle.load] gives back the value that was dumped. *)
Definition save (self : VectorStore) (path : string) (fs : gmap string SavedStore)
  : gmap string SavedStore :=
  <[path := {| saved_chunks := chunks self;
               saved_vectorizer := vectorizer self;
               saved_vectors := vectors self |}]> fs.

(** [VectorStore.load]: [None] when [open] raises [FileNotFoundError];
    otherwise the three attributes are replaced and the flag is set. *)
Definition load (self : VectorStore) (path : string)
           (fs : gmap string SavedStore) : option VectorStore :=
  match fs !! path with
  | None => None
  | Some data =>
      Some {| chunks := saved_chunks data;
              vectorizer := saved_vectorizer data;
              vectors := saved_vectors data;
              is_indexed := true |}
  end.

(** A store whose flag is only set when the vectorizer is fitted and the
    vectors are there. *)
Definition flag_sound (s : VectorStore) : Prop :=
  is_indexed s = true ->
  (exists v, vectorizer s = Some v /\ fitted v = true) /\ is_Some (vectors s).

End Persistence.

(** [l1] is an initial segment of [l2]. *)
Definition is_prefix {A} (l1 l2 : list A) : Prop := exists rest, l2 = (l1 ++ rest)%list.

(** [chunk.get('relevance_score', 0)] *)
Definition relevance (c : Chunk) : Q :=
  match relevance_score c with
  | Some score => score
  | None => 0%Q
  end.

(** Every character of [s] is whitespace. *)
Fixpoint all_space (s : string) : bool :=
  match s with
  | EmptyString => true
  | String c r => PyStr.isspace c && all_space r
  end.

(** [''.join(l)] *)
Definition join_all (l : list string) : string := fold_right String.append "" l.

(** What [_create_chunk] guarantees of every dict it builds for a page. *)
Definition well_formed_page_chunk (page : Z) (src : string) (c : PageChunk) : Prop :=
  pc_char_count c = PyStr.len (pc_text c)
  /\ PyStr.strip (pc_text c) = pc_text c
  /\ pc_word_count c = Z.of_nat (length (PyStr.split (pc_text c)))
  /\ pc_page_number c = page /\ pc_source c = src.

(* ===================================================================== *)
(** * The query planner ([src/agent/query_planner.py]) *)
(* ===================================================================== *)

Module QueryPlanner.

(** [self.question_patterns], in the order of the dict literal. *)
Definition question_patterns : list (string * list string) :=
  [ ("what", ["what"; "which"]);
    ("who", ["who"]);
    ("where", ["where"; "location"]);
    ("when", ["when"; "date"; "time"]);
    ("how", ["how"]);
    ("why", ["why"; "reason"]);
    ("list", ["list"; "enumerate"; "all"]);
    ("compare", ["compare"; "difference"; "versus"; "vs"]);
    ("summarize", ["summarize"; "summary"; "overview"]) ].

(** [any(pattern in query for pattern in patterns)] *)
Definition any_in (patterns : list string) (query : string) : bool :=
  existsb (fun pattern => PyStr.contains pattern query) patterns.

(** The loop [for key, patterns in table.items(): if any(...): return key]:
    the key of the first group with a pattern in [query], if there is
    one. *)
Fixpoint first_group (table : list (string * list string)) (query : string)
  : option string :=
  match table with
  | [] => None
  | (key, patterns) :: rest =>
      if any_in patterns query then Some key else first_group rest query
  end.

(** [QueryPlanner._detect_query_type] *)
Definition _detect_query_type (query : string) : string :=
  match first_group question_patterns query with
  | Some q_type => q_type
  | None => "general"
  end.

(** [indicators] of [_assess_complexity], in the order of the dict
    literal. *)
Definition indicators : list (string * list string) :=
  [ ("high", ["compare"; "analyze"; "explain"; "relationship"; "how does"]);
    ("medium", ["list"; "describe"; "what are"; "tell me about"]);
    ("low", ["what is"; "where"; "when"; "who"]) ].

(** [QueryPlanner._assess_complexity] *)
Definition _assess_complexity (query : string) : string :=
  let query_lower := PyStr.lower query in
  match first_group indicators query_lower with
  | Some level => level
  | None =>
      if 10 <? Z.of_nat (length (PyStr.split query)) then "high" else "medium"
  end.

(** [base_counts] of [_determine_chunk_count]. *)
Definition base_counts : list (string * Z) :=
  [ ("low", 3); ("medium", 5); ("high", 8) ].

(** [d.get(key, default)] on a dict given as its items. *)
Fixpoint dict_get {V} (d : list (string * V)) (key : string) (default : V) : V :=
  match d with
  | [] => default
  | (k, v) :: rest => if String.eqb k key then v else dict_get rest key default
  end.

(** [x in l] for a list or set of strings. *)
Definition str_in (x : string) (l : list string) : bool := existsb (String.eqb x) l.

(** [QueryPlanner._determine_chunk_count] *)
Definition _determine_chunk_count (query_type complexity : string) : Z :=
  let count := dict_get base_counts complexity 5 in
  let count :=
    if str_in query_type ["list"; "compare"; "summarize"] then count + 2 else count in
  Z.min count 10.

(** [stop_words] of [_extract_keywords]. *)
Definition stop_words : list string :=
  [ "what"; "is"; "are"; "the"; "a"; "an"; "in"; "on"; "at";
    "to"; "for"; "of"; "with"; "by"; "from"; "about"; "tell"; "me" ].

(** The class [\w] on the code points below 256: the underscore and the
    characters for which [str.isalnum] holds, that is the ASCII letters
    and digits, U+00AA, U+00B2, U+00B3, U+00B5, U+00B9, U+00BA,
    U+00BC..U+00BE, and U+00C0..U+00FF without U+00D7 and U+00F7. *)
Definition is_word_char (c : ascii) : bool :=
  let n := nat_of_ascii c in
  ((48 <=? n) && (n <=? 57) || (65 <=? n) && (n <=? 90) || (n =? 95)
   || (97 <=? n) && (n <=? 122)
   || (n =? 170) || (n =? 178) || (n =? 179) || (n =? 181) || (n =? 185)
   || (n =? 186) || (188 <=? n) && (n <=? 190)
   || (192 <=? n) && negb (n =? 215) && negb (n =? 247))%nat.

(** Every character of [s] is a word character. *)
Fixpoint all_word_chars (s : string) : bool :=
  match s with
  | EmptyString => true
  | String c r => is_word_char c && all_word_chars r
  end.

(** The scan of [re.findall(r'\b\w+\b', s)]: [cur] is the run of word
    characters being read. *)
Fixpoint word_runs_from (s cur : string) : list string :=
  match s with
  | EmptyString => if PyStr.is_empty cur then [] else [cur]
  | String c r =>
      if is_word_char c then word_runs_from r (cur ++ String c "")
      else if PyStr.is_empty cur then word_runs_from r ""
           else cur :: word_runs_from r ""
  end.

(** [re.findall(r'\b\w+\b', s)]: the maximal runs of word characters. *)
Definition word_runs (s : string) : list string := word_runs_from s "".

(** [QueryPlanner._extract_keywords] *)
Definition _extract_keywords (query : string) : list string :=
  let words := word_runs (PyStr.lower query) in
  let keywords :=
    List.filter (fun w => negb (str_in w stop_words) && (2 <? PyStr.len w)) words in
  slice_to 10 keywords.

(** [QueryPlanner._requires_multi_document] *)
Definition _requires_multi_document (query : string) : bool :=
  any_in ["compare"; "both"; "all documents"; "across"; "different"; "versus"; "vs"]
         query.

(** The dict returned by [plan]. *)
Record Plan : Type := mkPlan {
  query_type : string;
  complexity : string;
  max_chunks : Z;
  keywords : list string;
  mode : string;
  requires_multi_doc : bool;
  requires_synthesis : bool
}.

(** [QueryPlanner.plan] *)
Definition plan (query mode : string) : Plan :=
  let query_lower := PyStr.lower query in
  let query_type := _detect_query_type query_lower in
  let complexity := _assess_complexity query in
  let max_chunks := _determine_chunk_count query_type complexity in
  let keywords := _extract_keywords query in
  {| query_type := query_type;
     complexity := complexity;
     max_chunks := max_chunks;
     keywords := keywords;
     mode := mode;
     requires_multi_doc := _requires_multi_document query_lower;
     requires_synthesis := String.eqb complexity "high" |}.

End QueryPlanner.

(* ===================================================================== *)
(** * The conversation history ([src/agent/document_agent.py]) *)
(* ===================================================================== *)

(** [l[k:]] for any integer [k]: without the first [k] elements when
    [k >= 0], the last [|k|] elements when [k < 0]. *)
Definition slice_from {A} (k : Z) (l : list A) : list A :=
  if 0 <=? k then skipn (Z.to_nat k) l
  else skipn (length l - Z.to_nat (- k)) l.

Section History.
(** The response dicts are kept as they are. *)
Context {Response : Type}.

(** An entry of [conversation_history]; the timestamp is always
    [None]. *)
Record Interaction : Type := mkInteraction {
  interaction_query : string;
  interaction_response : Response;
  interaction_timestamp : option Z
}.

(** [DocumentAgent._add_to_history], on the list
    [self.conversation_history]. *)
Definition _add_to_history (conversation_history : list Interaction)
           (query : string) (response : Response) : list Interaction :=
  let conversation_history :=
    (conversation_history
     ++ [ {| interaction_query := query;
             interaction_response := response;
             interaction_timestamp := None |} ])%list in
  if 10 <? Z.of_nat (length conversation_history)
  then slice_from (-10) conversation_history
  else conversation_history.

(** The entry that [_add_to_history] appends. *)
Definition entry_of (interaction : string * Response) : Interaction :=
  {| interaction_query := fst interaction;
     interaction_response := snd interaction;
     interaction_timestamp := None |}.

(** The history after a series of interactions, the oldest first. *)
Definition history_after (start : list Interaction)
           (interactions : list (string * Response)) : list Interaction :=
  fold_left (fun h '(query, response) => _add_to_history h query response)
            interactions start.

End History.

(* ===================================================================== *)
(** * Grouping chunks by document *)
(* ===================================================================== *)

(** [ResponseSynthesizer._group_by_document] and
    [DocumentAgent._extract_sources] both fill a dict keyed by document
    name. A dict is the list of its items in insertion order: a new key
    goes to the end, an existing key keeps its place. *)

(** The body of the loop of [_group_by_document]:
    [if doc not in grouped: grouped[doc] = []] and then
    [grouped[doc].append(chunk)]. *)
Fixpoint group_add (grouped : list (string * list Chunk)) (doc : string)
         (chunk : Chunk) : list (string * list Chunk) :=
  match grouped with
  | [] => [(doc, [chunk])]
  | (d, cs) :: rest =>
      if String.eqb d doc then (d, (cs ++ [chunk])%list) :: rest
      else (d, cs) :: group_add rest doc chunk
  end.

(** [ResponseSynthesizer._group_by_document] *)
Definition _group_by_document (chunks : list Chunk) : list (string * list Chunk) :=
  fold_left (fun grouped chunk => group_add grouped (document chunk) chunk) chunks [].

(** [pages.add(page)] on a set given as the list of its elements. *)
Definition set_add (page : Z) (pages : list Z) : list Z :=
  if existsb (Z.eqb page) pages then pages else (pages ++ [page])%list.

(** The body of the first loop of [_extract_sources]: a new document gets
    an entry with the relevance of this chunk, and the page is added to the
    entry's set. *)
Fixpoint source_add (sources : list (string * (list Z * Q))) (doc : string)
         (page : Z) (rel : Q) : list (string * (list Z * Q)) :=
  match sources with
  | [] => [(doc, ([page], rel))]
  | (d, (pages, r)) :: rest =>
      if String.eqb d doc then (d, (set_add page pages, r)) :: rest
      else (d, (pages, r)) :: source_add rest doc page rel
  end.

(** [sorted(l)] on integers, by insertion. *)
Fixpoint insert_int (x : Z) (l : list Z) : list Z :=
  match l with
  | [] => [x]
  | y :: r => if x <=? y then x :: y :: r else y :: insert_int x r
  end.

Fixpoint sorted_ints (l : list Z) : list Z :=
  match l with
  | [] => []
  | x :: r => insert_int x (sorted_ints r)
  end.

(** An element of the list returned by [_extract_sources]. *)
Record Source : Type := mkSource {
  src_document : string;
  src_pages : list Z;
  src_relevance : Q
}.

(** [DocumentAgent._extract_sources] *)
Definition _extract_sources (chunks : list Chunk) : list Source :=
  let sources :=
    fold_left (fun sources chunk =>
                 source_add sources (document chunk) (page_number chunk)
                            (relevance chunk))
              chunks [] in
  let source_list :=
    map (fun '(doc, (pages, rel)) =>
           {| src_document := doc; src_pages := sorted_ints pages;
              src_relevance := rel |})
        sources in
  map fst (sort_desc (map (fun src => (src, src_relevance src)) source_list)).

(** The elements of [l] in the order of their first occurrences. *)
Fixpoint first_occurrences {A} (eqb : A -> A -> bool) (l : list A) : list A :=
  match l with
  | [] => []
  | x :: r => x :: List.filter (fun y => negb (eqb y x)) (first_occurrences eqb r)
  end.

(** The chunks of document [doc], in list order. *)
Definition chunks_of (doc : string) (chunks : list Chunk) : list Chunk :=
  List.filter (fun c => String.eqb (document c) doc) chunks.

(** The entry of [_extract_sources] for a group of chunks of one document:
    the distinct pages and the relevance of the first chunk. *)
Definition source_entry (g : string * list Chunk) : string * (list Z * Q) :=
  (fst g, (first_occurrences Z.eqb (map page_number (snd g)),
           relevance (hd empty_chunk (snd g)))).

(** The groups in closed form: one group per document, in the order of
    the first occurrences, holding the chunks of the document in order. *)
Definition groups_of (chunks : list Chunk) : list (string * list Chunk) :=
  map (fun doc => (doc, chunks_of doc chunks))
      (first_occurrences String.eqb (map document chunks)).

(** A non-empty string without leading or trailing whitespace. *)
Definition trimmed (s : string) : Prop :=
  PyStr.lstrip s = s /\ PyStr.rstrip s = s /\ s <> "".

(* ===================================================================== *)
(** * The PDF loader ([src/processors/pdf_processor.py]) *)
(* ===================================================================== *)

(** An element of [document_data['pages']]. *)
Record PdfPage : Type := mkPdfPage {
  pdf_page_number : Z;
  pdf_text : string;
  pdf_char_count : Z
}.

(** The loop of [_process_pdf] over [enumerate(pdf_reader.pages, 1)]:
    [texts] are the results of [page.extract_text()], page by page, and
    [page_num] is the number of the first of them. *)
Fixpoint extract_pages (texts : list string) (page_num : Z) : list PdfPage :=
  match texts with
  | [] => []
  | page_text :: rest =>
      let tail := extract_pages rest (page_num + 1) in
      if negb (PyStr.is_empty (PyStr.strip page_text))
      then {| pdf_page_number := page_num; pdf_text := page_text;
              pdf_char_count := PyStr.len page_text |} :: tail
      else tail
  end.

Section ProcessPdf.
(** The metadata dict and the time stamp are kept as they are. *)
Context {Metadata Timestamp : Type}.

(** What [_process_pdf] reads of a [PyPDF2.PdfReader]: the metadata that
    [_extract_metadata] returns for it and the text of each page. *)
Record PdfReader : Type := mkPdfReader {
  reader_metadata : Metadata;
  reader_page_texts : list string
}.

(** The dict [document_data]. *)
Record DocumentData : Type := mkDocumentData {
  dd_file_path : string;
  dd_file_name : string;
  dd_pages : list PdfPage;
  dd_metadata : Metadata;
  dd_total_pages : Z;
  dd_processed_at : Timestamp
}.

(** [PDFProcessor._process_pdf] on a file that opens and whose pages
    yield their text; [now] is [datetime.now().isoformat()]. *)
Definition _process_pdf (file_path file_name : string) (pdf_reader : PdfReader)
           (now : Timestamp) : DocumentData :=
  {| dd_file_path := file_path;
     dd_file_name := file_name;
     dd_pages := extract_pages (reader_page_texts pdf_reader) 1;
     dd_metadata := reader_metadata pdf_reader;
     dd_total_pages := Z.of_nat (length (reader_page_texts pdf_reader));
     dd_processed_at := now |}.

(** What [chunk_document] reads of a [document_data]: the file name and,
    of each page, the text and the page number. *)
Definition as_document (document_data : DocumentData) : Document :=
  {| file_name := dd_file_name document_data;
     pages := map (fun p => {| page_text := pdf_text p;
                               page_no := pdf_page_number p |})
                  (dd_pages document_data) |}.

End ProcessPdf.

(* ===================================================================== *)
(** * Properties of the chunker *)
(* ===================================================================== *)

Section StringLengths.

Lemma length_append (a b : string) :
  String.length (a ++ b) = (String.length a + String.length b)%nat.
Proof. induction a as [|c a IH]; simpl; [reflexivity | now rewrite IH]. Qed.

Lemma len_append (a b : string) :
  PyStr.len (a ++ b) = PyStr.len a + PyStr.len b.
Proof. unfold PyStr.len. rewrite length_append. lia. Qed.

Lemma len_nonneg (s : string) : 0 <= PyStr.len s.
Proof. unfold PyStr.len. lia. Qed.

Lemma lstrip_length (s : string) :
  (String.length (PyStr.lstrip s) <= String.length s)%nat.
Proof.
  induction s as [|c s IH]; simpl; [lia|].
  destruct (PyStr.isspace c); simpl; lia.
Qed.

Lemma rstrip_length (s : string) :
  (String.length (PyStr.rstrip s) <= String.length s)%nat.
Proof.
  induction s as [|c s IH]; simpl; [lia|].
  destruct (PyStr.isspace c && PyStr.is_empty (PyStr.rstrip s))%bool; simpl; lia.
Qed.

Lemma strip_len (s : string) : PyStr.len (PyStr.strip s) <= PyStr.len s.
Proof.
  unfold PyStr.len, PyStr.strip.
  pose proof (lstrip_length (PyStr.rstrip s)). pose proof (rstrip_length s). lia.
Qed.

Lemma drop_length (n : nat) (s : string) :
  String.length (PyStr.drop n s) = (String.length s - n)%nat.
Proof.
  revert s; induction n as [|n IH]; intros s; simpl; [lia|].
  destruct s as [|c s]; simpl; [reflexivity | apply IH].
Qed.

(** For a positive [k], [s[-k:]] holds the last [k] characters, or all
    of [s] when it is shorter. *)
Lemma tail_slice_len (k : Z) (s : string) :
  0 < k -> PyStr.len (PyStr.tail_slice k s) = Z.min k (PyStr.len s).
Proof.
  intros Hk. unfold PyStr.tail_slice, PyStr.len.
  destruct (Z.eqb_spec k 0) as [->|_]; [lia|].
  destruct (Z.ltb_spec 0 k); [|lia].
  rewrite drop_length. lia.
Qed.

(** [s[-0:]] is the whole of [s]. *)
Lemma tail_slice_zero (s : string) : PyStr.tail_slice 0 s = s.
Proof. reflexivity. Qed.

End StringLengths.

Section ChunkSizeBound.
Variable self : TextChunker.
Variables (page : Z) (src : string).
Hypothesis overlap_pos : 0 < chunk_overlap self.
Hypothesis size_nonneg : 0 <= chunk_size self.

Let bound : Z := chunk_size self + chunk_overlap self.

Lemma create_chunk_char_count (txt : string) (start : Z) :
  pc_char_count (_create_chunk txt page src start) <= PyStr.len txt.
Proof. simpl. apply strip_len. Qed.

Lemma next_buffer_len (current_chunk para : string) :
  PyStr.len para <= chunk_size self ->
  PyStr.len (next_buffer self current_chunk para) <= bound.
Proof.
  intros Hp. unfold next_buffer, bound.
  destruct (Z.ltb_spec (chunk_overlap self) (PyStr.len current_chunk)).
  - rewrite len_append, tail_slice_len by assumption. lia.
  - lia.
Qed.

(** The buffer never grows beyond [chunk_size + chunk_overlap], so no
    chunk closed from it does. *)
Lemma chunk_paragraphs_bound (paragraphs : list string) :
  List.Forall (fun p => PyStr.len p <= chunk_size self) paragraphs ->
  forall current_chunk current_start,
    PyStr.len current_chunk <= bound ->
    List.Forall (fun c => pc_char_count c <= bound)
      (chunk_paragraphs self page src paragraphs current_chunk current_start).
Proof.
  induction 1 as [|para rest Hpara Hrest IH]; intros cur start Hcur; simpl.
  - destruct (_ <=? _); constructor; [|constructor].
    pose proof (create_chunk_char_count cur start). lia.
  - destruct (Z.ltb_spec (chunk_size self) (PyStr.len cur + PyStr.len para)).
    + apply Forall_app. split.
      * destruct (negb _); constructor; [|constructor].
        pose proof (create_chunk_char_count cur start). lia.
      * apply IH. now apply next_buffer_len.
    + apply IH. rewrite len_append. unfold bound. lia.
Qed.

(** With a positive overlap, a page whose paragraphs fit in [chunk_size]
    only yields chunks of at most [chunk_size + chunk_overlap]
    characters. *)
Lemma chunk_page_bound_positive_overlap (txt : string) :
  List.Forall (fun p => PyStr.len p <= chunk_size self)
              (_split_into_paragraphs txt) ->
  List.Forall (fun c => pc_char_count c <= bound)
              (_chunk_page self page src txt).
Proof.
  intros H. unfold _chunk_page. apply chunk_paragraphs_bound; [assumption|].
  unfold bound, PyStr.len. simpl. lia.
Qed.
End ChunkSizeBound.

(** C7 (the code departs from the claim when [chunk_overlap = 0]): every
    paragraph of [three_paragraphs], separator included, has 8 characters,
    within [chunk_size = 10]; yet the chunker with [chunk_overlap = 0]
    emits chunks of 14 and 22 characters, above
    [chunk_size + chunk_overlap = 10]. The seed of a new buffer is
    [current_chunk[-0:]], the whole closed buffer, so the buffer is never
    cut. For a positive overlap the bound holds
    ([chunk_page_bound_positive_overlap]). *)
Theorem C7_bound_fails_without_overlap :
  List.Forall (fun p => PyStr.len p <= chunk_size no_overlap_chunker)
              (_split_into_paragraphs three_paragraphs)
  /\ map pc_char_count (_chunk_page no_overlap_chunker 1 "doc.pdf" three_paragraphs)
     = [6; 14; 22]
  /\ ~ List.Forall
        (fun c => pc_char_count c
                  <= chunk_size no_overlap_chunker + chunk_overlap no_overlap_chunker)
        (_chunk_page no_overlap_chunker 1 "doc.pdf" three_paragraphs).
Proof.
  split; [|split].
  - vm_compute. repeat constructor; discriminate.
  - vm_compute. reflexivity.
  - intros H. apply Forall_inv_tail, Forall_inv in H. vm_compute in H.
    apply H. reflexivity.
Qed.

(** ** Chunk identifiers *)

Lemma ids_from_succ (first : Z) (n : nat) :
  ids_from first (S n) = first :: ids_from (first + 1) n.
Proof.
  unfold ids_from. simpl. f_equal; [lia|].
  rewrite <- seq_shift, map_map. apply map_ext. intros i. lia.
Qed.

Lemma ids_from_app (first : Z) (n m : nat) :
  ids_from first (n + m)
  = (ids_from first n ++ ids_from (first + Z.of_nat n) m)%list.
Proof.
  revert first; induction n as [|n IH]; intros first.
  - simpl. f_equal. lia.
  - change (S n + m)%nat with (S (n + m)). rewrite !ids_from_succ, IH. simpl.
    do 3 f_equal. lia.
Qed.

Lemma ids_from_increasing (first : Z) (n : nat) :
  StronglySorted Z.lt (ids_from first n).
Proof.
  revert first; induction n as [|n IH]; intros first.
  - constructor.
  - rewrite ids_from_succ. constructor; [apply IH|].
    unfold ids_from. apply List.Forall_forall. intros x Hx.
    apply in_map_iff in Hx as (i & <- & _). lia.
Qed.

Lemma number_chunks_spec (name : string) (page_chunks : list PageChunk) (next_id : Z) :
  map chunk_id (fst (number_chunks name page_chunks next_id))
    = ids_from next_id (length page_chunks)
  /\ snd (number_chunks name page_chunks next_id)
    = next_id + Z.of_nat (length page_chunks)
  /\ length (fst (number_chunks name page_chunks next_id)) = length page_chunks.
Proof.
  revert next_id; induction page_chunks as [|c r IH]; intros next_id.
  - simpl. repeat split. lia.
  - cbn [number_chunks]. specialize (IH (next_id + 1)).
    destruct (number_chunks name r (next_id + 1)) as [cs last].
    simpl in IH. destruct IH as (Hids & Hlast & Hlen).
    cbn [fst snd map length chunk_id]. rewrite ids_from_succ, Hids, Hlast, Hlen.
    repeat split. lia.
Qed.

(** The counter runs on from page to page. *)
Lemma chunk_pages_ids (self : TextChunker) (name : string) (ps : list Page)
      (next_id : Z) :
  map chunk_id (chunk_pages self name ps next_id)
    = ids_from next_id (length (chunk_pages self name ps next_id)).
Proof.
  revert next_id; induction ps as [|p r IH]; intros next_id; [reflexivity|].
  cbn [chunk_pages].
  pose proof (number_chunks_spec name
                (_chunk_page self (page_no p) name (page_text p)) next_id) as H.
  destruct (number_chunks name _ next_id) as [cs next_id'].
  simpl in H. destruct H as (Hids & Hnext & Hlen).
  rewrite map_app, length_app, ids_from_app, Hids, IH, Hlen, Hnext.
  reflexivity.
Qed.

(** C2, as stated, fails: a corpus of two documents of one chunk each
    gives both chunks the identifier [0], so the identifiers of the corpus
    are neither unique nor increasing. *)
Lemma C2_ids_restart_per_document :
  map chunk_id (chunk_documents [charter; bylaws]) = [0; 0]
  /\ ~ List.NoDup (map chunk_id (chunk_documents [charter; bylaws]))
  /\ ~ StronglySorted Z.lt (map chunk_id (chunk_documents [charter; bylaws])).
Proof.
  assert (H : map chunk_id (chunk_documents [charter; bylaws]) = [0; 0])
    by (vm_compute; reflexivity).
  rewrite H. split; [reflexivity|]. split.
  - intros Hnd. inversion Hnd as [|x l Hnotin _]; subst. apply Hnotin. now left.
  - intros Hs. inversion Hs as [|x l _ Hall]; subst.
    apply Forall_inv in Hall. lia.
Qed.

(** C2, amended: within one document the identifiers are [0, 1, 2, ...]
    in emission order, running on from page to page, hence unique and
    increasing; the chunks of a corpus are the chunks of its documents in
    order, each document numbered from [0] again. *)
Theorem C2_chunk_ids_per_document (self : TextChunker) (d : Document)
        (documents : list Document) :
  map chunk_id (chunk_document self d) = ids_from 0 (length (chunk_document self d))
  /\ StronglySorted Z.lt (map chunk_id (chunk_document self d))
  /\ List.NoDup (map chunk_id (chunk_document self d))
  /\ map chunk_id (chunk_documents documents)
     = flat_map (fun doc => ids_from 0 (length (chunk_document default_chunker doc)))
                documents.
Proof.
  assert (Hids : map chunk_id (chunk_document self d)
                 = ids_from 0 (length (chunk_document self d)))
    by apply chunk_pages_ids.
  split; [exact Hids|]. split; [|split].
  - rewrite Hids. apply ids_from_increasing.
  - rewrite Hids.
    generalize (ids_from_increasing 0 (length (chunk_document self d))).
    generalize (ids_from 0 (length (chunk_document self d))).
    induction 1 as [|x l _ IH Hall]; constructor; [|exact IH].
    intros Hin. rewrite List.Forall_forall in Hall. specialize (Hall x Hin). lia.
  - unfold chunk_documents. induction documents as [|doc r IH]; [reflexivity|].
    simpl. rewrite map_app, IH. f_equal. apply chunk_pages_ids.
Qed.

(* ===================================================================== *)
(** * Properties of the store *)
(* ===================================================================== *)

Section ListFacts.
Context {A : Type}.

Lemma firstn_In (n : nat) (l : list A) (x : A) :
  In x (firstn n l) -> In x l.
Proof.
  intros H. rewrite <- (firstn_skipn n l). apply in_or_app. now left.
Qed.

Lemma slice_to_incl (k : Z) (l : list A) (x : A) :
  In x (slice_to k l) -> In x l.
Proof. unfold slice_to. destruct (0 <=? k); apply firstn_In. Qed.

Lemma slice_to_zero (l : list A) : slice_to 0 l = [].
Proof. reflexivity. Qed.

Lemma slice_to_nil (k : Z) : slice_to k (@nil A) = [].
Proof. unfold slice_to. destruct (0 <=? k); now rewrite firstn_nil. Qed.

Lemma StronglySorted_app_cross (R : A -> A -> Prop) (l1 l2 : list A) :
  StronglySorted R (l1 ++ l2) ->
  forall x y, In x l1 -> In y l2 -> R x y.
Proof.
  induction l1 as [|a l1 IH]; intros Hs x y Hx Hy; [destruct Hx|].
  simpl in Hs. apply StronglySorted_inv in Hs as [Hs Hall].
  destruct Hx as [->|Hx].
  - rewrite List.Forall_forall in Hall. apply Hall, in_or_app. now right.
  - now apply IH.
Qed.

Lemma StronglySorted_app_left (R : A -> A -> Prop) (l1 l2 : list A) :
  StronglySorted R (l1 ++ l2) -> StronglySorted R l1.
Proof.
  induction l1 as [|a l1 IH]; intros Hs; [constructor|].
  simpl in Hs. apply StronglySorted_inv in Hs as [Hs Hall].
  constructor; [now apply IH|].
  apply Forall_app in Hall. tauto.
Qed.

Lemma StronglySorted_snoc (R : A -> A -> Prop) (l : list A) (x : A) :
  StronglySorted R l -> List.Forall (fun y => R y x) l ->
  StronglySorted R (l ++ [x]).
Proof.
  induction 1 as [|a l Hs IH Hall]; intros Hx; simpl.
  - repeat constructor.
  - apply Forall_cons_iff in Hx as [Hax Hx].
    constructor; [now apply IH|].
    apply Forall_app. split; [exact Hall | now repeat constructor].
Qed.

(** Reversing a list sorted for [R] sorts it for the converse of [R]. *)
Lemma StronglySorted_rev (R : A -> A -> Prop) (l : list A) :
  StronglySorted R l -> StronglySorted (fun x y => R y x) (rev l).
Proof.
  induction 1 as [|a l Hs IH Hall]; simpl; [constructor|].
  apply StronglySorted_snoc; [exact IH|].
  apply List.Forall_forall. intros y Hy. apply in_rev in Hy.
  rewrite List.Forall_forall in Hall. now apply Hall.
Qed.

Lemma StronglySorted_filter (R : A -> A -> Prop) (f : A -> bool) (l : list A) :
  StronglySorted R l -> StronglySorted R (List.filter f l).
Proof.
  induction 1 as [|a l Hs IH Hall]; simpl; [constructor|].
  destruct (f a); [|exact IH].
  constructor; [exact IH|].
  apply List.Forall_forall. intros y Hy. apply filter_In in Hy as [Hy _].
  rewrite List.Forall_forall in Hall. now apply Hall.
Qed.

Lemma StronglySorted_map {B} (R : B -> B -> Prop) (g : A -> B) (l : list A) :
  StronglySorted (fun x y => R (g x) (g y)) l -> StronglySorted R (map g l).
Proof.
  induction 1 as [|a l Hs IH Hall]; simpl; constructor; [exact IH|].
  apply Forall_map. exact Hall.
Qed.

Lemma filter_length_le (f : A -> bool) (l : list A) :
  (length (List.filter f l) <= length l)%nat.
Proof. induction l as [|a l IH]; simpl; [lia|]. destruct (f a); simpl; lia. Qed.

(** A filter that accepts more keeps more. *)
Lemma filter_length_mono (f g : A -> bool) (l : list A) :
  (forall x, f x = true -> g x = true) ->
  (length (List.filter f l) <= length (List.filter g l))%nat.
Proof.
  intros Hfg. induction l as [|a l IH]; simpl; [lia|].
  destruct (f a) eqn:Hf.
  - rewrite (Hfg a Hf). simpl. lia.
  - destruct (g a); simpl; lia.
Qed.
End ListFacts.

Section StoreProperties.
Context {sk : Sklearn}.

Lemma collect_results_in_bounds (stored : list Chunk) (similarities : list Q)
      (threshold : Q) (idxs : list nat) :
  length similarities = length stored ->
  List.Forall (fun i => (i < length stored)%nat) idxs ->
  collect_results stored similarities threshold idxs
  = Return (map (fun i => (nth i stored empty_chunk, nth i similarities 0%Q))
                (passing similarities threshold idxs)).
Proof.
  intros Hlen. induction 1 as [|i r Hi Hr IH]; [reflexivity|].
  cbn [collect_results passing List.filter].
  destruct (lookup_lt_is_Some_2 similarities i) as [x Hx]; [lia|].
  destruct (lookup_lt_is_Some_2 stored i Hi) as [c Hc].
  rewrite Hx, Hc, (nth_lookup_Some _ _ _ _ Hx).
  fold (passing similarities threshold r).
  destruct (Qle_bool threshold x); [|exact IH].
  rewrite IH. cbn [bind map].
  now rewrite (nth_lookup_Some _ _ _ _ Hc), (nth_lookup_Some _ _ _ _ Hx).
Qed.

(** An unbuilt store answers every query with the empty list. *)
Lemma search_unbuilt (s : VectorStore) (query : string) (top_k : Z) (threshold : Q) :
  is_indexed s = false -> search s query top_k threshold = Return [].
Proof. intros H. unfold search. now rewrite H. Qed.

Context {laws : SklearnLaws sk}.

Lemma argsort_in_bounds (a : list Q) (i : nat) :
  In i (argsort a) -> (i < length a)%nat.
Proof.
  intros Hi. apply (Permutation_in _ (argsort_permutation a)) in Hi.
  apply in_seq in Hi. lia.
Qed.

Lemma top_indices_in_bounds (a : list Q) (top_k : Z) :
  List.Forall (fun i => (i < length a)%nat) (top_indices_of a top_k).
Proof.
  apply List.Forall_forall. intros i Hi. unfold top_indices_of in Hi.
  apply slice_to_incl, in_rev in Hi. now apply argsort_in_bounds.
Qed.

(** On a built store [search] returns, and what it returns is read off
    the ranking. *)
Lemma search_built (s : VectorStore) (v : vectorizer_t) (m : list row)
      (query : string) (top_k : Z) (threshold : Q) :
  is_indexed s = true -> vectorizer s = Some v -> fitted v = true ->
  vectors s = Some m -> length m = length (chunks s) ->
  search s query top_k threshold
  = Return (map (fun i => (nth i (chunks s) empty_chunk,
                           nth i (similarities_of s v query) 0%Q))
                (passing (similarities_of s v query) threshold
                         (top_indices_of (similarities_of s v query) top_k))).
Proof.
  intros Hidx Hv Hfit Hm Hlen. unfold search. rewrite Hidx, Hv, Hfit. cbn [negb].
  assert (Hsims : length (similarities_of s v query) = length (chunks s)).
  { unfold similarities_of. rewrite Hm, cosine_similarity_length. exact Hlen. }
  apply collect_results_in_bounds; [exact Hsims|].
  rewrite <- Hsims. apply top_indices_in_bounds.
Qed.

(** C8: on a built index, for a fixed query and [top_k], both searches
    return and the one with the higher threshold returns at most as many
    results. *)
Theorem C8_threshold_monotone (s : VectorStore) (query : string) (top_k : Z)
        (t1 t2 : Q) :
  built s -> (t1 <= t2)%Q ->
  exists r1 r2,
    search s query top_k t1 = Return r1
    /\ search s query top_k t2 = Return r2
    /\ (length r2 <= length r1)%nat.
Proof.
  intros (Hidx & v & m & Hv & Hfit & Hm & Hlen) Ht.
  eexists _, _. split; [|split].
  - apply (search_built s v m); assumption.
  - apply (search_built s v m); assumption.
  - rewrite !length_map. apply filter_length_mono. intros i Hi.
    apply Qle_bool_iff. apply Qle_bool_iff in Hi. now apply Qle_trans with t2.
Qed.
End StoreProperties.

Section SearchRanking.
Context {sk : Sklearn} {laws : SklearnLaws sk}.

Lemma filter_all {A} (f : A -> bool) (l : list A) :
  (forall x, In x l -> f x = true) -> List.filter f l = l.
Proof.
  induction l as [|a l IH]; intros H; simpl; [reflexivity|].
  rewrite (H a (or_introl eq_refl)). f_equal. apply IH. intros x Hx.
  apply H. now right.
Qed.

(** The ranking [np.argsort(a)[::-1]]: every index once, by descending
    value. *)
Lemma ranking_descending (a : list Q) :
  StronglySorted (fun i j => (nth j a 0 <= nth i a 0)%Q) (rev (argsort a)).
Proof. apply StronglySorted_rev, argsort_ascending. Qed.

Lemma ranking_NoDup (a : list Q) : List.NoDup (rev (argsort a)).
Proof.
  apply (Permutation_NoDup (l := seq 0 (length a))); [|apply seq_NoDup].
  symmetry. etransitivity; [symmetry; apply Permutation_rev|].
  apply argsort_permutation.
Qed.

Lemma ranking_complete (a : list Q) (j : nat) :
  (j < length a)%nat -> In j (rev (argsort a)).
Proof.
  intros Hj. apply in_rev. rewrite rev_involutive.
  apply (Permutation_in _ (Permutation_sym (argsort_permutation a))).
  apply in_seq. lia.
Qed.

(** C5, amended: on a built index and for [top_k >= 0], [search] returns
    the stored chunks, each with its cosine similarity, at a list of
    distinct indices such that: every similarity is at least the
    threshold; the results are ordered by similarity descending; there
    are at most [top_k] of them; and a chunk whose similarity reaches the
    threshold is left out only when [top_k] results are returned, each
    with a similarity at least as high. The order among equal
    similarities is the one of the reversed argsort: the indices are the
    first [top_k] of the reversed argsort that reach the threshold, in
    that order; the chunk identifiers play no part. *)
Theorem C5_search_returns_top_k_above_threshold
        (s : VectorStore) (query : string) (top_k : Z) (threshold : Q) :
  built s -> 0 <= top_k ->
  exists v idxs,
    vectorizer s = Some v
    /\ search s query top_k threshold
       = Return (map (fun i => (nth i (chunks s) empty_chunk,
                                nth i (similarities_of s v query) 0%Q)) idxs)
    /\ idxs = passing (similarities_of s v query) threshold
                      (slice_to top_k (rev (argsort (similarities_of s v query))))
    /\ List.NoDup idxs
    /\ List.Forall (fun i => (i < length (chunks s))%nat) idxs
    /\ List.Forall
         (fun i => (threshold <= nth i (similarities_of s v query) 0)%Q) idxs
    /\ StronglySorted
         (fun i j => (nth j (similarities_of s v query) 0
                      <= nth i (similarities_of s v query) 0)%Q) idxs
    /\ (length idxs <= Z.to_nat top_k)%nat
    /\ forall j,
         (j < length (chunks s))%nat -> ~ In j idxs ->
         (threshold <= nth j (similarities_of s v query) 0)%Q ->
         length idxs = Z.to_nat top_k
         /\ List.Forall
              (fun i => (nth j (similarities_of s v query) 0
                         <= nth i (similarities_of s v query) 0)%Q) idxs.
Proof.
  intros (Hidx & v & m & Hv & Hfit & Hm & Hlen) Hk.
  set (sims := similarities_of s v query).
  assert (Hsims : length sims = length (chunks s)).
  { unfold sims, similarities_of. rewrite Hm, cosine_similarity_length. exact Hlen. }
  set (order := rev (argsort sims)).
  set (n := Z.to_nat top_k).
  assert (Htop : top_indices_of sims top_k = firstn n order).
  { unfold top_indices_of, slice_to. destruct (Z.leb_spec 0 top_k); [reflexivity|lia]. }
  assert (Hsplit : (firstn n order ++ skipn n order)%list = order)
    by apply firstn_skipn.
  pose proof (ranking_descending sims) as Hdesc. fold order in Hdesc.
  pose proof (ranking_NoDup sims) as Hnd. fold order in Hnd.
  rewrite <- Hsplit in Hdesc, Hnd.
  exists v, (passing sims threshold (firstn n order)).
  split; [exact Hv|].
  split; [|split; [|split; [|split; [|split; [|split; [|split]]]]]].
  - rewrite <- Htop. apply (search_built s v m); assumption.
  - rewrite <- Htop. reflexivity.
  - apply List.NoDup_filter. now apply NoDup_app_remove_r in Hnd.
  - apply List.Forall_forall. intros i Hi. apply filter_In in Hi as [Hi _].
    rewrite <- Htop in Hi. rewrite <- Hsims.
    pose proof (top_indices_in_bounds sims top_k) as Hb.
    rewrite List.Forall_forall in Hb. now apply Hb.
  - apply List.Forall_forall. intros i Hi. apply filter_In in Hi as [_ Hi].
    now apply Qle_bool_iff.
  - apply StronglySorted_filter. now apply StronglySorted_app_left in Hdesc.
  - etransitivity; [apply filter_length_le | apply firstn_le_length].
  - intros j Hj Hout Hthr.
    assert (Hrest : In j (skipn n order)).
    { assert (Hin : In j order) by (apply ranking_complete; lia).
      rewrite <- Hsplit in Hin. apply in_app_or in Hin as [Hin|Hin]; [|exact Hin].
      exfalso. apply Hout. apply filter_In. split; [exact Hin|].
      now apply Qle_bool_iff. }
    assert (Habove : forall i, In i (firstn n order) ->
                               (nth j sims 0 <= nth i sims 0)%Q).
    { intros i Hi.
      exact (StronglySorted_app_cross _ _ _ Hdesc i j Hi Hrest). }
    assert (Hall : passing sims threshold (firstn n order) = firstn n order).
    { apply filter_all. intros i Hi. apply Qle_bool_iff.
      apply Qle_trans with (nth j sims 0%Q); [exact Hthr | now apply Habove]. }
    rewrite Hall. split.
    + rewrite length_firstn. assert (length (skipn n order) <> 0%nat).
      { destruct (skipn n order); [destruct Hrest | discriminate]. }
      rewrite length_skipn in *. lia.
    + apply List.Forall_forall. exact Habove.
Qed.
End SearchRanking.

(** ** Builds, empty builds and rebuilds *)

Section Builds.
Context {sk : Sklearn}.

(** C1, amended: [add_chunks] with an empty sequence on a store that is
    not built returns without raising, leaves the store not built, and
    every later [search] on it returns the empty sequence. *)
Theorem C1_empty_build_on_unbuilt_store
        (s : VectorStore) (query : string) (top_k : Z) (threshold : Q) :
  is_indexed s = false ->
  snd (add_chunks s []) = Return tt
  /\ is_indexed (fst (add_chunks s [])) = false
  /\ chunks (fst (add_chunks s [])) = []
  /\ search (fst (add_chunks s [])) query top_k threshold = Return [].
Proof.
  intros H. cbn. repeat split; try assumption.
  apply search_unbuilt. exact H.
Qed.

(** A successful build of a non-empty corpus yields a built store. *)
Lemma add_chunks_built {laws : SklearnLaws sk} (s : VectorStore) (cs : list Chunk) :
  cs <> [] -> snd (add_chunks s cs) = Return tt ->
  built (fst (add_chunks s cs)) /\ chunks (fst (add_chunks s cs)) = cs.
Proof.
  intros Hne. unfold add_chunks, _build_index. cbn [chunks].
  destruct cs as [|c cs]; [contradiction|].
  destruct (fit_transform (map text (c :: cs))) as [[v m]|e] eqn:Hfit;
    cbn; [intros _|discriminate].
  split; [|reflexivity]. split; [reflexivity|]. exists v, m.
  split; [reflexivity|]. split; [exact (fit_transform_fitted _ _ _ Hfit)|].
  split; [reflexivity|]. apply fit_transform_rows in Hfit.
  now rewrite length_map in Hfit.
Qed.

Lemma built_aligned (s : VectorStore) : built s -> aligned s.
Proof.
  intros (_ & v & m & _ & _ & Hm & Hlen). unfold aligned, vector_count.
  now rewrite Hm.
Qed.

Lemma new_store_aligned : aligned new_store.
Proof. reflexivity. Qed.

(** Whatever the library, an empty build on a built store that holds a
    chunk leaves a store that is not aligned. *)
Lemma empty_rebuild_misaligned (s : VectorStore) :
  built s -> chunks s <> [] -> ~ aligned (fst (add_chunks s [])).
Proof.
  intros (_ & v & m & _ & _ & Hm & Hlen) Hne. unfold aligned, vector_count. cbn.
  rewrite Hm, Hlen. destruct (chunks s); [contradiction | discriminate].
Qed.

(** An empty rebuild replaces the chunks and keeps the vectors and the
    flag of the previous build. *)
Lemma empty_rebuild_keeps_vectors (s : VectorStore) :
  fst (add_chunks s [])
  = {| chunks := []; vectorizer := vectorizer s;
       vectors := vectors s; is_indexed := is_indexed s |}.
Proof. reflexivity. Qed.
End Builds.

(* ===================================================================== *)
(** * The executable instance satisfies the laws *)
(* ===================================================================== *)

Module BagOfWordsLaws.
Import BagOfWords.

Lemma insert_index_permutation (a : list Q) (i : nat) (l : list nat) :
  Permutation (insert_index a i l) (i :: l).
Proof.
  induction l as [|j r IH]; simpl; [reflexivity|].
  destruct (Qle_bool _ _); [|reflexivity].
  rewrite IH. apply perm_swap.
Qed.

Lemma fold_insert_permutation (a : list Q) (xs acc : list nat) :
  Permutation (fold_left (fun acc i => insert_index a i acc) xs acc)
              (acc ++ xs)%list.
Proof.
  revert acc; induction xs as [|x xs IH]; intros acc; simpl.
  - now rewrite app_nil_r.
  - rewrite IH, insert_index_permutation.
    change (x :: acc)%list with ([x] ++ acc)%list.
    rewrite (Permutation_app_comm [x] acc), <- app_assoc. reflexivity.
Qed.

Lemma insert_index_sorted (a : list Q) (i : nat) (l : list nat) :
  StronglySorted (fun x y => (nth x a 0 <= nth y a 0)%Q) l ->
  StronglySorted (fun x y => (nth x a 0 <= nth y a 0)%Q) (insert_index a i l).
Proof.
  induction 1 as [|j r Hs IH Hall]; simpl; [repeat constructor|].
  destruct (Qle_bool (nth j a 0%Q) (nth i a 0%Q)) eqn:Hle.
  - apply Qle_bool_iff in Hle. constructor; [exact IH|].
    apply List.Forall_forall. intros y Hy.
    apply (Permutation_in _ (insert_index_permutation a i r)) in Hy.
    destruct Hy as [<-|Hy]; [exact Hle|].
    rewrite List.Forall_forall in Hall. now apply Hall.
  - assert (Hlt : (nth i a 0 <= nth j a 0)%Q).
    { apply Qlt_le_weak, Qnot_le_lt. intros Hc.
      apply Qle_bool_iff in Hc. congruence. }
    constructor; [now constructor|].
    constructor; [exact Hlt|].
    apply List.Forall_forall. intros y Hy.
    rewrite List.Forall_forall in Hall.
    apply Qle_trans with (nth j a 0%Q); [exact Hlt | now apply Hall].
Qed.

Lemma fold_insert_sorted (a : list Q) (xs acc : list nat) :
  StronglySorted (fun x y => (nth x a 0 <= nth y a 0)%Q) acc ->
  StronglySorted (fun x y => (nth x a 0 <= nth y a 0)%Q)
                 (fold_left (fun acc i => insert_index a i acc) xs acc).
Proof.
  revert acc; induction xs as [|x xs IH]; intros acc Hacc; simpl; [exact Hacc|].
  apply IH. now apply insert_index_sorted.
Qed.

#[export] Instance laws : SklearnLaws library.
Proof.
  split.
  - intros texts v m. cbn. unfold bow_fit_transform.
    destruct (PyStr.distinct _); [discriminate|].
    intros [= <- <-]. reflexivity.
  - intros texts v m. cbn. unfold bow_fit_transform.
    destruct (PyStr.distinct _); [discriminate|].
    intros [= <- <-]. apply length_map.
  - intros q m. cbn. apply length_map.
  - intros a. cbn. unfold stable_argsort.
    apply (fold_insert_permutation a (seq 0 (length a)) []).
  - intros a. cbn. unfold stable_argsort. apply fold_insert_sorted. constructor.
Qed.

End BagOfWordsLaws.

(* ===================================================================== *)
(** * The store on a concrete corpus *)
(* ===================================================================== *)

Module ExampleFacts.
Import BagOfWords BagOfWordsLaws Examples.

Lemma bank_store_built : built bank_store.
Proof.
  apply (add_chunks_built new_store [chunk_a; chunk_b]); [discriminate|].
  vm_compute. reflexivity.
Qed.

Lemma twin_store_built : built twin_store.
Proof.
  apply (add_chunks_built new_store [twin_first; twin_second]); [discriminate|].
  vm_compute. reflexivity.
Qed.

End ExampleFacts.

(** C1, as stated, fails: the empty build on a new store ends normally;
    nothing is raised. *)
Lemma C1_empty_build_does_not_raise :
  snd (add_chunks (sk := BagOfWords.library) new_store []) = Return tt
  /\ forall e, snd (add_chunks (sk := BagOfWords.library) new_store []) <> Raise e.
Proof. split; [reflexivity | discriminate]. Qed.

(** C1, amended, on a new store. *)
Lemma C1_empty_build_on_unbuilt_store_witness :
  is_indexed (sk := BagOfWords.library) new_store = false
  /\ snd (add_chunks (sk := BagOfWords.library) new_store []) = Return tt
  /\ search (fst (add_chunks (sk := BagOfWords.library) new_store []))
            "registered office" 5 0%Q = Return [].
Proof.
  split; [reflexivity|].
  destruct (C1_empty_build_on_unbuilt_store
              (sk := BagOfWords.library) new_store "registered office" 5 0%Q)
    as (Hret & _ & _ & Hsearch); [reflexivity|].
  split; [exact Hret | exact Hsearch].
Defined.

(** C3 (the code breaks the invariant): after a build of one chunk, an
    empty build empties the chunk list and returns early, keeping the one
    vector and the flag of the first build; the store is no longer
    aligned, and a search on it raises [IndexError]. *)
Theorem C3_empty_rebuild_breaks_alignment :
  chunks Examples.rebuilt_empty = []
  /\ vector_count Examples.rebuilt_empty = 1%nat
  /\ is_indexed Examples.rebuilt_empty = true
  /\ ~ aligned Examples.rebuilt_empty
  /\ search Examples.rebuilt_empty "bank" 5 0%Q = Raise IndexError.
Proof.
  split; [reflexivity|]. split; [reflexivity|]. split; [reflexivity|].
  split; [|vm_compute; reflexivity].
  unfold aligned. vm_compute. discriminate.
Qed.

(** C5, as stated, fails: two chunks with the same text have the same
    similarity to every query, and [search] returns the one with
    [chunk_id = 1] before the one with [chunk_id = 0]. *)
Lemma C5_ties_not_by_chunk_id :
  exists r1 r2,
    search Examples.twin_store "bank" 2 0%Q = Return [r1; r2]
    /\ (snd r1 == snd r2)%Q
    /\ chunk_id (fst r1) = 1 /\ chunk_id (fst r2) = 0.
Proof.
  eexists _, _. split; [vm_compute; reflexivity|].
  split; [reflexivity|]. split; reflexivity.
Qed.

(** C5, amended, on the store of two chunks with [top_k = 1]. *)
Lemma C5_search_returns_top_k_above_threshold_witness :
  exists v idxs,
    vectorizer Examples.bank_store = Some v
    /\ search Examples.bank_store "registered office" 1 (1 # 10)%Q
       = Return (map (fun i => (nth i (chunks Examples.bank_store) empty_chunk,
                                nth i (similarities_of Examples.bank_store v
                                                       "registered office") 0%Q))
                     idxs)
    /\ (length idxs <= 1)%nat.
Proof.
  destruct (C5_search_returns_top_k_above_threshold
              (laws := BagOfWordsLaws.laws) Examples.bank_store "registered office" 1 (1 # 10)%Q
              ExampleFacts.bank_store_built ltac:(lia))
    as (v & idxs & Hv & Hs & _ & _ & _ & _ & _ & Hlen & _).
  exists v, idxs. split; [exact Hv|]. split; [exact Hs | exact Hlen].
Defined.

(** C8 on the store of two chunks, thresholds 0.1 and 0.5. *)
Lemma C8_threshold_monotone_witness :
  exists r1 r2,
    search Examples.bank_store "registered office" 5 (1 # 10)%Q = Return r1
    /\ search Examples.bank_store "registered office" 5 (5 # 10)%Q = Return r2
    /\ (length r2 <= length r1)%nat.
Proof.
  apply (C8_threshold_monotone (laws := BagOfWordsLaws.laws)
                               Examples.bank_store "registered office" 5
                               (1 # 10)%Q (5 # 10)%Q ExampleFacts.bank_store_built).
  vm_compute. discriminate.
Defined.

(* ===================================================================== *)
(** * Properties of float rounding *)
(* ===================================================================== *)

Section FloatRounding.
Import PyFloat.
Local Open Scope Q_scope.

Lemma pow2_pos (e : Z) : 0 < pow2 e.
Proof. apply Qpower_0_lt. reflexivity. Qed.

Lemma pow2_le (a b : Z) : (a <= b)%Z -> pow2 a <= pow2 b.
Proof. intros H. apply Qpower_le_compat_l; [exact H | discriminate]. Qed.

Lemma pow2_add (a b : Z) : pow2 (a + b) == pow2 a * pow2 b.
Proof. apply Qpower_plus. discriminate. Qed.

Lemma pow2_Z (k : Z) : (0 <= k)%Z -> pow2 k == inject_Z (2 ^ k).
Proof. intros H. unfold pow2. now rewrite Zpower_Qpower. Qed.

(** Dividing by [2 ** u] and comparing with [2 ** (e - u)]. *)
Lemma div_pow2_le (x : Q) (e u : Z) : x <= pow2 e -> x / pow2 u <= pow2 (e - u).
Proof.
  intros H. apply Qle_shift_div_r; [apply pow2_pos|].
  rewrite <- pow2_add. now replace (e - u + u)%Z with e by lia.
Qed.

Lemma div_pow2_lt (x : Q) (e u : Z) : x < pow2 e -> x / pow2 u < pow2 (e - u).
Proof.
  intros H. apply Qlt_shift_div_r; [apply pow2_pos|].
  rewrite <- pow2_add. now replace (e - u + u)%Z with e by lia.
Qed.

Lemma div_pow2_ge (x : Q) (e u : Z) : pow2 e <= x -> pow2 (e - u) <= x / pow2 u.
Proof.
  intros H. apply Qle_shift_div_l; [apply pow2_pos|].
  rewrite <- pow2_add. now replace (e - u + u)%Z with e by lia.
Qed.

Lemma round_half_even_bounds (q : Q) :
  (Qfloor q <= round_half_even q <= Qfloor q + 1)%Z.
Proof.
  unfold round_half_even. destruct (q - inject_Z (Qfloor q) ?= 1 # 2);
    [destruct (Z.even (Qfloor q))|..]; lia.
Qed.

Lemma round_half_even_le (x y : Q) :
  x <= y -> (round_half_even x <= round_half_even y)%Z.
Proof.
  intros Hxy. pose proof (Qfloor_resp_le x y Hxy) as Hf.
  destruct (Z.eq_dec (Qfloor x) (Qfloor y)) as [Heq|Hne].
  - unfold round_half_even. rewrite <- Heq.
    destruct (Qcompare_spec (x - inject_Z (Qfloor x)) (1 # 2)) as [Hx|Hx|Hx];
      destruct (Qcompare_spec (y - inject_Z (Qfloor x)) (1 # 2)) as [Hy|Hy|Hy];
      try destruct (Z.even (Qfloor x)); try lia; exfalso; lra.
  - pose proof (round_half_even_bounds x). pose proof (round_half_even_bounds y).
    lia.
Qed.

Lemma round_half_even_Z (k : Z) : round_half_even (inject_Z k) = k.
Proof.
  unfold round_half_even. rewrite Qfloor_Z.
  destruct (Qcompare_spec (inject_Z k - inject_Z k) (1 # 2)) as [H|H|H];
    [exfalso; lra | reflexivity | exfalso; lra].
Qed.

Lemma round_half_even_small (q : Q) : 0 <= q -> q < 1 # 2 -> round_half_even q = 0%Z.
Proof.
  intros H0 H1.
  assert (Hf : Qfloor q = 0%Z).
  { pose proof (Qfloor_le q) as Hl. pose proof (Qlt_floor q) as Hu.
    assert (H2 : inject_Z (Qfloor q) < inject_Z 1) by (change (inject_Z 1) with 1; lra).
    assert (H3 : inject_Z 0 < inject_Z (Qfloor q + 1)) by (change (inject_Z 0) with 0; lra).
    rewrite <- Zlt_Qlt in H2, H3. lia. }
  unfold round_half_even. rewrite Hf.
  change (inject_Z 0) with 0.
  destruct (Qcompare_spec (q - 0) (1 # 2)) as [H|H|H];
    [exfalso; lra | reflexivity | exfalso; lra].
Qed.

(** A positive rational lies between two consecutive powers of two. *)
Lemma exponent_spec (q : Q) :
  0 < q -> pow2 (exponent q) <= q /\ q < pow2 (exponent q + 1).
Proof.
  intros Hq. destruct q as [n d]. unfold exponent. cbn [Qnum Qden].
  assert (Hn : (0 < n)%Z).
  { unfold Qlt in Hq. cbn in Hq. lia. }
  destruct (Z.log2_spec n Hn) as [Hn1 Hn2].
  destruct (Z.log2_spec (Z.pos d) (Pos2Z.is_pos d)) as [Hd1 Hd2].
  pose proof (Z.log2_nonneg n) as Ha. pose proof (Z.log2_nonneg (Z.pos d)) as Hb.
  set (a := Z.log2 n) in *. set (b := Z.log2 (Z.pos d)) in *.
  assert (Hdiv : forall i j : Z, (0 <= i)%Z -> (0 <= j)%Z ->
                   pow2 (i - j) == inject_Z (2 ^ i) / inject_Z (2 ^ j)).
  { intros i j Hi Hj. rewrite <- !pow2_Z by assumption.
    unfold pow2. apply Qpower_minus. discriminate. }
  assert (Hpos : forall i : Z, (0 <= i)%Z -> 0 < inject_Z (2 ^ i)).
  { intros i Hi. rewrite <- pow2_Z by assumption. apply pow2_pos. }
  assert (Hnd : n # d == inject_Z n / inject_Z (Z.pos d)) by apply Qmake_Qdiv.
  assert (Hdpos : 0 < inject_Z (Z.pos d)) by (rewrite <- (Zlt_Qlt 0); lia).
  destruct (Qle_bool (pow2 (a - b)) (n # d)) eqn:Hle.
  - apply Qle_bool_iff in Hle. split; [exact Hle|].
    replace (a - b + 1)%Z with ((a + 1) - b)%Z by lia.
    rewrite Hdiv, Hnd by lia.
    apply Qlt_shift_div_l; [apply Hpos; lia|].
    unfold Qdiv. rewrite <- Qmult_assoc, (Qmult_comm (/ _)), Qmult_assoc.
    apply Qlt_shift_div_r; [exact Hdpos|].
    rewrite <- !inject_Z_mult, <- Zlt_Qlt. nia.
  - assert (Hlt : n # d < pow2 (a - b)).
    { apply Qnot_le_lt. intros Hc. apply Qle_bool_iff in Hc. congruence. }
    split; [|now replace (a - b - 1 + 1)%Z with (a - b)%Z by lia].
    replace (a - b - 1)%Z with (a - (b + 1))%Z by lia.
    rewrite Hdiv, Hnd by lia.
    apply Qle_shift_div_r; [apply Hpos; lia|].
    unfold Qdiv. rewrite <- Qmult_assoc, (Qmult_comm (/ _)), Qmult_assoc.
    apply Qle_shift_div_l; [exact Hdpos|].
    rewrite <- !inject_Z_mult, <- Zle_Qle. nia.
Qed.

Lemma exponent_le (x y : Q) : 0 < x -> x <= y -> (exponent x <= exponent y)%Z.
Proof.
  intros Hx Hxy.
  destruct (exponent_spec x Hx) as [Hx1 _].
  destruct (exponent_spec y) as [_ Hy2]; [lra|].
  destruct (Z_le_gt_dec (exponent x) (exponent y)) as [H|H]; [exact H|].
  exfalso. assert (Hp : pow2 (exponent y + 1) <= pow2 (exponent x))
    by (apply pow2_le; lia).
  lra.
Qed.


Lemma ulp_exponent_le (x y : Q) :
  0 < x -> x <= y -> (ulp_exponent x <= ulp_exponent y)%Z.
Proof.
  intros Hx Hxy. unfold ulp_exponent. pose proof (exponent_le x y Hx Hxy). lia.
Qed.

Lemma round_positive_nonneg (x : Q) : 0 < x -> 0 <= round_positive x.
Proof.
  intros Hx. unfold round_positive.
  apply Qmult_le_0_compat; [|apply Qlt_le_weak, pow2_pos].
  change 0 with (inject_Z 0). rewrite <- Zle_Qle.
  rewrite <- (round_half_even_Z 0). apply round_half_even_le.
  apply Qle_shift_div_l; [apply pow2_pos|]. change (inject_Z 0) with 0. lra.
Qed.

(** Rounding stays within the powers of two around [x]. *)
Lemma round_positive_upper (x : Q) :
  0 < x -> round_positive x <= pow2 (exponent x + 1).
Proof.
  intros Hx. destruct (exponent_spec x Hx) as [_ Hup].
  unfold round_positive. set (u := ulp_exponent x).
  destruct (Z_le_gt_dec u (exponent x + 1)) as [Hu|Hu].
  - assert (Hk : (0 <= exponent x + 1 - u)%Z) by lia.
    assert (Hle : (round_half_even (x / pow2 u) <= 2 ^ (exponent x + 1 - u))%Z).
    { rewrite <- (round_half_even_Z (2 ^ (exponent x + 1 - u))).
      apply round_half_even_le. rewrite <- pow2_Z by exact Hk.
      apply div_pow2_le. lra. }
    apply Qle_trans with (inject_Z (2 ^ (exponent x + 1 - u)) * pow2 u).
    + apply Qmult_le_compat_r; [|apply Qlt_le_weak, pow2_pos].
      now rewrite <- Zle_Qle.
    + rewrite <- pow2_Z by exact Hk. rewrite <- pow2_add.
      replace (exponent x + 1 - u + u)%Z with (exponent x + 1)%Z by lia. lra.
  - rewrite round_half_even_small.
    + change (inject_Z 0) with 0. rewrite Qmult_0_l. apply Qlt_le_weak, pow2_pos.
    + apply Qle_shift_div_l; [apply pow2_pos|]. lra.
    + apply Qlt_le_trans with (pow2 (exponent x + 1 - u)).
      * now apply div_pow2_lt.
      * apply Qle_trans with (pow2 (-1)); [apply pow2_le; lia|].
        apply Qle_bool_iff. reflexivity.
Qed.

Lemma round_positive_lower (x : Q) :
  0 < x -> (ulp_exponent x <= exponent x)%Z -> pow2 (exponent x) <= round_positive x.
Proof.
  intros Hx Hu. destruct (exponent_spec x Hx) as [Hlo _].
  unfold round_positive. set (u := ulp_exponent x) in *.
  assert (Hk : (0 <= exponent x - u)%Z) by lia.
  assert (Hle : (2 ^ (exponent x - u) <= round_half_even (x / pow2 u))%Z).
  { rewrite <- (round_half_even_Z (2 ^ (exponent x - u))) at 1.
    apply round_half_even_le. rewrite <- pow2_Z by exact Hk.
    now apply div_pow2_ge. }
  apply Qle_trans with (inject_Z (2 ^ (exponent x - u)) * pow2 u).
  - rewrite <- pow2_Z by exact Hk. rewrite <- pow2_add.
    replace (exponent x - u + u)%Z with (exponent x) by lia. lra.
  - apply Qmult_le_compat_r; [|apply Qlt_le_weak, pow2_pos].
    now rewrite <- Zle_Qle.
Qed.

Lemma round_positive_le (x y : Q) :
  0 < x -> x <= y -> round_positive x <= round_positive y.
Proof.
  intros Hx Hxy. assert (Hy : 0 < y) by lra.
  pose proof (exponent_le x y Hx Hxy) as He.
  pose proof (ulp_exponent_le x y Hx Hxy) as Hu.
  destruct (Z.eq_dec (ulp_exponent x) (ulp_exponent y)) as [Heq|Hne].
  - unfold round_positive. rewrite <- Heq.
    apply Qmult_le_compat_r; [|apply Qlt_le_weak, pow2_pos].
    rewrite <- Zle_Qle. apply round_half_even_le.
    apply Qmult_le_compat_r; [exact Hxy|].
    apply Qlt_le_weak, Qinv_lt_0_compat, pow2_pos.
  - assert (Huy : ulp_exponent y = (exponent y - 52)%Z)
      by (unfold ulp_exponent in *; lia).
    assert (Hex : (exponent x + 1 <= exponent y)%Z)
      by (unfold ulp_exponent in *; lia).
    apply Qle_trans with (pow2 (exponent x + 1)); [now apply round_positive_upper|].
    apply Qle_trans with (pow2 (exponent y)); [now apply pow2_le|].
    apply round_positive_lower; [exact Hy | lia].
Qed.

(** Rounding is monotone. *)
Lemma round_le (x y : Q) : x <= y -> round x <= round y.
Proof.
  intros Hxy. unfold round.
  destruct (Qcompare_spec x 0) as [Hx|Hx|Hx];
    destruct (Qcompare_spec y 0) as [Hy|Hy|Hy]; try (exfalso; lra).
  - lra.
  - apply round_positive_nonneg. exact Hy.
  - assert (H := round_positive_nonneg (- x)). lra.
  - assert (H : round_positive (- y) <= round_positive (- x))
      by (apply round_positive_le; lra).
    lra.
  - assert (H := round_positive_nonneg (- x)).
    assert (H' := round_positive_nonneg y). lra.
  - now apply round_positive_le.
Qed.

(** Equal rationals round to equal rationals. *)
Lemma round_comp (x y : Q) : x == y -> round x == round y.
Proof.
  intros H. apply Qle_antisym; apply round_le; rewrite H; apply Qle_refl.
Qed.

End FloatRounding.

(* ===================================================================== *)
(** * Properties of the reranker *)
(* ===================================================================== *)

Section StableSort.
Context {A : Type}.
Implicit Types (x y : A * Q) (l : list (A * Q)).

Lemma insert_desc_permutation x l : Permutation (insert_desc x l) (x :: l).
Proof.
  induction l as [|y r IH]; simpl; [reflexivity|].
  destruct (Qle_bool (snd y) (snd x)); [reflexivity|].
  rewrite IH. apply perm_swap.
Qed.

Lemma sort_desc_permutation l : Permutation (sort_desc l) l.
Proof.
  induction l as [|x r IH]; simpl; [reflexivity|].
  rewrite insert_desc_permutation. now constructor.
Qed.

Lemma insert_desc_sorted x l :
  StronglySorted by_score_desc l -> StronglySorted by_score_desc (insert_desc x l).
Proof.
  induction 1 as [|y r Hs IH Hall]; simpl; [repeat constructor|].
  destruct (Qle_bool (snd y) (snd x)) eqn:Hle.
  - apply Qle_bool_iff in Hle.
    constructor; [now constructor|].
    constructor; [exact Hle|].
    apply List.Forall_forall. intros z Hz. rewrite List.Forall_forall in Hall.
    unfold by_score_desc in *. apply Qle_trans with (snd y); [now apply Hall | exact Hle].
  - assert (Hlt : (snd x <= snd y)%Q).
    { apply Qlt_le_weak, Qnot_le_lt. intros Hc. apply Qle_bool_iff in Hc. congruence. }
    constructor; [exact IH|].
    apply List.Forall_forall. intros z Hz.
    apply (Permutation_in _ (insert_desc_permutation x r)) in Hz.
    destruct Hz as [<-|Hz]; [exact Hlt|].
    rewrite List.Forall_forall in Hall. now apply Hall.
Qed.

Lemma sort_desc_sorted l : StronglySorted by_score_desc (sort_desc l).
Proof.
  induction l as [|x r IH]; simpl; [constructor | now apply insert_desc_sorted].
Qed.

(** Inserting [x] leaves it in front of the elements with its score. *)
Lemma insert_desc_stable v x l :
  with_score v (insert_desc x l) = with_score v (x :: l).
Proof.
  induction l as [|y r IH]; [reflexivity|].
  cbn [insert_desc]. destruct (Qle_bool (snd y) (snd x)) eqn:Hle; [reflexivity|].
  unfold with_score in *. cbn [List.filter] in *. rewrite IH.
  destruct (Qeq_bool (snd x) v) eqn:Hx, (Qeq_bool (snd y) v) eqn:Hy;
    try reflexivity.
  exfalso. apply Qeq_bool_iff in Hx, Hy.
  assert (Hc : Qle_bool (snd y) (snd x) = true).
  { apply Qle_bool_iff. rewrite Hx, Hy. apply Qle_refl. }
  congruence.
Qed.

(** The sort is stable: candidates with equal scores keep their order. *)
Lemma sort_desc_stable v l : with_score v (sort_desc l) = with_score v l.
Proof.
  induction l as [|x r IH]; [reflexivity|].
  cbn [sort_desc]. rewrite insert_desc_stable.
  unfold with_score in *. cbn [List.filter]. now rewrite IH.
Qed.
End StableSort.

Lemma distinct_nil (l : list string) : PyStr.distinct l = [] -> l = [].
Proof.
  induction l as [|x r IH]; [reflexivity|]. simpl.
  destruct (existsb (String.eqb x) r) eqn:Hex; [|discriminate].
  intros H. rewrite (IH H) in Hex. discriminate.
Qed.

Lemma for_each_map {A B} (f : A -> result B) (g : A -> B) (l : list A) :
  (forall x, f x = Return (g x)) -> for_each f l = Return (map g l).
Proof.
  intros H. induction l as [|x r IH]; [reflexivity|].
  simpl. now rewrite H, IH.
Qed.

Section RerankProperties.
Context {R : Type} (deref : R -> Chunk).

Lemma score_candidate_returns (query : string) (cand : R * Q) :
  query_terms_of query <> [] ->
  score_candidate deref query (query_terms_of query) cand
  = Return (fst cand, code_final_score query (deref (fst cand)) (snd cand)).
Proof.
  intros Hne. destruct cand as [chunk base]. unfold score_candidate.
  destruct (query_terms_of query) eqn:Hq; [contradiction|].
  unfold code_final_score. rewrite Hq. reflexivity.
Qed.

Lemma code_score_amended (query : string) (c : Chunk) (base_score : Q) :
  (code_final_score query c base_score == amended_final_score query c base_score)%Q.
Proof.
  unfold code_final_score, amended_final_score, phrase_bonus, length_factor,
    term_matches, PyFloat.add, PyFloat.mul.
  apply round_comp, Qplus_comp; [|apply round_comp, Qmult_comm].
  apply round_comp, Qplus_comp; [reflexivity|].
  apply round_comp, Qmult_comm.
Qed.

Lemma rerank_returns (query : string) (results : list (R * Q)) :
  PyStr.split (PyStr.lower query) <> [] ->
  _rerank_results deref query results
  = Return (sort_desc
              (map (fun cand => (fst cand,
                                 code_final_score query (deref (fst cand)) (snd cand)))
                   results)).
Proof.
  intros Hne. unfold _rerank_results. destruct results as [|cand rest]; [reflexivity|].
  fold (query_terms_of query).
  rewrite (for_each_map _
             (fun cand => (fst cand,
                           code_final_score query (deref (fst cand)) (snd cand)))).
  - reflexivity.
  - intros x. apply score_candidate_returns. intros H. now apply distinct_nil in H.
Qed.

Lemma rerank_empty (query : string) : _rerank_results deref query [] = Return [].
Proof. reflexivity. Qed.

(** With no term in the query and a candidate to score, the division by
    [len(query_terms)] raises. *)
Lemma rerank_raises (query : string) (results : list (R * Q)) :
  PyStr.split (PyStr.lower query) = [] -> results <> [] ->
  _rerank_results deref query results = Raise ZeroDivisionError.
Proof.
  intros Hq Hne. unfold _rerank_results. destruct results as [|[c b] rest];
    [contradiction|].
  rewrite Hq. reflexivity.
Qed.

(** C6, amended: for a query with at least one whitespace-delimited term
    the reranker gives each candidate
    [base_score + phrase_bonus + term_bonus + length_factor], added from
    left to right in float arithmetic, where
    [phrase_bonus] is 0.2 exactly when the lower-cased query is a
    substring of the lower-cased chunk text, [term_bonus] is 0.1 times
    the fraction of the distinct whitespace-split lower-cased query terms
    that are substrings of the lower-cased chunk text, and
    [length_factor] is 0.05 x min(char_count / 1000, 1), each product
    and quotient a float; the scored candidates are returned sorted by
    score descending, candidates with equal scores in their original
    order. *)
Theorem C6_rerank_scores_and_stable_order (query : string) (results : list (R * Q)) :
  PyStr.split (PyStr.lower query) <> [] ->
  exists scored out,
    List.Forall2
      (fun cand sc =>
         fst sc = fst cand
         /\ (snd sc == amended_final_score query (deref (fst cand)) (snd cand))%Q)
      results scored
    /\ _rerank_results deref query results = Return out
    /\ Permutation out scored
    /\ StronglySorted by_score_desc out
    /\ forall v, with_score v out = with_score v scored.
Proof.
  intros Hne.
  exists (map (fun cand => (fst cand,
                            code_final_score query (deref (fst cand)) (snd cand)))
              results).
  eexists. split; [|split; [now apply rerank_returns|split; [|split]]].
  - induction results as [|cand rest IH]; constructor; [|exact IH].
    split; [reflexivity | apply code_score_amended].
  - apply sort_desc_permutation.
  - apply sort_desc_sorted.
  - intros v. apply sort_desc_stable.
Qed.
End RerankProperties.

(** C6, as stated, fails: the lower-cased query [hello] is no substring of
    the chunk text [Hello World], so the claim gives neither bonus; the
    code matches against the lower-cased text and adds both. *)
Lemma C6_match_is_against_lower_cased_text :
  PyStr.contains (PyStr.lower "hello") (text greeting) = false
  /\ exists score,
       _rerank_results id "hello" [(greeting, 0%Q)] = Return [(greeting, score)]
       /\ ~ (score == claimed_final_score "hello" greeting 0)%Q
       /\ (claimed_final_score "hello" greeting 0 + (3 # 10) <= score)%Q.
Proof.
  split; [vm_compute; reflexivity|].
  eexists. split; [vm_compute; reflexivity|]. split.
  - apply Qeq_bool_neq. vm_compute. reflexivity.
  - apply Qle_bool_iff. vm_compute. reflexivity.
Qed.

(** The order is the one of the float scores. A candidate with the base
    score 0.3 and no bonus comes after a candidate with the base score 0
    that earns the bonuses 0.2 and 0.1: in floats [0.0 + 0.2 + 0.1] is
    0.30000000000000004. *)
Example rerank_orders_by_float_scores :
  exists high low,
    _rerank_results id "q"
      [(Examples.without_q, PyFloat.literal (3 # 10)); (Examples.with_q, 0%Q)]
    = Return [(Examples.with_q, high); (Examples.without_q, low)]
    /\ (low == PyFloat.literal (3 # 10))%Q
    /\ (low < high)%Q
    /\ (high == 5404319552844596 # 18014398509481984)%Q.
Proof.
  eexists _, _. split; [vm_compute; reflexivity|].
  split; [vm_compute; reflexivity|]. split; reflexivity.
Qed.

(** The fraction of matched terms is taken over the distinct terms: in
    [a a b] against a text holding [a] only, one term of two matches. *)
Example term_bonus_counts_distinct_terms :
  query_terms_of "a a b" = ["a"; "b"]
  /\ term_matches (query_terms_of "a a b") "xax" = 1.
Proof. split; vm_compute; reflexivity. Qed.

(** C6, amended, on two candidates and a query of two terms. *)
Lemma C6_rerank_scores_and_stable_order_witness :
  exists scored out,
    _rerank_results id "hello world" [(greeting, (1 # 2)%Q); (greeting, (3 # 4)%Q)]
    = Return out
    /\ Permutation out scored
    /\ StronglySorted by_score_desc out.
Proof.
  destruct (C6_rerank_scores_and_stable_order id "hello world"
              [(greeting, (1 # 2)%Q); (greeting, (3 # 4)%Q)])
    as (scored & out & _ & Hret & Hperm & Hsorted & _).
  - vm_compute. discriminate.
  - exists scored, out. split; [exact Hret|]. split; [exact Hperm | exact Hsorted].
Defined.

(* ===================================================================== *)
(** * Properties of the retriever *)
(* ===================================================================== *)

Section RetrieveProperties.
Context {sk : Sklearn}.

(** How [retrieve] ends once the candidate fetch has returned. *)
Lemma retrieve_after_search (s : VectorStore) (query : string) (max_results : Z)
      (threshold : Q) (filter_document : option string)
      (candidates : list (Chunk * Q)) :
  search s (_enhance_query query) (max_results * 2) threshold = Return candidates ->
  retrieve s query max_results threshold filter_document
  = try reranked <- _rerank_results id query
                                    (filter_results id filter_document candidates)
    in Return (map (fun '(chunk, score) => set_relevance_score chunk score)
                   (slice_to max_results reranked)).
Proof. intros H. unfold retrieve. rewrite H. reflexivity. Qed.

(** C10: once the candidate fetch has returned, [retrieve] returns a
    value whenever the query has a whitespace-delimited term or no
    candidate is left after the document filter; with no term in the
    query and a candidate left, the division by the number of query terms
    raises [ZeroDivisionError] and [retrieve] returns nothing. *)
Theorem C10_retrieve_divides_by_term_count
        (s : VectorStore) (query : string) (max_results : Z) (threshold : Q)
        (filter_document : option string) (candidates : list (Chunk * Q)) :
  search s (_enhance_query query) (max_results * 2) threshold = Return candidates ->
  (PyStr.split (PyStr.lower query) <> []
   \/ filter_results id filter_document candidates = [] ->
   exists l, retrieve s query max_results threshold filter_document = Return l)
  /\ (PyStr.split (PyStr.lower query) = [] ->
      filter_results id filter_document candidates <> [] ->
      retrieve s query max_results threshold filter_document
      = Raise ZeroDivisionError).
Proof.
  intros Hs. rewrite (retrieve_after_search _ _ _ _ _ _ Hs). split.
  - intros [Hterm|Hnone].
    + rewrite (rerank_returns id query _ Hterm). cbn [bind]. eexists. reflexivity.
    + rewrite Hnone. cbn. rewrite slice_to_nil. eexists. reflexivity.
  - intros Hq Hne. now rewrite (rerank_raises id query _ Hq Hne).
Qed.

Context {laws : SklearnLaws sk}.

(** On a store that is built or not built at all, [search] returns. *)
Lemma search_returns (s : VectorStore) (query : string) (top_k : Z) (threshold : Q) :
  built s \/ is_indexed s = false ->
  exists results, search s query top_k threshold = Return results
                  /\ (top_k = 0 -> results = []).
Proof.
  intros [(Hidx & v & m & Hv & Hfit & Hm & Hlen)|Hno].
  - eexists. split; [apply (search_built s v m); assumption|].
    intros ->. reflexivity.
  - exists []. split; [now apply search_unbuilt | reflexivity].
Qed.

(** C4, amended: [retrieve] checks none of its arguments. With
    [max_results = 0] it returns the empty sequence; with any
    [max_results <= 0] and a query that has a whitespace-delimited term
    it returns a result sequence, cut by Python's slices with a negative
    bound. No [InvalidArgumentError] exists. *)
Theorem C4_retrieve_nonpositive_max_results
        (s : VectorStore) (query : string) (max_results : Z) (threshold : Q)
        (filter_document : option string) :
  built s \/ is_indexed s = false ->
  max_results <= 0 ->
  (max_results = 0 ->
   retrieve s query max_results threshold filter_document = Return [])
  /\ (PyStr.split (PyStr.lower query) <> [] ->
      exists l, retrieve s query max_results threshold filter_document = Return l).
Proof.
  intros Hs Hm.
  destruct (search_returns s (_enhance_query query) (max_results * 2) threshold Hs)
    as (candidates & Hsearch & Hzero).
  split.
  - intros ->. rewrite (retrieve_after_search _ _ _ _ _ _ Hsearch).
    rewrite (Hzero eq_refl).
    assert (Hf : filter_results id filter_document (@nil (Chunk * Q)) = []).
    { unfold filter_results. destruct filter_document as [[|]|]; reflexivity. }
    rewrite Hf. reflexivity.
  - intros Hterm. rewrite (retrieve_after_search _ _ _ _ _ _ Hsearch).
    rewrite (rerank_returns id query _ Hterm). cbn [bind]. eexists. reflexivity.
Qed.
End RetrieveProperties.

(** C4, as stated, fails: with [max_results = 0] on a built store the call
    returns the empty sequence; it does not fail. *)
Lemma C4_zero_max_results_returns :
  retrieve Examples.bank_store "registered office" 0 0%Q None = Return []
  /\ forall e,
       retrieve Examples.bank_store "registered office" 0 0%Q None <> Raise e.
Proof.
  assert (H : retrieve Examples.bank_store "registered office" 0 0%Q None = Return [])
    by (vm_compute; reflexivity).
  rewrite H. split; [reflexivity | discriminate].
Qed.

(** C4, amended, with [max_results] 0 and -1 on the store of two chunks. *)
Lemma C4_retrieve_nonpositive_max_results_witness :
  retrieve Examples.bank_store "registered office" 0 0%Q None = Return []
  /\ exists l, retrieve Examples.bank_store "registered office" (-1) 0%Q None = Return l.
Proof.
  split.
  - apply (C4_retrieve_nonpositive_max_results (laws := BagOfWordsLaws.laws)
             Examples.bank_store "registered office" 0 0%Q None);
      [left; exact ExampleFacts.bank_store_built | lia | reflexivity].
  - apply (C4_retrieve_nonpositive_max_results (laws := BagOfWordsLaws.laws)
             Examples.bank_store "registered office" (-1) 0%Q None);
      [left; exact ExampleFacts.bank_store_built | lia | vm_compute; discriminate].
Defined.

(** C10 on a query of blanks on a built store, threshold 0: both chunks
    survive with similarity 0 and the reranker divides by zero. *)
Lemma C10_retrieve_divides_by_term_count_witness :
  PyStr.split (PyStr.lower "   ") = []
  /\ retrieve Examples.bank_store "   " 1 0%Q None = Raise ZeroDivisionError
  /\ exists l, retrieve Examples.bank_store "bank" 1 0%Q None = Return l.
Proof.
  split; [reflexivity|]. split.
  - destruct (search Examples.bank_store (_enhance_query "   ") (1 * 2) 0%Q)
      as [candidates|e] eqn:Hs; [|vm_compute in Hs; discriminate].
    apply (proj2 (C10_retrieve_divides_by_term_count
                    Examples.bank_store "   " 1 0%Q None candidates Hs));
      [reflexivity|].
    cbn [filter_results]. intros ->. vm_compute in Hs. discriminate.
  - destruct (search Examples.bank_store (_enhance_query "bank") (1 * 2) 0%Q)
      as [candidates|e] eqn:Hs; [|vm_compute in Hs; discriminate].
    apply (proj1 (C10_retrieve_divides_by_term_count
                    Examples.bank_store "bank" 1 0%Q None candidates Hs)).
    left. vm_compute. discriminate.
Defined.

(* ===================================================================== *)
(** * The copies are new dicts *)
(* ===================================================================== *)

Section ReferenceProperties.
Context {sk : Sklearn}.

Lemma dict_copy_fresh (h : heap) (l : loc) :
  h !! (snd (dict_copy h l)) = None
  /\ fst (dict_copy h l) = <[snd (dict_copy h l) := deref h l]> h.
Proof.
  unfold dict_copy. cbn. split; [|reflexivity].
  apply not_elem_of_dom. apply is_fresh.
Qed.

(** [search] leaves every dict of the heap as it was, and every
    reference it returns is to a dict allocated during the call. *)
Lemma collect_results_ref_frame (stored : list loc) (similarities : list Q)
      (threshold : Q) (idxs : list nat) :
  forall (h : heap),
    (forall l, is_Some (h !! l) ->
               fst (collect_results_ref h stored similarities threshold idxs) !! l
               = h !! l)
    /\ (forall results,
           snd (collect_results_ref h stored similarities threshold idxs)
           = Return results ->
           List.Forall (fun p => h !! (fst p) = None) results).
Proof.
  induction idxs as [|idx rest IH]; intros h.
  - cbn. split; [reflexivity|]. intros results [= <-]. constructor.
  - cbn [collect_results_ref].
    destruct (similarities !! idx) as [similarity|];
      [|cbn; split; [reflexivity | discriminate]].
    destruct (Qle_bool threshold similarity); [|apply IH].
    destruct (stored !! idx) as [l|]; [|cbn; split; [reflexivity | discriminate]].
    destruct (dict_copy_fresh h l) as [Hfresh Hh1].
    destruct (dict_copy h l) as [h1 chunk]. cbn [fst snd] in Hfresh, Hh1.
    specialize (IH h1).
    destruct (collect_results_ref h1 stored similarities threshold rest) as [h2 r].
    cbn [fst snd] in *. destruct IH as [IHframe IHnew].
    assert (Hsub : forall x, is_Some (h !! x) -> h1 !! x = h !! x).
    { intros x [c Hx]. subst h1. apply lookup_insert_ne. congruence. }
    split.
    + intros x Hx. rewrite IHframe; [now apply Hsub|].
      rewrite (Hsub x Hx). exact Hx.
    + intros results Hr. destruct r as [tail|e]; [|discriminate].
      cbn in Hr. injection Hr as <-.
      constructor; [exact Hfresh|].
      specialize (IHnew tail eq_refl).
      apply List.Forall_forall. intros p Hp.
      rewrite List.Forall_forall in IHnew. specialize (IHnew p Hp).
      destruct (h !! fst p) eqn:Hx; [|reflexivity].
      rewrite (Hsub (fst p) (mk_is_Some _ _ Hx)) in IHnew. congruence.
Qed.


(** Writing scores through references other than [l] leaves the dict at
    [l] as it was. *)
Lemma attach_scores_frame (top : list (loc * Q)) (l : loc) :
  forall (h : heap),
    List.Forall (fun p => fst p <> l) top -> attach_scores h top !! l = h !! l.
Proof.
  induction top as [|[chunk score] rest IH]; intros h Hall; [reflexivity|].
  apply Forall_cons_iff in Hall as [Hne Hall]. cbn in Hne.
  unfold attach_scores in *. cbn [fold_left]. rewrite IH by exact Hall.
  unfold set_item_relevance_score. now apply lookup_alter_ne.
Qed.

(** The reranker returns the references it was given. *)
Lemma rerank_results_refs {R : Type} (get : R -> Chunk) (query : string)
      (results out : list (R * Q)) :
  _rerank_results get query results = Return out ->
  forall p, In p out -> In (fst p) (map fst results).
Proof.
  intros Hret p Hp.
  destruct results as [|cand rest]; [injection Hret as <-; destruct Hp|].
  remember (cand :: rest) as cands eqn:Hcands.
  destruct (PyStr.split (PyStr.lower query)) as [|w ws] eqn:Hq.
  - rewrite (rerank_raises get query cands Hq) in Hret
      by (subst cands; discriminate).
    discriminate.
  - rewrite (rerank_returns get query cands) in Hret
      by (rewrite Hq; discriminate).
    injection Hret as <-.
    apply (Permutation_in _ (sort_desc_permutation _)) in Hp.
    apply in_map_iff in Hp as (c & <- & Hc). cbn [fst].
    apply in_map. exact Hc.
Qed.

Lemma filter_results_incl {R : Type} (get : R -> Chunk) (fd : option string)
      (results : list (R * Q)) (p : R * Q) :
  In p (filter_results get fd results) -> In p results.
Proof.
  unfold filter_results. destruct fd as [[|c name]|]; try tauto.
  intros H. now apply filter_In in H.
Qed.

End ReferenceProperties.

Module RefExampleFacts.
Import Examples RefExamples.


(** [retrieve] returns two new dicts, at locations 2 and 3, and the
    write of [relevance_score] lands in them. *)
Example retrieve_ref_writes_into_copies :
  snd (retrieve_ref bank_heap bank_refs "registered office" 2 0%Q None)
  = Return [2%nat; 3%nat]
  /\ (relevance_score
        <$> fst (retrieve_ref bank_heap bank_refs "registered office" 2 0%Q None)
            !! 2%nat)
     = Some (Some (8732807211989746 # 18014398509481984)%Q)
  /\ (relevance_score
        <$> fst (retrieve_ref bank_heap bank_refs "registered office" 2 0%Q None)
            !! 0%nat)
     = Some None.
Proof. repeat split; vm_compute; reflexivity. Qed.
End RefExampleFacts.


(* ===================================================================== *)
(** * The two models agree *)
(* ===================================================================== *)

Section Refinement.
Context {sk : Sklearn}.

Lemma deref_frame (h h' : heap) (l : loc) :
  (forall x, is_Some (h !! x) -> h' !! x = h !! x) ->
  is_Some (h !! l) -> deref h' l = deref h l.
Proof. intros Hsame Hl. unfold deref. now rewrite (Hsame l Hl). Qed.

Lemma insert_desc_lift {R : Type} (get : R -> Chunk) (x : R * Q) (l : list (R * Q)) :
  insert_desc (lift get x) (map (lift get) l) = map (lift get) (insert_desc x l).
Proof.
  induction l as [|y r IH]; [reflexivity|]. cbn [map insert_desc].
  change (snd (lift get y)) with (snd y). change (snd (lift get x)) with (snd x).
  destruct (Qle_bool (snd y) (snd x)); [reflexivity|].
  cbn [map]. now rewrite IH.
Qed.

Lemma sort_desc_lift {R : Type} (get : R -> Chunk) (l : list (R * Q)) :
  sort_desc (map (lift get) l) = map (lift get) (sort_desc l).
Proof.
  induction l as [|x r IH]; [reflexivity|].
  cbn [map sort_desc]. now rewrite IH, insert_desc_lift.
Qed.

Lemma filter_results_lift {R : Type} (get : R -> Chunk) (fd : option string)
      (l : list (R * Q)) :
  filter_results id fd (map (lift get) l) = map (lift get) (filter_results get fd l).
Proof.
  unfold filter_results. destruct fd as [[|c name]|]; try reflexivity.
  induction l as [|x r IH]; [reflexivity|]. cbn [map List.filter].
  change (document (id (fst (lift get x)))) with (document (get (fst x))).
  destruct (String.eqb _ _); cbn [map]; now rewrite IH.
Qed.

(** The reranker only reads the candidates through [get]. *)
Lemma rerank_results_lift {R : Type} (get : R -> Chunk) (query : string)
      (l : list (R * Q)) :
  _rerank_results id query (map (lift get) l)
  = match _rerank_results get query l with
    | Return out => Return (map (lift get) out)
    | Raise e => Raise e
    end.
Proof.
  destruct (PyStr.split (PyStr.lower query)) as [|w ws] eqn:Hq.
  - destruct l as [|x r]; [reflexivity|].
    rewrite (rerank_raises get query (x :: r) Hq) by discriminate.
    now rewrite (rerank_raises id query (map (lift get) (x :: r)) Hq) by discriminate.
  - assert (Hne : PyStr.split (PyStr.lower query) <> []) by (rewrite Hq; discriminate).
    rewrite (rerank_returns get query l Hne),
      (rerank_returns id query (map (lift get) l) Hne).
    f_equal. rewrite <- sort_desc_lift, !map_map. reflexivity.
Qed.

Lemma slice_to_map {A B} (f : A -> B) (k : Z) (l : list A) :
  slice_to k (map f l) = map f (slice_to k l).
Proof.
  unfold slice_to. rewrite length_map. destruct (0 <=? k); apply firstn_map.
Qed.

(** The loop of [search] in the two models: same outcome, and the
    references returned are distinct and allocated. *)
Lemma collect_results_ref_refines (stored : list loc) (similarities : list Q)
      (threshold : Q) (idxs : list nat) :
  forall (h : heap),
    (forall l, In l stored -> is_Some (h !! l)) ->
    match snd (collect_results_ref h stored similarities threshold idxs) with
    | Return res =>
        collect_results (map (deref h) stored) similarities threshold idxs
        = Return (map (lift (deref (fst (collect_results_ref
                                          h stored similarities threshold idxs))))
                      res)
        /\ List.NoDup (map fst res)
        /\ List.Forall
             (fun p => is_Some (fst (collect_results_ref
                                       h stored similarities threshold idxs)
                                !! fst p)) res
    | Raise e =>
        collect_results (map (deref h) stored) similarities threshold idxs = Raise e
    end.
Proof.
  induction idxs as [|idx rest IH]; intros h Halloc.
  - cbn. repeat split; constructor.
  - cbn [collect_results_ref collect_results].
    destruct (similarities !! idx) as [similarity|]; [|reflexivity].
    destruct (Qle_bool threshold similarity); [|now apply IH].
    change (map (deref h) stored) with (deref h <$> stored).
    rewrite list_lookup_fmap.
    destruct (stored !! idx) as [l|] eqn:Hl; [|reflexivity]. cbn [fmap option_fmap option_map].
    change (deref h <$> stored) with (map (deref h) stored).
    destruct (dict_copy_fresh h l) as [Hfresh Hh1].
    destruct (dict_copy h l) as [h1 chunk]. cbn [fst snd] in Hfresh, Hh1.
    assert (Hsub : forall x, is_Some (h !! x) -> h1 !! x = h !! x).
    { intros x [c Hx]. subst h1. apply lookup_insert_ne. congruence. }
    assert (Hchunk : h1 !! chunk = Some (deref h l))
      by (subst h1; apply lookup_insert_eq).
    assert (Halloc1 : forall x, In x stored -> is_Some (h1 !! x)).
    { intros x Hx. rewrite (Hsub x (Halloc x Hx)). now apply Halloc. }
    specialize (IH h1 Halloc1).
    destruct (collect_results_ref_frame stored similarities threshold rest h1)
      as [Hframe Hnew].
    assert (Hvalues : map (deref h1) stored = map (deref h) stored).
    { apply map_ext_in. intros x Hx. apply deref_frame; [exact Hsub|].
      now apply Halloc. }
    rewrite Hvalues in IH.
    destruct (collect_results_ref h1 stored similarities threshold rest) as [h2 r].
    cbn [fst snd] in *. destruct r as [tail|e]; cbn [bind snd fst].
    + destruct IH as (Hcollect & Hnodup & Hall).
      rewrite Hcollect. cbn [bind map]. split; [|split].
      * do 2 f_equal. unfold lift. cbn [fst snd]. f_equal.
        unfold deref at 2. rewrite (Hframe chunk) by (rewrite Hchunk; eauto).
        now rewrite Hchunk.
      * cbn [map fst]. constructor; [|exact Hnodup].
        intros Hin. apply in_map_iff in Hin as (p & Hp & Hin).
        specialize (Hnew tail eq_refl). rewrite List.Forall_forall in Hnew.
        specialize (Hnew p Hin). rewrite Hp in Hnew. congruence.
      * constructor; [|exact Hall]. cbn [fst].
        rewrite (Hframe chunk) by (rewrite Hchunk; eauto). rewrite Hchunk. eauto.
    + now rewrite IH.
Qed.

Lemma search_ref_refines (h : heap) (rs : RefStore) (query : string) (top_k : Z)
      (threshold : Q) :
  (forall l, In l (chunk_refs rs) -> is_Some (h !! l)) ->
  match snd (search_ref h rs query top_k threshold) with
  | Return res =>
      search (view h rs) query top_k threshold
      = Return (map (lift (deref (fst (search_ref h rs query top_k threshold)))) res)
      /\ List.NoDup (map fst res)
      /\ List.Forall
           (fun p => is_Some (fst (search_ref h rs query top_k threshold) !! fst p))
           res
  | Raise e => search (view h rs) query top_k threshold = Raise e
  end.
Proof.
  intros Halloc. unfold search_ref, search. cbn [view is_indexed vectorizer].
  destruct (negb (ref_is_indexed rs)); [cbn; repeat split; constructor|].
  destruct (ref_vectorizer rs) as [v|]; [|reflexivity].
  destruct (fitted v); [|reflexivity].
  apply (collect_results_ref_refines (chunk_refs rs)). exact Halloc.
Qed.

(** After the last loop each returned dict is the copy with its score. *)
Lemma attach_scores_values (top : list (loc * Q)) :
  forall (h : heap),
    List.NoDup (map fst top) ->
    List.Forall (fun p => is_Some (h !! fst p)) top ->
    map (deref (attach_scores h top)) (map fst top)
    = map (fun p => set_relevance_score (deref h (fst p)) (snd p)) top.
Proof.
  induction top as [|[l score] rest IH]; intros h Hnd Hall; [reflexivity|].
  cbn [map fst snd] in *.
  apply List.NoDup_cons_iff in Hnd as [Hnotin Hnd].
  apply Forall_cons_iff in Hall as [[c Hl] Hall]. cbn [fst] in Hl.
  assert (Hother : List.Forall (fun p => fst p <> l) rest).
  { apply List.Forall_forall. intros p Hp Heq. apply Hnotin.
    rewrite <- Heq. now apply in_map. }
  change (attach_scores h ((l, score) :: rest))
    with (attach_scores (set_item_relevance_score h l score) rest).
  f_equal.
  - unfold deref. rewrite (attach_scores_frame rest l _ Hother).
    unfold set_item_relevance_score. rewrite lookup_alter_eq, Hl. reflexivity.
  - rewrite IH; [|exact Hnd|].
    + apply map_ext_in. intros p Hp. f_equal. unfold deref.
      unfold set_item_relevance_score. rewrite lookup_alter_ne; [reflexivity|].
      rewrite List.Forall_forall in Hother. intros ->. now apply (Hother p Hp).
    + apply List.Forall_forall. intros p Hp.
      rewrite List.Forall_forall in Hall, Hother.
      unfold set_item_relevance_score. rewrite lookup_alter_ne; [now apply Hall|].
      intros ->. now apply (Hother p Hp).
Qed.

Lemma NoDup_map_fst_filter {A B} (f : A * B -> bool) (l : list (A * B)) :
  List.NoDup (map fst l) -> List.NoDup (map fst (List.filter f l)).
Proof.
  induction l as [|x r IH]; intros Hnd; [constructor|].
  cbn [map] in Hnd. apply List.NoDup_cons_iff in Hnd as [Hnotin Hnd].
  cbn [List.filter]. destruct (f x); [|now apply IH].
  cbn [map]. constructor; [|now apply IH].
  intros Hin. apply Hnotin. apply in_map_iff in Hin as (p & Hp & Hin).
  apply filter_In in Hin as [Hin _]. rewrite <- Hp. now apply in_map.
Qed.

Lemma NoDup_firstn {A} (n : nat) (l : list A) :
  List.NoDup l -> List.NoDup (firstn n l).
Proof.
  intros H. rewrite <- (firstn_skipn n l) in H. now apply NoDup_app_remove_r in H.
Qed.

Lemma rerank_results_NoDup {R : Type} (get : R -> Chunk) (query : string)
      (results out : list (R * Q)) :
  _rerank_results get query results = Return out ->
  List.NoDup (map fst results) -> List.NoDup (map fst out).
Proof.
  intros Hret Hnd.
  destruct results as [|cand rest]; [injection Hret as <-; constructor|].
  remember (cand :: rest) as cands eqn:Hcands.
  destruct (PyStr.split (PyStr.lower query)) as [|w ws] eqn:Hq.
  - rewrite (rerank_raises get query cands Hq) in Hret
      by (subst cands; discriminate).
    discriminate.
  - rewrite (rerank_returns get query cands) in Hret
      by (rewrite Hq; discriminate).
    injection Hret as <-.
    apply (Permutation_NoDup (l := map fst cands)); [|exact Hnd].
    symmetry. etransitivity;
      [apply Permutation_map, sort_desc_permutation|].
    rewrite map_map. cbn [fst]. reflexivity.
Qed.

(** [retrieve] on references and [retrieve] on values end the same way,
    and the dicts returned hold the values returned. *)
Theorem retrieve_ref_refines (h : heap) (rs : RefStore) (query : string)
        (max_results : Z) (threshold : Q) (filter_document : option string) :
  (forall l, In l (chunk_refs rs) -> is_Some (h !! l)) ->
  match snd (retrieve_ref h rs query max_results threshold filter_document) with
  | Return locs =>
      retrieve (view h rs) query max_results threshold filter_document
      = Return (map (deref (fst (retrieve_ref h rs query max_results threshold
                                              filter_document))) locs)
  | Raise e =>
      retrieve (view h rs) query max_results threshold filter_document = Raise e
  end.
Proof.
  intros Halloc. unfold retrieve_ref, retrieve.
  pose proof (search_ref_refines h rs (_enhance_query query) (max_results * 2)
                                 threshold Halloc) as Hsearch.
  destruct (search_ref h rs (_enhance_query query) (max_results * 2) threshold)
    as [h1 r].
  cbn [fst snd] in Hsearch. destruct r as [res|e]; [|now rewrite Hsearch].
  destruct Hsearch as (Hsearch & Hnd & Hall).
  rewrite Hsearch. cbn [bind].
  rewrite filter_results_lift, rerank_results_lift.
  destruct (_rerank_results (deref h1) query
              (filter_results (deref h1) filter_document res))
    as [reranked|e] eqn:Hrr; [|reflexivity].
  cbn [bind fst snd]. f_equal. rewrite slice_to_map, map_map.
  assert (Hnd' : List.NoDup (map fst reranked)).
  { apply (rerank_results_NoDup _ _ _ _ Hrr).
    unfold filter_results. destruct filter_document as [[|c name]|];
      try exact Hnd. now apply NoDup_map_fst_filter. }
  rewrite attach_scores_values.
  - apply map_ext. intros [l score]. reflexivity.
  - unfold slice_to. destruct (0 <=? max_results);
      rewrite <- firstn_map; now apply NoDup_firstn.
  - apply List.Forall_forall. intros p Hp.
    apply slice_to_incl in Hp.
    apply (rerank_results_refs _ _ _ _ Hrr) in Hp.
    apply in_map_iff in Hp as (q0 & Hfst & Hq0).
    apply filter_results_incl in Hq0.
    rewrite List.Forall_forall in Hall. rewrite <- Hfst. now apply Hall.
Qed.
End Refinement.

(* ===================================================================== *)
(** * Further properties of the store *)
(* ===================================================================== *)

Section StoreLifecycle.
Context {sk : Sklearn}.

Lemma add_chunks_keeps_flag (s : VectorStore) (cs : list Chunk) :
  is_indexed s = true -> is_indexed (fst (add_chunks s cs)) = true.
Proof.
  intros Hs. unfold add_chunks, _build_index. cbn [chunks].
  destruct cs as [|c cs]; [exact Hs|].
  destruct (fit_transform (map text (c :: cs))) as [[v m]|e]; cbn; auto.
Qed.

(** A build whose fit raises replaces the chunks, keeps the vectors and
    the flag, and leaves the vectorizer as the library left it. *)
Lemma add_chunks_failed (s : VectorStore) (cs : list Chunk) (e : exn) :
  snd (add_chunks s cs) = Raise e ->
  fst (add_chunks s cs)
  = {| chunks := cs;
       vectorizer := fit_transform_failed (vectorizer s) (map text cs);
       vectors := vectors s; is_indexed := is_indexed s |}.
Proof.
  unfold add_chunks, _build_index. cbn [chunks].
  destruct cs as [|c cs]; [discriminate|].
  destruct (fit_transform (map text (c :: cs))) as [[v m]|e']; [discriminate|].
  reflexivity.
Qed.

(** When the library leaves the vectorizer unfitted, every search after
    a failed rebuild of an indexed store raises [NotFittedError]. *)
Lemma failed_rebuild_search_raises (s : VectorStore) (cs : list Chunk) (e : exn)
      (query : string) (top_k : Z) (threshold : Q) :
  is_indexed s = true -> snd (add_chunks s cs) = Raise e ->
  match fit_transform_failed (vectorizer s) (map text cs) with
  | Some v => fitted v = false
  | None => True
  end ->
  search (fst (add_chunks s cs)) query top_k threshold = Raise NotFittedError.
Proof.
  intros Hidx Hraise Hleft. rewrite (add_chunks_failed s cs e Hraise).
  unfold search. cbn [is_indexed vectorizer]. rewrite Hidx. cbn [negb].
  destruct (fit_transform_failed (vectorizer s) (map text cs)) as [v|];
    [now rewrite Hleft | reflexivity].
Qed.

Context {laws : SklearnLaws sk}.

(** A build whose fit returns keeps the flag sound. *)
Lemma add_chunks_flag_sound (s : VectorStore) (cs : list Chunk) :
  fit_returns (AddChunks cs) = true ->
  flag_sound s -> flag_sound (fst (add_chunks s cs)).
Proof.
  intros Hfit Hs. unfold add_chunks, _build_index. cbn [chunks].
  destruct cs as [|c cs]; [exact Hs|]. cbn [fit_returns] in Hfit.
  destruct (fit_transform (map text (c :: cs))) as [[v m]|e] eqn:Hft;
    [|discriminate].
  intros _. cbn. split; [|eauto].
  exists v. split; [reflexivity | exact (fit_transform_fitted _ _ _ Hft)].
Qed.

Lemma run_operations_flag_sound (ops : list operation) :
  forall s, forallb fit_returns ops = true ->
            flag_sound s -> flag_sound (run_operations s ops).
Proof.
  induction ops as [|op ops IH]; intros s Hfit Hs; [exact Hs|].
  cbn [forallb] in Hfit. apply andb_prop in Hfit as [Hop Hfit].
  cbn. apply IH; [exact Hfit|].
  destruct op; cbn; [now apply add_chunks_flag_sound | exact Hs ..].
Qed.

(** X1: as long as no [fit_transform] has raised, that is, every
    [add_chunks] so far was given the empty list or texts that the
    vectorizer could fit, the public operations ([add_chunks], [search],
    [get_stats]), run on a new store in any order, leave the flag
    [is_indexed] set only when the vectorizer is fitted and the vectors
    exist; so [search] does not raise [NotFittedError] and [get_stats]
    returns. *)
Theorem X1_flag_sound_while_fits_return
        (ops : list operation) (query : string) (top_k : Z) (threshold : Q) :
  forallb fit_returns ops = true ->
  flag_sound (run_operations new_store ops)
  /\ search (run_operations new_store ops) query top_k threshold
     <> Raise NotFittedError
  /\ exists stats, get_stats (run_operations new_store ops) = Return stats.
Proof.
  intros Hfits.
  assert (Hsound : flag_sound (run_operations new_store ops)).
  { apply run_operations_flag_sound; [exact Hfits|]. intros H. discriminate H. }
  split; [exact Hsound|].
  set (s := run_operations new_store ops) in *.
  unfold flag_sound in Hsound. split.
  - unfold search. destruct (is_indexed s) eqn:Hidx; cbn [negb]; [|discriminate].
    destruct (Hsound eq_refl) as [(v & Hv & Hfit) _]. rewrite Hv, Hfit.
    generalize (top_indices_of (similarities_of s v query) top_k).
    intros idxs. induction idxs as [|i r IH]; cbn; [discriminate|].
    destruct (similarities_of s v query !! i); [|discriminate].
    destruct (Qle_bool threshold q); [|exact IH].
    destruct (chunks s !! i); [|discriminate].
    destruct (collect_results _ _ _ r); cbn; [discriminate | exact IH].
  - unfold get_stats. destruct (is_indexed s) eqn:Hidx.
    + destruct (Hsound eq_refl) as [(v & Hv & _) _]. rewrite Hv. cbn. eauto.
    + cbn. eauto.
Qed.

(** X2: there is no way back from a build: once [is_indexed] is set, it
    stays set under every later operation, an empty or failing
    [add_chunks] included. *)
Theorem X2_is_indexed_is_never_reset (s : VectorStore) (ops : list operation) :
  is_indexed s = true -> is_indexed (run_operations s ops) = true.
Proof.
  revert s. induction ops as [|op ops IH]; intros s Hs; [exact Hs|].
  cbn. apply IH. destruct op; cbn; [now apply add_chunks_keeps_flag | exact Hs ..].
Qed.

(** X4: an indexed store that is saved and loaded again comes back as it
    was, chunks, vectorizer, vectors and flag, whatever store object loads
    it and whatever the path held before. *)
Theorem X4_load_after_save (s other : VectorStore) (path : string)
        (fs : gmap string SavedStore) :
  is_indexed s = true -> load other path (save s path fs) = Some s.
Proof.
  intros Hidx. unfold load, save. rewrite lookup_insert_eq. cbn.
  destruct s as [cs v m idx]. cbn in *. now subst.
Qed.

(** X5: [load] sets the flag without looking at what it read. A store
    that was never built, once saved and loaded, is marked indexed although
    its vectorizer is not fitted: every search on it raises
    [NotFittedError], where the store itself answered with the empty
    list. *)
Theorem X5_load_marks_unbuilt_store_indexed
        (s other : VectorStore) (path : string) (fs : gmap string SavedStore)
        (query : string) (top_k : Z) (threshold : Q) :
  is_indexed s = false -> vectorizer s = None ->
  search s query top_k threshold = Return []
  /\ exists s',
       load other path (save s path fs) = Some s'
       /\ is_indexed s' = true
       /\ search s' query top_k threshold = Raise NotFittedError.
Proof.
  intros Hidx Hv. split; [now apply search_unbuilt|].
  unfold load, save. rewrite lookup_insert_eq. cbn. eexists.
  split; [reflexivity|]. split; [reflexivity|].
  unfold search. cbn. now rewrite Hv.
Qed.

(** [load] of a path that was never saved finds no file, and saving
    under one path leaves the file under another as it was. *)
Lemma load_other_path (s other : VectorStore) (path path' : string) (fs : gmap string SavedStore) :
  path <> path' ->
  load other path' (save s path fs) = load other path' fs
  /\ (fs !! path' = None -> load other path' (save s path fs) = None).
Proof.
  intros Hne. unfold load, save. rewrite lookup_insert_ne by exact Hne.
  split; [reflexivity|]. now intros ->.
Qed.
End StoreLifecycle.

(** On the corpus: a build of one chunk, then a build of a chunk without
    a word. The second fit raises [ValueError]; the store keeps the flag
    and the one vector of the first build, holds the new chunk, and every
    search on it raises [NotFittedError]. *)
Example failed_rebuild_on_corpus :
  snd (add_chunks (sk := BagOfWords.library)
                  (fst (add_chunks new_store [Examples.chunk_b]))
                  [Examples.blank_chunk])
  = Raise ValueError
  /\ is_indexed Examples.rebuilt_blank = true
  /\ chunks Examples.rebuilt_blank = [Examples.blank_chunk]
  /\ vector_count Examples.rebuilt_blank = 1%nat
  /\ search Examples.rebuilt_blank "bank" 5 0%Q = Raise NotFittedError.
Proof. repeat split; vm_compute; reflexivity. Qed.

Section SearchPrefix.
Context {sk : Sklearn} {laws : SklearnLaws sk}.

Lemma firstn_prefix {A} (n m : nat) (l : list A) :
  (n <= m)%nat -> is_prefix (firstn n l) (firstn m l).
Proof.
  revert m l. induction n as [|n IH]; intros m l Hnm.
  - exists (firstn m l). reflexivity.
  - destruct m as [|m]; [lia|]. destruct l as [|x l]; [exists []; reflexivity|].
    destruct (IH m l ltac:(lia)) as [rest Hrest]. exists rest.
    cbn. now rewrite Hrest.
Qed.

Lemma filter_prefix {A} (f : A -> bool) (l1 l2 : list A) :
  is_prefix l1 l2 -> is_prefix (List.filter f l1) (List.filter f l2).
Proof. intros [rest ->]. exists (List.filter f rest). apply List.filter_app. Qed.

Lemma map_prefix {A B} (f : A -> B) (l1 l2 : list A) :
  is_prefix l1 l2 -> is_prefix (map f l1) (map f l2).
Proof. intros [rest ->]. exists (map f rest). apply map_app. Qed.

(** X3: on a built index, asking for more results only appends: for
    [0 <= k1 <= k2] the results for [top_k = k1] are an initial segment of
    the results for [top_k = k2], same query and threshold. *)
Theorem X3_search_larger_top_k_extends
        (s : VectorStore) (query : string) (k1 k2 : Z) (threshold : Q) :
  built s -> 0 <= k1 -> k1 <= k2 ->
  exists r1 r2,
    search s query k1 threshold = Return r1
    /\ search s query k2 threshold = Return r2
    /\ is_prefix r1 r2.
Proof.
  intros (Hidx & v & m & Hv & Hfit & Hm & Hlen) H1 H12.
  eexists _, _. split; [|split].
  - apply (search_built s v m); assumption.
  - apply (search_built s v m); assumption.
  - apply map_prefix, filter_prefix. unfold top_indices_of, slice_to.
    destruct (Z.leb_spec 0 k1); [|lia]. destruct (Z.leb_spec 0 k2); [|lia].
    apply firstn_prefix. lia.
Qed.
End SearchPrefix.

(* ===================================================================== *)
(** * Sets of strings *)
(* ===================================================================== *)

Lemma existsb_eqb_In (x : string) (l : list string) :
  existsb (String.eqb x) l = true <-> In x l.
Proof.
  rewrite existsb_exists. split.
  - intros (y & Hy & Heq). apply String.eqb_eq in Heq. now subst.
  - intros Hx. exists x. split; [exact Hx | apply String.eqb_refl].
Qed.

Lemma distinct_In (x : string) (l : list string) :
  In x (PyStr.distinct l) <-> In x l.
Proof.
  induction l as [|y r IH]; [reflexivity|]. cbn [PyStr.distinct].
  destruct (existsb (String.eqb y) r) eqn:Hex.
  - apply existsb_eqb_In in Hex. rewrite IH. cbn. split; [tauto|].
    intros [<-|H]; assumption.
  - cbn. now rewrite IH.
Qed.

Lemma distinct_NoDup (l : list string) : List.NoDup (PyStr.distinct l).
Proof.
  induction l as [|y r IH]; [constructor|]. cbn [PyStr.distinct].
  destruct (existsb (String.eqb y) r) eqn:Hex; [exact IH|].
  constructor; [|exact IH]. rewrite distinct_In. intros Hin.
  apply existsb_eqb_In in Hin. congruence.
Qed.

Lemma distinct_length (l : list string) :
  (length (PyStr.distinct l) <= length l)%nat.
Proof.
  induction l as [|y r IH]; [reflexivity|]. cbn [PyStr.distinct].
  destruct (existsb (String.eqb y) r); cbn; lia.
Qed.

Section Stats.
Context {sk : Sklearn}.

(** X7: when [get_stats] returns, [total_chunks] is the number of stored
    chunks and [documents] is the number of distinct document names among
    them, so it is at most [total_chunks] and at least 1 as soon as a chunk
    is stored; the vocabulary size of a store that is not indexed is 0. *)
Theorem X7_get_stats_counts (s : VectorStore) (stats : Stats) :
  get_stats s = Return stats ->
  total_chunks stats = Z.of_nat (length (chunks s))
  /\ (exists names,
        documents stats = Z.of_nat (length names)
        /\ List.NoDup names
        /\ forall name, In name names <-> exists c, In c (chunks s) /\ document c = name)
  /\ 0 <= documents stats <= total_chunks stats
  /\ (chunks s <> [] -> 1 <= documents stats)
  /\ (is_indexed s = false -> stats_vocabulary_size stats = 0).
Proof.
  unfold get_stats. intros H.
  assert (Hvocab : exists vocab,
             (if is_indexed s
              then match vectorizer s with
                   | Some v => Return (vocabulary_size v)
                   | None => Raise AttributeError
                   end
              else Return 0) = Return vocab
             /\ stats = {| total_chunks := Z.of_nat (length (chunks s));
                           stats_is_indexed := is_indexed s;
                           stats_vocabulary_size := vocab;
                           documents :=
                             Z.of_nat (length (PyStr.distinct
                                                 (map document (chunks s)))) |}).
  { destruct (if is_indexed s then _ else _) as [vocab|e] eqn:Hv;
      cbn [bind] in H; [|discriminate].
    exists vocab. split; [reflexivity|]. now injection H as <-. }
  destruct Hvocab as (vocab & Hv & ->). cbn.
  split; [reflexivity|]. split; [|split; [|split]].
  - exists (PyStr.distinct (map document (chunks s))).
    split; [reflexivity|]. split; [apply distinct_NoDup|].
    intros name. rewrite distinct_In, in_map_iff.
    split; intros (c & H1 & H2); exists c; tauto.
  - pose proof (distinct_length (map document (chunks s))) as Hle.
    rewrite length_map in Hle. lia.
  - intros Hne. destruct (chunks s) as [|c cs] eqn:Hcs; [contradiction|].
    assert (Hin : In (document c) (PyStr.distinct (map document (c :: cs))))
      by (apply distinct_In; now left).
    destruct (PyStr.distinct (map document (c :: cs))); [destruct Hin | cbn; lia].
  - intros Hidx. rewrite Hidx in Hv. now injection Hv as <-.
Qed.
End Stats.

(* ===================================================================== *)
(** * Further properties of the retriever *)
(* ===================================================================== *)

Section FloatOperations.
Import PyFloat.
Local Open Scope Q_scope.

Lemma round_float (x : Q) : is_float x = true -> round x == x.
Proof. intros H. now apply Qeq_bool_iff. Qed.

Lemma round_nonneg (x : Q) : 0 <= x -> 0 <= round x.
Proof. intros H. apply (round_le 0 x H). Qed.

(** Adding something that is not negative never takes a sum below a
    float that the first operand reaches. *)
Lemma add_ge (t x b : Q) : is_float t = true -> t <= x -> 0 <= b -> t <= add x b.
Proof.
  intros Ht Hx Hb. rewrite <- (round_float t Ht). apply round_le. lra.
Qed.

Lemma add_le_compat (x x' y y' : Q) : x <= x' -> y <= y' -> add x y <= add x' y'.
Proof. intros Hx Hy. apply round_le. lra. Qed.

Lemma mul_nonneg (r c : Q) : 0 <= r -> 0 <= c -> 0 <= mul r c.
Proof. intros Hr Hc. apply round_nonneg. now apply Qmult_le_0_compat. Qed.

Lemma mul_le_cap (r c : Q) : r <= 1 -> 0 <= c -> is_float c = true -> mul r c <= c.
Proof.
  intros Hr Hc Hf. rewrite <- (round_float c Hf) at 2. apply round_le.
  rewrite <- (Qmult_1_l c) at 2. now apply Qmult_le_compat_r.
Qed.

Lemma truediv_nonneg (n d : Z) : (0 <= n)%Z -> (0 < d)%Z -> 0 <= truediv n d.
Proof.
  intros Hn Hd. apply round_nonneg.
  apply Qle_shift_div_l; [now rewrite <- (Zlt_Qlt 0)|].
  rewrite Qmult_0_l. now rewrite <- (Zle_Qle 0).
Qed.

Lemma truediv_le_1 (n d : Z) : (n <= d)%Z -> (0 < d)%Z -> truediv n d <= 1.
Proof.
  intros Hn Hd. assert (H1 : round 1 == 1) by (vm_compute; reflexivity).
  rewrite <- H1. apply round_le.
  apply Qle_shift_div_r; [now rewrite <- (Zlt_Qlt 0)|].
  rewrite Qmult_1_l. now rewrite <- Zle_Qle.
Qed.

End FloatOperations.

Section ScoreBounds.
Context {R : Type} (deref : R -> Chunk).

Lemma phrase_bonus_bounds (query text_lower : string) :
  (0 <= phrase_bonus query text_lower <= PyFloat.literal (2 # 10))%Q.
Proof.
  unfold phrase_bonus. destruct (PyStr.contains _ _); split;
    apply Qle_bool_iff; vm_compute; reflexivity.
Qed.

Lemma length_factor_cap (c : Chunk) :
  (length_factor c <= PyFloat.literal (5 # 100))%Q.
Proof.
  unfold length_factor. apply mul_le_cap;
    [apply Q.le_min_r | apply Qle_bool_iff; vm_compute; reflexivity
     | vm_compute; reflexivity].
Qed.

Lemma length_factor_nonneg (c : Chunk) :
  0 <= char_count c -> (0 <= length_factor c)%Q.
Proof.
  intros Hc. unfold length_factor. apply mul_nonneg.
  - apply Q.min_glb; [apply truediv_nonneg; lia | discriminate].
  - apply Qle_bool_iff. vm_compute. reflexivity.
Qed.

Lemma term_bonus_bounds (query_terms : list string) (text_lower : string) :
  query_terms <> [] ->
  (0 <= PyFloat.mul (PyFloat.truediv (term_matches query_terms text_lower)
                                     (Z.of_nat (length query_terms)))
                    (PyFloat.literal (1 # 10))
   <= PyFloat.literal (1 # 10))%Q.
Proof.
  intros Hne. unfold term_matches.
  pose proof (filter_length_le (fun term => PyStr.contains term text_lower)
                               query_terms) as Hle.
  set (m := length (List.filter _ query_terms)) in *.
  set (n := length query_terms) in *.
  assert (Hn : (0 < n)%nat).
  { unfold n. destruct query_terms; [contradiction | cbn; lia]. }
  split.
  - apply mul_nonneg; [apply truediv_nonneg; lia|].
    apply Qle_bool_iff. vm_compute. reflexivity.
  - apply mul_le_cap; [apply truediv_le_1; lia | | vm_compute; reflexivity].
    apply Qle_bool_iff. vm_compute. reflexivity.
Qed.

(** The bonuses never take a score below a float that the base score
    reaches. *)
Lemma code_final_score_lower (query : string) (c : Chunk) (base_score t : Q) :
  query_terms_of query <> [] -> 0 <= char_count c ->
  PyFloat.is_float t = true -> (t <= base_score)%Q ->
  (t <= code_final_score query c base_score)%Q.
Proof.
  intros Hq Hc Ht Hbase. unfold code_final_score.
  pose proof (phrase_bonus_bounds query (PyStr.lower (text c))) as [Hp0 _].
  pose proof (length_factor_nonneg c Hc) as Hl0.
  pose proof (term_bonus_bounds (query_terms_of query) (PyStr.lower (text c)) Hq)
    as [Ht0 _].
  apply add_ge; [exact Ht | | exact Hl0].
  apply add_ge; [exact Ht | | exact Ht0].
  apply add_ge; [exact Ht | exact Hbase | exact Hp0].
Qed.

(** No score exceeds the one with the three bonuses in full. *)
Lemma code_final_score_upper (query : string) (c : Chunk) (base_score : Q) :
  query_terms_of query <> [] ->
  (code_final_score query c base_score <= capped_score base_score)%Q.
Proof.
  intros Hq. unfold code_final_score, capped_score.
  pose proof (phrase_bonus_bounds query (PyStr.lower (text c))) as [_ Hp1].
  pose proof (term_bonus_bounds (query_terms_of query) (PyStr.lower (text c)) Hq)
    as [_ Ht1].
  apply add_le_compat; [|apply length_factor_cap].
  apply add_le_compat; [|exact Ht1].
  apply add_le_compat; [apply Qle_refl | exact Hp1].
Qed.

Lemma rerank_results_bounds (query : string) (results out : list (R * Q)) :
  List.Forall (fun cand => 0 <= char_count (deref (fst cand))) results ->
  _rerank_results deref query results = Return out ->
  List.Forall
    (fun p => exists base_score,
                In (fst p, base_score) results
                /\ (forall t, PyFloat.is_float t = true ->
                              (t <= base_score)%Q -> (t <= snd p)%Q)
                /\ (snd p <= capped_score base_score)%Q)
    out.
Proof.
  intros Hcc Hret.
  destruct results as [|cand rest]; [injection Hret as <-; constructor|].
  remember (cand :: rest) as cands eqn:Hcands.
  destruct (PyStr.split (PyStr.lower query)) as [|w ws] eqn:Hq.
  - rewrite (rerank_raises deref query cands Hq) in Hret
      by (subst cands; discriminate).
    discriminate.
  - assert (Hne : PyStr.split (PyStr.lower query) <> [])
      by (rewrite Hq; discriminate).
    assert (Hterms : query_terms_of query <> []).
    { intros H. apply distinct_nil in H. contradiction. }
    rewrite (rerank_returns deref query cands Hne) in Hret. injection Hret as <-.
    apply List.Forall_forall. intros p Hp.
    apply (Permutation_in _ (sort_desc_permutation _)) in Hp.
    apply in_map_iff in Hp as ([c b] & <- & Hin). cbn [fst snd].
    exists b. split; [exact Hin|]. split.
    + intros t Ht Hb. apply code_final_score_lower; [exact Hterms | | exact Ht | exact Hb].
      rewrite List.Forall_forall in Hcc. exact (Hcc (c, b) Hin).
    + now apply code_final_score_upper.
Qed.

(** X8: when the reranker returns, the base scores are floats and no
    candidate has a negative [char_count], every candidate it returns is
    one of its candidates with a score between the base score and the
    score that the three bonuses in full, 0.2, 0.1 and 0.05, give to that
    base score: the bonuses never lower a score, and they are capped. *)
Theorem X8_rerank_bonus_within_caps
        (query : string) (results out : list (R * Q)) :
  List.Forall (fun cand => 0 <= char_count (deref (fst cand))
                           /\ PyFloat.is_float (snd cand) = true) results ->
  _rerank_results deref query results = Return out ->
  List.Forall
    (fun p => exists base_score,
                In (fst p, base_score) results
                /\ (base_score <= snd p <= capped_score base_score)%Q)
    out.
Proof.
  intros Hcands Hret. rewrite List.Forall_forall in Hcands.
  assert (Hcc : List.Forall (fun cand => 0 <= char_count (deref (fst cand))) results).
  { apply List.Forall_forall. intros cand Hin. exact (proj1 (Hcands cand Hin)). }
  pose proof (rerank_results_bounds query results out Hcc Hret) as Hb.
  rewrite List.Forall_forall in Hb. apply List.Forall_forall. intros p Hp.
  destruct (Hb p Hp) as (base & Hin & Hlo & Hhi).
  exists base. split; [exact Hin|]. split; [|exact Hhi].
  apply Hlo; [exact (proj2 (Hcands _ Hin)) | apply Qle_refl].
Qed.
End ScoreBounds.

(** In floats the three bonuses in full add up to a little more than
    0.35: from the base score 0 they give 0.35000000000000003. *)
Example capped_score_of_zero :
  (35 # 100 < capped_score 0)%Q
  /\ (capped_score 0 == 6305039478318695 # 18014398509481984)%Q.
Proof. split; [reflexivity | vm_compute; reflexivity]. Qed.


Section RetrieveResults.
Context {sk : Sklearn}.

(** Every result of the search loop is a stored chunk with a similarity
    that reaches the threshold. *)
Lemma collect_results_sound (stored : list Chunk) (similarities : list Q)
      (threshold : Q) (idxs : list nat) :
  forall results,
    collect_results stored similarities threshold idxs = Return results ->
    List.Forall (fun p => In (fst p) stored /\ (threshold <= snd p)%Q) results.
Proof.
  induction idxs as [|i r IH]; intros results Hret.
  - injection Hret as <-. constructor.
  - cbn [collect_results] in Hret.
    destruct (similarities !! i) as [x|]; [|discriminate].
    destruct (Qle_bool threshold x) eqn:Hle; [|now apply IH].
    destruct (stored !! i) as [c|] eqn:Hc; [|discriminate].
    destruct (collect_results stored similarities threshold r) as [tail|e];
      cbn in Hret; [|discriminate].
    injection Hret as <-. constructor; [|now apply IH]. cbn. split.
    + apply list_elem_of_In. eapply list_elem_of_lookup_2. exact Hc.
    + now apply Qle_bool_iff.
Qed.

Lemma search_sound (s : VectorStore) (query : string) (top_k : Z) (threshold : Q)
      (results : list (Chunk * Q)) :
  search s query top_k threshold = Return results ->
  List.Forall (fun p => In (fst p) (chunks s) /\ (threshold <= snd p)%Q) results.
Proof.
  unfold search. destruct (negb (is_indexed s)).
  - intros [= <-]. constructor.
  - destruct (vectorizer s) as [v|]; [|discriminate].
    destruct (fitted v); [apply collect_results_sound | discriminate].
Qed.

(** What a returning [retrieve] went through. *)
Lemma retrieve_returns_inv (s : VectorStore) (query : string) (max_results : Z)
      (threshold : Q) (filter_document : option string) (l : list Chunk) :
  retrieve s query max_results threshold filter_document = Return l ->
  exists candidates reranked,
    search s (_enhance_query query) (max_results * 2) threshold = Return candidates
    /\ _rerank_results id query (filter_results id filter_document candidates)
       = Return reranked
    /\ l = map (fun '(chunk, score) => set_relevance_score chunk score)
               (slice_to max_results reranked).
Proof.
  unfold retrieve. intros H.
  destruct (search s (_enhance_query query) (max_results * 2) threshold)
    as [candidates|e]; cbn [bind] in H; [|discriminate].
  destruct (_rerank_results id query (filter_results id filter_document candidates))
    as [reranked|e] eqn:Hrr; cbn [bind] in H; [|discriminate].
  injection H as <-. exists candidates, reranked. repeat split. exact Hrr.
Qed.

(** X9: with a non-empty [filter_document], [retrieve] never returns a
    chunk of another document; an empty filter string filters nothing,
    like no filter at all. *)
Theorem X9_retrieve_filter_document
        (s : VectorStore) (query : string) (max_results : Z) (threshold : Q)
        (name : string) (l : list Chunk) :
  name <> "" ->
  retrieve s query max_results threshold (Some name) = Return l ->
  List.Forall (fun c => document c = name) l
  /\ retrieve s query max_results threshold (Some "")
     = retrieve s query max_results threshold None.
Proof.
  intros Hname Hret. split; [|reflexivity].
  apply retrieve_returns_inv in Hret as (cands & reranked & _ & Hrr & ->).
  apply List.Forall_forall. intros c Hc.
  apply in_map_iff in Hc as ([c0 score] & <- & Hin). cbn [document set_relevance_score].
  apply slice_to_incl in Hin.
  apply (rerank_results_refs id _ _ _ Hrr) in Hin. cbn [fst] in Hin.
  apply in_map_iff in Hin as (p & Hp & Hin).
  unfold filter_results in Hin. destruct name as [|a name]; [contradiction|].
  apply filter_In in Hin as [_ Heq]. apply String.eqb_eq in Heq.
  cbn in Heq. now rewrite <- Hp.
Qed.

(** X10: for [max_results >= 0], [retrieve] returns at most [max_results]
    chunks, and each of them is a stored chunk with nothing changed but
    [relevance_score], which is set. *)
Theorem X10_retrieve_bounded_and_from_store
        (s : VectorStore) (query : string) (max_results : Z) (threshold : Q)
        (filter_document : option string) (l : list Chunk) :
  0 <= max_results ->
  retrieve s query max_results threshold filter_document = Return l ->
  (length l <= Z.to_nat max_results)%nat
  /\ List.Forall
       (fun c => exists stored score,
                   In stored (chunks s)
                   /\ c = set_relevance_score stored score
                   /\ relevance_score c = Some score) l.
Proof.
  intros Hm Hret.
  apply retrieve_returns_inv in Hret as (cands & reranked & Hs & Hrr & ->).
  split.
  - rewrite length_map. unfold slice_to. destruct (Z.leb_spec 0 max_results); [|lia].
    apply firstn_le_length.
  - apply List.Forall_forall. intros c Hc.
    apply in_map_iff in Hc as ([c0 score] & <- & Hin).
    exists c0, score. split; [|split; reflexivity].
    apply slice_to_incl in Hin.
    apply (rerank_results_refs id _ _ _ Hrr) in Hin. cbn [fst] in Hin.
    apply in_map_iff in Hin as (p & Hp & Hin).
    apply filter_results_incl in Hin.
    apply search_sound in Hs. rewrite List.Forall_forall in Hs.
    destruct (Hs p Hin) as [Hstored _]. now rewrite <- Hp.
Qed.

Lemma rerank_results_sorted {R : Type} (get : R -> Chunk) (query : string)
      (results out : list (R * Q)) :
  _rerank_results get query results = Return out ->
  StronglySorted by_score_desc out.
Proof.
  intros Hret.
  destruct results as [|cand rest]; [injection Hret as <-; constructor|].
  remember (cand :: rest) as cands eqn:Hcands.
  destruct (PyStr.split (PyStr.lower query)) as [|w ws] eqn:Hq.
  - rewrite (rerank_raises get query cands Hq) in Hret
      by (subst cands; discriminate).
    discriminate.
  - rewrite (rerank_returns get query cands) in Hret
      by (rewrite Hq; discriminate).
    injection Hret as <-. apply sort_desc_sorted.
Qed.

Lemma StronglySorted_weaken {A} (Rel Rel' : A -> A -> Prop) (l : list A) :
  (forall x y, Rel x y -> Rel' x y) ->
  StronglySorted Rel l -> StronglySorted Rel' l.
Proof.
  intros Hw. induction 1 as [|a l Hs IH Hall]; constructor; [exact IH|].
  rewrite List.Forall_forall in *. auto.
Qed.

Lemma slice_to_sorted {A} (Rel : A -> A -> Prop) (k : Z) (l : list A) :
  StronglySorted Rel l -> StronglySorted Rel (slice_to k l).
Proof.
  intros H. unfold slice_to.
  destruct (0 <=? k); eapply StronglySorted_app_left; rewrite firstn_skipn; exact H.
Qed.

(** X11: the chunks [retrieve] returns are ordered by [relevance_score]
    descending. *)
Theorem X11_retrieve_sorted_by_relevance
        (s : VectorStore) (query : string) (max_results : Z) (threshold : Q)
        (filter_document : option string) (l : list Chunk) :
  retrieve s query max_results threshold filter_document = Return l ->
  StronglySorted (fun a b => (relevance b <= relevance a)%Q) l.
Proof.
  intros Hret.
  apply retrieve_returns_inv in Hret as (cands & reranked & _ & Hrr & ->).
  apply StronglySorted_map.
  assert (Hsorted : StronglySorted by_score_desc reranked)
    by exact (rerank_results_sorted id _ _ _ Hrr).
  apply (slice_to_sorted _ max_results) in Hsorted.
  revert Hsorted. apply StronglySorted_weaken.
  intros [c1 s1] [c2 s2]. unfold by_score_desc, relevance. cbn. auto.
Qed.

(** X12: when the threshold is a float and no stored chunk has a
    negative [char_count], every chunk [retrieve] returns has a
    [relevance_score] of at least the threshold: the reranker never takes
    a candidate below what the search let through. *)
Theorem X12_retrieve_relevance_reaches_threshold
        (s : VectorStore) (query : string) (max_results : Z) (threshold : Q)
        (filter_document : option string) (l : list Chunk) :
  PyFloat.is_float threshold = true ->
  List.Forall (fun c => 0 <= char_count c) (chunks s) ->
  retrieve s query max_results threshold filter_document = Return l ->
  List.Forall (fun c => (threshold <= relevance c)%Q) l.
Proof.
  intros Hfloat Hcc Hret.
  apply retrieve_returns_inv in Hret as (cands & reranked & Hs & Hrr & ->).
  apply search_sound in Hs. rewrite List.Forall_forall in Hs, Hcc.
  assert (Hnonneg : List.Forall (fun cand => 0 <= char_count (id (fst cand)))
                                (filter_results id filter_document cands)).
  { apply List.Forall_forall. intros p Hp. apply filter_results_incl in Hp.
    apply Hcc. exact (proj1 (Hs p Hp)). }
  pose proof (rerank_results_bounds id query _ reranked Hnonneg Hrr) as Hbounds.
  rewrite List.Forall_forall in Hbounds.
  apply List.Forall_forall. intros c Hc.
  apply in_map_iff in Hc as ([c0 score] & <- & Hin). unfold relevance. cbn.
  apply slice_to_incl in Hin.
  destruct (Hbounds (c0, score) Hin) as (base & Hbase & Hlo & _).
  apply filter_results_incl in Hbase. destruct (Hs _ Hbase) as [_ Hthr].
  cbn in Hthr, Hlo. now apply Hlo.
Qed.

(** X13: on a store that is not indexed, [retrieve] returns the empty
    list for every query, a query of blanks included, and for every
    [max_results], threshold and filter. *)
Theorem X13_retrieve_on_unbuilt_store
        (s : VectorStore) (query : string) (max_results : Z) (threshold : Q)
        (filter_document : option string) :
  is_indexed s = false ->
  retrieve s query max_results threshold filter_document = Return [].
Proof.
  intros Hidx. unfold retrieve. rewrite (search_unbuilt s _ _ _ Hidx). cbn [bind].
  assert (Hf : filter_results id filter_document (@nil (Chunk * Q)) = []).
  { unfold filter_results. destruct filter_document as [[|]|]; reflexivity. }
  rewrite Hf. cbn. now rewrite slice_to_nil.
Qed.
End RetrieveResults.

(* ===================================================================== *)
(** * Further properties of the chunker *)
(* ===================================================================== *)

Section Strip.

Lemma append_cons (c : ascii) (a b : string) : String c a ++ b = String c (a ++ b).
Proof. reflexivity. Qed.

Lemma rstrip_idempotent (s : string) : PyStr.rstrip (PyStr.rstrip s) = PyStr.rstrip s.
Proof.
  induction s as [|c r IH]; [reflexivity|]. cbn [PyStr.rstrip].
  destruct (PyStr.isspace c && PyStr.is_empty (PyStr.rstrip r))%bool eqn:Hc;
    [reflexivity|].
  cbn [PyStr.rstrip]. now rewrite IH, Hc.
Qed.

Lemma lstrip_idempotent (s : string) : PyStr.lstrip (PyStr.lstrip s) = PyStr.lstrip s.
Proof.
  induction s as [|c r IH]; [reflexivity|]. cbn [PyStr.lstrip].
  destruct (PyStr.isspace c) eqn:Hc; [exact IH|].
  cbn [PyStr.lstrip]. now rewrite Hc.
Qed.

Lemma rstrip_lstrip (s : string) :
  PyStr.rstrip (PyStr.lstrip s) = PyStr.lstrip (PyStr.rstrip s).
Proof.
  induction s as [|c r IH]; [reflexivity|]. cbn [PyStr.lstrip PyStr.rstrip].
  destruct (PyStr.isspace c) eqn:Hc; cbn [andb].
  - rewrite IH. destruct (PyStr.rstrip r) as [|c' r'] eqn:Hr; cbn [PyStr.is_empty].
    + reflexivity.
    + cbn [PyStr.lstrip]. now rewrite Hc.
  - cbn [PyStr.rstrip PyStr.lstrip]. now rewrite Hc.
Qed.

(** Stripping twice is stripping once. *)
Lemma strip_idempotent (s : string) : PyStr.strip (PyStr.strip s) = PyStr.strip s.
Proof.
  unfold PyStr.strip.
  now rewrite rstrip_lstrip, rstrip_idempotent, lstrip_idempotent.
Qed.

Lemma rstrip_all_space (s : string) : all_space s = true -> PyStr.rstrip s = "".
Proof.
  induction s as [|c r IH]; [reflexivity|]. cbn.
  intros H. apply andb_true_iff in H as [Hc Hr]. now rewrite Hc, (IH Hr).
Qed.

Lemma strip_all_space (s : string) : all_space s = true -> PyStr.strip s = "".
Proof. intros H. unfold PyStr.strip. now rewrite rstrip_all_space. Qed.

Lemma all_space_append (a b : string) :
  all_space (a ++ b) = (all_space a && all_space b)%bool.
Proof.
  induction a as [|c a IH]; [reflexivity|]. rewrite append_cons. cbn [all_space].
  rewrite IH. now destruct (PyStr.isspace c).
Qed.

Lemma is_empty_len (s : string) : PyStr.is_empty s = false -> 1 <= PyStr.len s.
Proof. destruct s; [discriminate|]. unfold PyStr.len. cbn. lia. Qed.

Lemma append_empty_r (s : string) : s ++ "" = s.
Proof.
  induction s as [|c s IH]; [reflexivity | now rewrite append_cons, IH].
Qed.

Lemma append_assoc (a b c : string) : (a ++ b) ++ c = a ++ (b ++ c).
Proof.
  induction a as [|x a IH]; [reflexivity | now rewrite !append_cons, IH].
Qed.

Lemma strip_append_separator (s : string) :
  PyStr.strip (PyStr.strip s ++ paragraph_separator) = PyStr.strip s.
Proof.
  assert (Hr : forall t, PyStr.rstrip (t ++ paragraph_separator) = PyStr.rstrip t).
  { induction t as [|c t IH]; [reflexivity|].
    rewrite append_cons. cbn [PyStr.rstrip]. now rewrite IH. }
  unfold PyStr.strip at 1. rewrite Hr. fold (PyStr.strip (PyStr.strip s)).
  apply strip_idempotent.
Qed.

End Strip.

Section BlankPages.

Lemma re_split_from_all_space (s : string) :
  forall skip cur,
    all_space s = true -> all_space cur = true ->
    List.Forall (fun p => all_space p = true) (re_split_from s skip cur).
Proof.
  induction s as [|c r IH]; intros skip cur Hs Hcur; cbn [re_split_from].
  - now repeat constructor.
  - cbn in Hs. apply andb_true_iff in Hs as [Hc Hr].
    assert (Hnext : all_space (cur ++ String c "") = true).
    { rewrite all_space_append, Hcur. cbn. now rewrite Hc. }
    destruct skip as [|k]; [|now apply IH].
    destruct (PyStr.is_newline c); [|now apply IH].
    destruct (separator_rest r); [|now apply IH].
    constructor; [exact Hcur | now apply IH].
Qed.

(** A text of whitespace only has no paragraph. *)
Lemma split_into_paragraphs_blank (txt : string) :
  all_space txt = true -> _split_into_paragraphs txt = [].
Proof.
  intros H. unfold _split_into_paragraphs, re_split.
  pose proof (re_split_from_all_space txt 0 "" H eq_refl) as Hall.
  induction Hall as [|p ps Hp _ IH]; [reflexivity|].
  cbn [List.filter]. rewrite (strip_all_space p Hp). cbn. exact IH.
Qed.

End BlankPages.

Section ChunkShape.
Variable self : TextChunker.
Variables (page : Z) (src : string).

Lemma create_chunk_well_formed (txt : string) (start : Z) :
  well_formed_page_chunk page src (_create_chunk txt page src start).
Proof.
  unfold well_formed_page_chunk, _create_chunk.
  cbn [pc_text pc_char_count pc_word_count pc_page_number pc_source].
  rewrite strip_idempotent. repeat split.
Qed.

Lemma chunk_paragraphs_well_formed (paragraphs : list string) :
  forall cur start,
    List.Forall (well_formed_page_chunk page src)
                (chunk_paragraphs self page src paragraphs cur start).
Proof.
  induction paragraphs as [|para rest IH]; intros cur start; cbn [chunk_paragraphs].
  - destruct (_ <=? _); repeat constructor; apply create_chunk_well_formed.
  - destruct (_ <? _); [|apply IH].
    apply Forall_app. split; [|apply IH].
    destruct (negb _); repeat constructor; apply create_chunk_well_formed.
Qed.

(** With [min_chunk_size >= 1] no chunk is empty. *)
Lemma chunk_paragraphs_non_empty (paragraphs : list string) :
  1 <= min_chunk_size self ->
  forall cur start,
    List.Forall (fun c => 1 <= pc_char_count c)
                (chunk_paragraphs self page src paragraphs cur start).
Proof.
  intros Hmin. induction paragraphs as [|para rest IH]; intros cur start;
    cbn [chunk_paragraphs].
  - destruct (Z.leb_spec (min_chunk_size self) (PyStr.len (PyStr.strip cur)));
      repeat constructor. cbn. lia.
  - destruct (_ <? _); [|apply IH].
    apply Forall_app. split; [|apply IH].
    destruct (PyStr.is_empty (PyStr.strip cur)) eqn:He; cbn [negb];
      repeat constructor. cbn. now apply is_empty_len.
Qed.

(** The loop closes at most one chunk per paragraph, and the buffer
    accounts for one more when it holds text. *)
Lemma chunk_paragraphs_count (paragraphs : list string) :
  1 <= min_chunk_size self ->
  forall cur start,
    (length (chunk_paragraphs self page src paragraphs cur start)
     <= length paragraphs
        + (if PyStr.is_empty (PyStr.strip cur) then 0 else 1))%nat.
Proof.
  intros Hmin. induction paragraphs as [|para rest IH]; intros cur start;
    cbn [chunk_paragraphs].
  - destruct (Z.leb_spec (min_chunk_size self) (PyStr.len (PyStr.strip cur)))
      as [Hle|Hlt]; [|cbn; lia].
    destruct (PyStr.strip cur) eqn:Hs; [|cbn; lia].
    unfold PyStr.len in Hle. cbn in Hle. lia.
  - destruct (_ <? _).
    + rewrite length_app.
      specialize (IH (next_buffer self cur para)
                     (start + (PyStr.len (next_buffer self cur para)
                               - chunk_overlap self))).
      destruct (PyStr.is_empty (PyStr.strip cur)); cbn [negb length] in *;
        destruct (PyStr.is_empty (PyStr.strip (next_buffer self cur para)));
        cbn [length]; lia.
    + specialize (IH (cur ++ para) start).
      destruct (PyStr.is_empty (PyStr.strip (cur ++ para)));
        destruct (PyStr.is_empty (PyStr.strip cur)); cbn [length]; lia.
Qed.

(** Paragraphs that fit the buffer together are never split. *)
Lemma chunk_paragraphs_fits (paragraphs : list string) :
  forall cur start,
    PyStr.len cur + PyStr.len (join_all paragraphs) <= chunk_size self ->
    chunk_paragraphs self page src paragraphs cur start
    = if min_chunk_size self <=? PyStr.len (PyStr.strip (cur ++ join_all paragraphs))
      then [_create_chunk (cur ++ join_all paragraphs) page src start]
      else [].
Proof.
  induction paragraphs as [|para rest IH]; intros cur start Hfit.
  - cbn [chunk_paragraphs join_all fold_right]. now rewrite append_empty_r.
  - change (join_all (para :: rest)) with (para ++ join_all rest) in *.
    cbn [chunk_paragraphs]. rewrite len_append in Hfit.
    pose proof (len_nonneg (join_all rest)).
    destruct (Z.ltb_spec (chunk_size self) (PyStr.len cur + PyStr.len para)); [lia|].
    rewrite IH by (rewrite len_append; lia). now rewrite append_assoc.
Qed.

End ChunkShape.

Lemma chunk_document_consistent (self : TextChunker) (d : Document) :
  List.Forall
    (fun c =>
       char_count c = PyStr.len (text c)
       /\ PyStr.strip (text c) = text c
       /\ word_count c = Z.of_nat (length (PyStr.split (text c)))
       /\ document c = file_name d /\ source c = file_name d
       /\ relevance_score c = None
       /\ exists p, In p (pages d) /\ page_number c = page_no p)
    (chunk_document self d).
Proof.
  unfold chunk_document. generalize 0 at 1. generalize (file_name d) as name.
  intros name. induction (pages d) as [|p ps IH]; intros next_id; [constructor|].
  cbn [chunk_pages].
  pose proof (chunk_paragraphs_well_formed self (page_no p) name
                (_split_into_paragraphs (page_text p)) "" 0) as Hwf.
  fold (_chunk_page self (page_no p) name (page_text p)) in Hwf.
  revert Hwf. generalize (_chunk_page self (page_no p) name (page_text p)).
  intros pcs Hwf.
  assert (Hnum : forall n,
             List.Forall
               (fun c => char_count c = PyStr.len (text c)
                         /\ PyStr.strip (text c) = text c
                         /\ word_count c = Z.of_nat (length (PyStr.split (text c)))
                         /\ document c = name /\ source c = name
                         /\ relevance_score c = None
                         /\ page_number c = page_no p)
               (fst (number_chunks name pcs n))).
  { induction Hwf as [|c r Hc _ IHr]; intros n; [constructor|].
    cbn [number_chunks]. specialize (IHr (n + 1)).
    destruct (number_chunks name r (n + 1)) as [cs last]. cbn [fst] in *.
    constructor; [|exact IHr]. cbn. destruct Hc as (H1 & H2 & H3 & H4 & H5).
    repeat split; assumption. }
  specialize (Hnum next_id).
  destruct (number_chunks name pcs next_id) as [cs next_id']. cbn [fst] in Hnum.
  apply Forall_app. split.
  - eapply List.Forall_impl; [|exact Hnum]. cbn.
    intros c (H1 & H2 & H3 & H4 & H5 & H6 & H7). repeat split; try assumption.
    exists p. split; [now left | assumption].
  - eapply List.Forall_impl; [|exact (IH next_id')]. cbn.
    intros c (H1 & H2 & H3 & H4 & H5 & H6 & q & Hq & H7).
    repeat split; try assumption. exists q. split; [now right | assumption].
Qed.

(** X14: every chunk that [chunk_document] emits is consistent:
    [char_count] is the length of [text], [text] carries no leading or
    trailing whitespace, [word_count] is the number of its
    whitespace-separated words, [document] and [source] are the file name,
    [relevance_score] is absent, and [page_number] is the number of one of
    the document's pages. *)
Theorem X14_chunks_are_consistent (self : TextChunker) (d : Document) :
  List.Forall
    (fun c =>
       char_count c = PyStr.len (text c)
       /\ PyStr.strip (text c) = text c
       /\ word_count c = Z.of_nat (length (PyStr.split (text c)))
       /\ document c = file_name d /\ source c = file_name d
       /\ relevance_score c = None
       /\ exists p, In p (pages d) /\ page_number c = page_no p)
    (chunk_document self d).
Proof. apply chunk_document_consistent. Qed.

(** X15: with [min_chunk_size >= 1] a page yields no empty chunk and at
    most as many chunks as it has paragraphs; a page of whitespace only
    yields none. *)
Theorem X15_page_chunks_non_empty_and_counted
        (self : TextChunker) (page : Z) (src txt : string) :
  1 <= min_chunk_size self ->
  List.Forall (fun c => 1 <= pc_char_count c) (_chunk_page self page src txt)
  /\ (length (_chunk_page self page src txt)
      <= length (_split_into_paragraphs txt))%nat
  /\ (all_space txt = true -> _chunk_page self page src txt = []).
Proof.
  intros Hmin. split; [|split].
  - now apply chunk_paragraphs_non_empty.
  - pose proof (chunk_paragraphs_count self page src
                  (_split_into_paragraphs txt) Hmin "" 0) as H.
    cbn in H. unfold _chunk_page. lia.
  - intros Hblank. unfold _chunk_page.
    rewrite (split_into_paragraphs_blank txt Hblank). cbn.
    destruct (Z.leb_spec (min_chunk_size self) (PyStr.len "")); [|reflexivity].
    unfold PyStr.len in *. cbn in *. lia.
Qed.

(** X16: a page whose paragraphs, separators included, fit in
    [chunk_size] together is never split: it yields one chunk, at offset
    0, holding all its paragraphs, or no chunk when that text is shorter
    than [min_chunk_size]. *)
Theorem X16_page_that_fits_is_one_chunk
        (self : TextChunker) (page : Z) (src txt : string) :
  PyStr.len (join_all (_split_into_paragraphs txt)) <= chunk_size self ->
  _chunk_page self page src txt
  = if min_chunk_size self
       <=? PyStr.len (PyStr.strip (join_all (_split_into_paragraphs txt)))
    then [_create_chunk (join_all (_split_into_paragraphs txt)) page src 0]
    else [].
Proof.
  intros Hfit. unfold _chunk_page.
  rewrite chunk_paragraphs_fits by (unfold PyStr.len at 1; cbn; lia).
  reflexivity.
Qed.

(** X17: a page of a single paragraph is never cut, however long the
    paragraph is against [chunk_size]: it yields one chunk whose text is
    the paragraph without its separator, or no chunk when that text is
    shorter than [min_chunk_size]. *)
Theorem X17_single_paragraph_is_never_split
        (self : TextChunker) (page : Z) (src txt para : string) :
  _split_into_paragraphs txt = [para] ->
  map pc_text (_chunk_page self page src txt)
  = if min_chunk_size self <=? PyStr.len (PyStr.strip para)
    then [PyStr.strip para] else [].
Proof.
  intros Hsplit. unfold _chunk_page. rewrite Hsplit.
  assert (Hbuf : next_buffer self "" para = para).
  { unfold next_buffer. destruct (_ <? _); [|reflexivity].
    unfold PyStr.tail_slice. destruct (chunk_overlap self =? 0); [reflexivity|].
    destruct (0 <? chunk_overlap self); cbn [String.length].
    - reflexivity.
    - destruct (Z.to_nat (- chunk_overlap self)); reflexivity. }
  assert (Hflush : forall start,
             map pc_text (chunk_paragraphs self page src [] para start)
             = if min_chunk_size self <=? PyStr.len (PyStr.strip para)
               then [PyStr.strip para] else []).
  { intros start. cbn [chunk_paragraphs]. destruct (_ <=? _); reflexivity. }
  cbn [chunk_paragraphs]. destruct (_ <? _).
  - change (PyStr.strip "") with "". cbn [PyStr.is_empty negb app].
    rewrite Hbuf. apply Hflush.
  - change ("" ++ para) with para. apply Hflush.
Qed.

(* ===================================================================== *)
(** * Properties of the query planner *)
(* ===================================================================== *)

Section QueryPlannerFacts.
Import QueryPlanner.

Lemma first_group_key (table : list (string * list string)) (query key : string) :
  first_group table query = Some key -> In key (map fst table).
Proof.
  induction table as [|[k patterns] rest IH]; [discriminate|]. cbn.
  destruct (any_in patterns query); [intros [= <-]; now left | auto].
Qed.

(** The complexity is one of the three levels. *)
Lemma assess_complexity_levels (query : string) :
  _assess_complexity query = "high" \/ _assess_complexity query = "medium"
  \/ _assess_complexity query = "low".
Proof.
  unfold _assess_complexity.
  destruct (first_group indicators (PyStr.lower query)) as [level|] eqn:Hg.
  - apply first_group_key in Hg. cbn in Hg. intuition (subst; auto).
  - destruct (10 <? _); auto.
Qed.

Lemma determine_chunk_count_range (query_type complexity : string) :
  3 <= _determine_chunk_count query_type complexity <= 10.
Proof.
  unfold _determine_chunk_count.
  assert (H : 3 <= dict_get base_counts complexity 5 <= 8).
  { unfold base_counts. cbn [dict_get].
    repeat (destruct (String.eqb _ complexity); [lia|]). lia. }
  destruct (str_in query_type _); lia.
Qed.

(** X18: whatever the query and the mode, the plan asks for between 3 and
    10 chunks, never for a non-positive number, and it asks for 8 or more
    exactly when it requires synthesis, that is when the complexity is
    high. *)
Theorem X18_plan_chunk_count (query mode : string) :
  3 <= max_chunks (plan query mode) <= 10
  /\ (requires_synthesis (plan query mode) = true <-> 8 <= max_chunks (plan query mode))
  /\ (requires_synthesis (plan query mode) = true
      <-> complexity (plan query mode) = "high").
Proof.
  split; [apply determine_chunk_count_range|].
  unfold plan. cbn [max_chunks requires_synthesis complexity].
  split; [|apply String.eqb_eq].
  unfold _determine_chunk_count.
  destruct (assess_complexity_levels query) as [-> | [-> | ->]];
    destruct (str_in (_detect_query_type (PyStr.lower query)) _);
    vm_compute; split; intros H; try reflexivity; try discriminate;
    exfalso; apply H; reflexivity.
Qed.

Lemma word_runs_from_word_chars (s : string) :
  forall cur,
    List.Forall (fun w => PyStr.is_empty w = false) (word_runs_from s cur).
Proof.
  induction s as [|c r IH]; intros cur; cbn.
  - destruct (PyStr.is_empty cur) eqn:He; repeat constructor. exact He.
  - destruct (is_word_char c); [apply IH|].
    destruct (PyStr.is_empty cur) eqn:He; [apply IH|].
    constructor; [exact He | apply IH].
Qed.

Lemma all_word_chars_snoc (s : string) (c : ascii) :
  all_word_chars s = true -> is_word_char c = true ->
  all_word_chars (s ++ String c "") = true.
Proof.
  induction s as [|x s IH]; intros Hs Hc.
  - change (all_word_chars (String c "") = true). cbn [all_word_chars].
    now rewrite Hc.
  - rewrite append_cons. cbn [all_word_chars] in *.
    apply andb_true_iff in Hs as [Hx Hs]. now rewrite Hx, IH.
Qed.

Lemma word_runs_from_all_word_chars (s : string) :
  forall cur,
    all_word_chars cur = true ->
    List.Forall (fun w => all_word_chars w = true) (word_runs_from s cur).
Proof.
  induction s as [|c r IH]; intros cur Hcur; cbn.
  - destruct (PyStr.is_empty cur); repeat constructor. exact Hcur.
  - destruct (is_word_char c) eqn:Hc.
    + apply IH. now apply all_word_chars_snoc.
    + destruct (PyStr.is_empty cur); [now apply IH|].
      constructor; [exact Hcur | now apply IH].
Qed.

(** X19: [_extract_keywords] returns at most 10 keywords; each has more
    than two characters, all of them word characters, and none is a stop
    word. *)
Theorem X19_keywords (query : string) :
  (length (_extract_keywords query) <= 10)%nat
  /\ List.Forall
       (fun w => 2 < PyStr.len w /\ all_word_chars w = true /\ ~ In w stop_words)
       (_extract_keywords query).
Proof.
  unfold _extract_keywords. split.
  - unfold slice_to. cbn [Z.leb]. apply firstn_le_length.
  - apply List.Forall_forall. intros w Hw. apply slice_to_incl in Hw.
    apply filter_In in Hw as [Hin Hf]. apply andb_true_iff in Hf as [Hstop Hlen].
    split; [now apply Z.ltb_lt in Hlen|]. split.
    + pose proof (word_runs_from_all_word_chars (PyStr.lower query) "" eq_refl) as H.
      rewrite List.Forall_forall in H. now apply H.
    + intros Hs. apply existsb_eqb_In in Hs. unfold str_in in Hstop.
      rewrite Hs in Hstop. discriminate.
Qed.

Lemma contains_any_in (pattern query : string) (patterns : list string) :
  In pattern patterns -> PyStr.contains pattern query = true ->
  any_in patterns query = true.
Proof.
  intros Hin Hc. unfold any_in. apply existsb_exists. eauto.
Qed.

(** X20: a query that mentions [compare], in any letter case, is planned
    as a high-complexity, multi-document query that requires synthesis and
    at least 8 chunks, whatever else it says. *)
Theorem X20_compare_queries (query mode : string) :
  PyStr.contains "compare" (PyStr.lower query) = true ->
  complexity (plan query mode) = "high"
  /\ requires_multi_doc (plan query mode) = true
  /\ requires_synthesis (plan query mode) = true
  /\ 8 <= max_chunks (plan query mode).
Proof.
  intros Hc.
  assert (Hcx : _assess_complexity query = "high").
  { unfold _assess_complexity, indicators. cbn [first_group].
    assert (Hany : any_in ["compare"; "analyze"; "explain"; "relationship"; "how does"]
                          (PyStr.lower query) = true)
      by (apply (contains_any_in "compare"); [now left | exact Hc]).
    now rewrite Hany. }
  unfold plan. cbn [complexity requires_multi_doc requires_synthesis max_chunks].
  rewrite Hcx. split; [reflexivity|]. split; [|split; [reflexivity|]].
  - unfold _requires_multi_document.
    apply (contains_any_in "compare"); [now left | exact Hc].
  - unfold _determine_chunk_count.
    destruct (str_in (_detect_query_type (PyStr.lower query)) _);
      vm_compute; discriminate.
Qed.

End QueryPlannerFacts.

(* ===================================================================== *)
(** * Properties of the conversation history *)
(* ===================================================================== *)

Section HistoryFacts.
Context {Response : Type}.

(** The last [n] elements of a list. *)
Lemma add_to_history_window (h : list (@Interaction Response))
      (query : string) (response : Response) :
  _add_to_history h query response
  = skipn (length h + 1 - 10)
          (h ++ [ {| interaction_query := query;
                     interaction_response := response;
                     interaction_timestamp := None |} ])%list.
Proof.
  unfold _add_to_history, slice_from. rewrite length_app. cbn [length Z.leb].
  destruct (Z.ltb_spec 10 (Z.of_nat (length h + 1))).
  - reflexivity.
  - replace (length h + 1 - 10)%nat with 0%nat by lia. reflexivity.
Qed.

Lemma skipn_app_within {A} (k : nat) (l r : list A) :
  (k <= length l)%nat -> (skipn k l ++ r)%list = skipn k (l ++ r).
Proof.
  intros Hk. rewrite skipn_app. replace (k - length l)%nat with 0%nat by lia.
  reflexivity.
Qed.

Lemma history_after_window (interactions : list (string * Response)) :
  forall start : list (@Interaction Response),
    (length start <= 10)%nat ->
    history_after start interactions
    = skipn (length start + length interactions - 10)
            (start ++ map entry_of interactions)%list.
Proof.
  induction interactions as [|[query response] rest IH]; intros start Hlen.
  - cbn. rewrite app_nil_r. replace (length start + 0 - 10)%nat with 0%nat by lia.
    reflexivity.
  - cbn [history_after fold_left]. fold (history_after
      (_add_to_history start query response) rest).
    rewrite add_to_history_window.
    set (e := {| interaction_query := query; interaction_response := response;
                 interaction_timestamp := None |}).
    set (k := (length start + 1 - 10)%nat).
    assert (Hk : (k <= length (start ++ [e]))%nat)
      by (rewrite length_app; cbn; lia).
    rewrite IH by (rewrite length_skipn, length_app; cbn; lia).
    rewrite skipn_app_within by exact Hk.
    rewrite skipn_skipn, length_skipn, length_app. cbn [length map].
    change (entry_of (query, response)) with e.
    rewrite <- app_assoc. cbn [app]. f_equal. lia.
Qed.

(** X21: the conversation history after any series of interactions,
    starting from the empty history of a new agent, holds the last 10
    interactions in order, or all of them when there were fewer; it never
    holds more than 10 entries, and every timestamp is [None]. *)
Theorem X21_history_keeps_last_ten (interactions : list (string * Response)) :
  history_after [] interactions
  = skipn (length interactions - 10) (map entry_of interactions)
  /\ (length (history_after [] interactions) <= 10)%nat
  /\ List.Forall (fun e => interaction_timestamp e = None)
                 (history_after [] interactions).
Proof.
  assert (H : history_after [] interactions
              = skipn (length interactions - 10) (map entry_of interactions))
    by (apply (history_after_window interactions []); cbn; lia).
  rewrite H. split; [reflexivity|]. split.
  - rewrite length_skipn, length_map. lia.
  - apply List.Forall_forall. intros e He.
    assert (Hin : In e (map entry_of interactions)).
    { rewrite <- (firstn_skipn (length interactions - 10)). apply in_or_app.
      now right. }
    apply in_map_iff in Hin as (i & <- & _). reflexivity.
Qed.

End HistoryFacts.

(* ===================================================================== *)
(** * Properties of the grouping by document *)
(* ===================================================================== *)

Section FirstOccurrences.
Context {A : Type} (eqb : A -> A -> bool).
Hypothesis eqb_spec : forall x y, eqb x y = true <-> x = y.

Lemma first_occurrences_In (x : A) (l : list A) :
  In x (first_occurrences eqb l) <-> In x l.
Proof.
  induction l as [|y r IH]; [reflexivity|]. cbn. rewrite filter_In, IH.
  split.
  - intros [H|[H _]]; auto.
  - intros [H|H]; [now left|].
    destruct (eqb x y) eqn:Hxy; [left; symmetry; now apply eqb_spec|].
    right. split; [exact H | reflexivity].
Qed.

Lemma first_occurrences_NoDup (l : list A) : List.NoDup (first_occurrences eqb l).
Proof.
  induction l as [|y r IH]; cbn; constructor.
  - rewrite filter_In. intros [_ H].
    assert (eqb y y = true) by now apply eqb_spec. rewrite H0 in H. discriminate.
  - now apply List.NoDup_filter.
Qed.

Lemma existsb_In (x : A) (l : list A) :
  existsb (eqb x) l = true <-> In x l.
Proof.
  rewrite existsb_exists. split.
  - intros (y & Hy & Heq). apply eqb_spec in Heq. now subst.
  - intros H. exists x. split; [exact H | now apply eqb_spec].
Qed.

Lemma existsb_first_occurrences (x : A) (l : list A) :
  existsb (eqb x) (first_occurrences eqb l) = existsb (eqb x) l.
Proof.
  apply Bool.eq_iff_eq_true. now rewrite !existsb_In, first_occurrences_In.
Qed.

(** A further element is appended when it is new and dropped when it was
    seen. *)
Lemma first_occurrences_snoc (l : list A) (x : A) :
  first_occurrences eqb (l ++ [x])
  = if existsb (eqb x) l then first_occurrences eqb l
    else (first_occurrences eqb l ++ [x])%list.
Proof.
  induction l as [|y r IH]; [reflexivity|].
  cbn [app first_occurrences existsb]. rewrite IH.
  destruct (eqb x y) eqn:Hxy; cbn [orb].
  - apply eqb_spec in Hxy. subst y.
    destruct (existsb (eqb x) r); [reflexivity|].
    rewrite List.filter_app. cbn.
    assert (eqb x x = true) by now apply eqb_spec.
    rewrite H. cbn. now rewrite app_nil_r.
  - destruct (existsb (eqb x) r); [reflexivity|].
    rewrite List.filter_app. cbn. rewrite Hxy. reflexivity.
Qed.
End FirstOccurrences.

Section Groups.

Lemma string_eqb_spec (x y : string) : String.eqb x y = true <-> x = y.
Proof. apply String.eqb_eq. Qed.

Lemma chunks_of_snoc (doc : string) (l : list Chunk) (c : Chunk) :
  chunks_of doc (l ++ [c])
  = (chunks_of doc l ++ if String.eqb (document c) doc then [c] else [])%list.
Proof. unfold chunks_of. rewrite List.filter_app. reflexivity. Qed.

Lemma chunks_of_nil_iff (doc : string) (l : list Chunk) :
  chunks_of doc l = [] <-> ~ In doc (map document l).
Proof.
  unfold chunks_of. induction l as [|c r IH]; cbn; [tauto|].
  destruct (String.eqb (document c) doc) eqn:He.
  - apply String.eqb_eq in He. split; [discriminate | intros H; exfalso; auto].
  - apply String.eqb_neq in He. rewrite IH. tauto.
Qed.

Lemma group_add_keys (keys : list string) (g g' : string -> list Chunk)
      (doc : string) (c : Chunk) :
  List.NoDup keys ->
  (forall d, In d keys -> g' d = if String.eqb d doc then (g d ++ [c])%list else g d) ->
  group_add (map (fun d => (d, g d)) keys) doc c
  = if existsb (String.eqb doc) keys
    then map (fun d => (d, g' d)) keys
    else (map (fun d => (d, g' d)) keys ++ [(doc, [c])])%list.
Proof.
  induction keys as [|k ks IH]; intros Hnd Hg; [reflexivity|].
  apply List.NoDup_cons_iff in Hnd as [Hk Hnd].
  cbn [map group_add existsb]. rewrite (String.eqb_sym doc k).
  pose proof (Hg k (or_introl eq_refl)) as Hgk.
  destruct (String.eqb k doc) eqn:Hkd; cbn [orb].
  - rewrite Hgk. f_equal. apply map_ext_in. intros d Hd.
    rewrite (Hg d (or_intror Hd)).
    destruct (String.eqb d doc) eqn:Hdd; [|reflexivity].
    apply String.eqb_eq in Hkd, Hdd. subst. contradiction.
  - rewrite IH by (try assumption; intros d Hd; apply Hg; now right).
    rewrite Hgk. destruct (existsb (String.eqb doc) ks); reflexivity.
Qed.

Lemma groups_of_snoc (l : list Chunk) (c : Chunk) :
  group_add (groups_of l) (document c) c = groups_of (l ++ [c]).
Proof.
  unfold groups_of. rewrite map_app. cbn [map].
  rewrite (first_occurrences_snoc String.eqb string_eqb_spec).
  rewrite (group_add_keys _ (fun d => chunks_of d l)
                          (fun d => chunks_of d (l ++ [c])) (document c) c).
  - rewrite (existsb_first_occurrences String.eqb string_eqb_spec).
    destruct (existsb (String.eqb (document c)) (map document l)) eqn:Hex;
      [reflexivity|].
    rewrite map_app. cbn [map]. do 2 f_equal. f_equal.
    rewrite chunks_of_snoc, String.eqb_refl.
    assert (Hnil : chunks_of (document c) l = []).
    { apply chunks_of_nil_iff. intros Hin.
      apply (existsb_In String.eqb string_eqb_spec) in Hin. congruence. }
    now rewrite Hnil.
  - apply first_occurrences_NoDup. apply string_eqb_spec.
  - intros d _. rewrite chunks_of_snoc. rewrite (String.eqb_sym d).
    destruct (String.eqb (document c) d); [reflexivity | apply app_nil_r].
Qed.

Lemma group_by_document_closed_form (chunks : list Chunk) :
  _group_by_document chunks = groups_of chunks.
Proof.
  unfold _group_by_document.
  induction chunks as [|c l IH] using rev_ind; [reflexivity|].
  rewrite fold_left_app. cbn [fold_left]. rewrite IH. apply groups_of_snoc.
Qed.

(** X22: [_group_by_document] returns one group per document, the
    documents in the order in which they first occur; the group of a
    document holds exactly the chunks of that document, in their order. So
    the document names are distinct, no group is empty, and no chunk is
    lost or repeated. *)
Theorem X22_group_by_document (chunks : list Chunk) :
  _group_by_document chunks
  = map (fun doc => (doc, chunks_of doc chunks))
        (first_occurrences String.eqb (map document chunks))
  /\ List.NoDup (map fst (_group_by_document chunks))
  /\ List.Forall (fun g => snd g <> [] /\ List.Forall (fun c => document c = fst g) (snd g))
                 (_group_by_document chunks)
  /\ forall c, In c chunks <->
               exists g, In g (_group_by_document chunks) /\ In c (snd g).
Proof.
  rewrite group_by_document_closed_form. fold (groups_of chunks).
  split; [reflexivity|]. unfold groups_of. split; [|split].
  - rewrite map_map. cbn [fst]. rewrite map_id.
    apply first_occurrences_NoDup, string_eqb_spec.
  - apply List.Forall_forall. intros g Hg.
    apply in_map_iff in Hg as (doc & <- & Hdoc). cbn [fst snd].
    apply (proj1 (first_occurrences_In String.eqb string_eqb_spec _ _)) in Hdoc.
    split.
    + intros Hnil. apply chunks_of_nil_iff in Hnil. contradiction.
    + apply List.Forall_forall. intros c Hc. apply filter_In in Hc as [_ Hc].
      now apply String.eqb_eq.
  - intros c. split.
    + intros Hc. exists (document c, chunks_of (document c) chunks). split.
      * apply in_map_iff. exists (document c). split; [reflexivity|].
        apply (first_occurrences_In String.eqb string_eqb_spec).
        now apply in_map.
      * cbn [snd]. apply filter_In. split; [exact Hc | apply String.eqb_refl].
    + intros (g & Hg & Hc). apply in_map_iff in Hg as (doc & <- & _).
      cbn [snd] in Hc. now apply filter_In in Hc.
Qed.

End Groups.

(* ===================================================================== *)
(** * Properties of the source list *)
(* ===================================================================== *)

Section SortedInts.

Lemma insert_int_permutation (x : Z) (l : list Z) :
  Permutation (insert_int x l) (x :: l).
Proof.
  induction l as [|y r IH]; cbn; [reflexivity|].
  destruct (x <=? y); [reflexivity|]. rewrite IH. apply perm_swap.
Qed.

Lemma sorted_ints_permutation (l : list Z) : Permutation (sorted_ints l) l.
Proof.
  induction l as [|x r IH]; cbn; [reflexivity|].
  rewrite insert_int_permutation. now constructor.
Qed.

Lemma insert_int_sorted (x : Z) (l : list Z) :
  StronglySorted Z.le l -> StronglySorted Z.le (insert_int x l).
Proof.
  induction 1 as [|y r Hs IH Hall]; cbn; [repeat constructor|].
  destruct (Z.leb_spec x y).
  - constructor; [now constructor|]. constructor; [exact H|].
    rewrite List.Forall_forall in *. intros z Hz. specialize (Hall z Hz). lia.
  - constructor; [exact IH|]. apply List.Forall_forall. intros z Hz.
    apply (Permutation_in _ (insert_int_permutation x r)) in Hz.
    destruct Hz as [<-|Hz]; [lia|]. rewrite List.Forall_forall in Hall. auto.
Qed.

Lemma sorted_ints_sorted (l : list Z) : StronglySorted Z.le (sorted_ints l).
Proof.
  induction l as [|x r IH]; cbn; [constructor | now apply insert_int_sorted].
Qed.

Lemma sorted_NoDup_strict (l : list Z) :
  StronglySorted Z.le l -> List.NoDup l -> StronglySorted Z.lt l.
Proof.
  induction 1 as [|x r Hs IH Hall]; intros Hnd; constructor.
  - apply IH. now apply List.NoDup_cons_iff in Hnd.
  - apply List.NoDup_cons_iff in Hnd as [Hx _].
    rewrite List.Forall_forall in *. intros z Hz. specialize (Hall z Hz).
    assert (x <> z) by (intros ->; contradiction). lia.
Qed.

End SortedInts.

Section Sources.

Lemma Z_eqb_spec (x y : Z) : Z.eqb x y = true <-> x = y.
Proof. apply Z.eqb_eq. Qed.

Lemma group_add_non_empty (g : list (string * list Chunk)) (doc : string) (c : Chunk) :
  List.Forall (fun grp => snd grp <> []) g ->
  List.Forall (fun grp => snd grp <> []) (group_add g doc c).
Proof.
  induction 1 as [|[d cs] rest Hd Hrest IH]; cbn.
  - repeat constructor. discriminate.
  - destruct (String.eqb d doc); constructor; try assumption.
    cbn in *. destruct cs; [contradiction | discriminate].
Qed.

(** One step of the loop of [_extract_sources] is one step of the loop of
    [_group_by_document], read through [source_entry]. *)
Lemma source_add_entries (g : list (string * list Chunk)) (c : Chunk) :
  List.Forall (fun grp => snd grp <> []) g ->
  source_add (map source_entry g) (document c) (page_number c) (relevance c)
  = map source_entry (group_add g (document c) c).
Proof.
  induction 1 as [|[d cs] rest Hd Hrest IH]; [reflexivity|].
  cbn [map group_add]. unfold source_entry at 1. cbn [fst snd source_add].
  destruct (String.eqb d (document c)); cbn [map].
  - f_equal. unfold source_entry. cbn [fst snd]. f_equal. f_equal.
    + rewrite map_app. cbn [map].
      rewrite (first_occurrences_snoc Z.eqb Z_eqb_spec). unfold set_add.
      now rewrite (existsb_first_occurrences Z.eqb Z_eqb_spec).
    + cbn in Hd. destruct cs; [contradiction | reflexivity].
  - now rewrite IH.
Qed.

Lemma sources_fold_entries (chunks : list Chunk) :
  forall g,
    List.Forall (fun grp => snd grp <> []) g ->
    fold_left (fun sources chunk =>
                 source_add sources (document chunk) (page_number chunk)
                            (relevance chunk))
              chunks (map source_entry g)
    = map source_entry
          (fold_left (fun grouped chunk => group_add grouped (document chunk) chunk)
                     chunks g).
Proof.
  induction chunks as [|c r IH]; intros g Hg; [reflexivity|].
  cbn [fold_left]. rewrite source_add_entries by exact Hg.
  apply IH. now apply group_add_non_empty.
Qed.

Lemma StronglySorted_weaken_in {A} (Rel Rel' : A -> A -> Prop) (l : list A) :
  (forall x y, In x l -> In y l -> Rel x y -> Rel' x y) ->
  StronglySorted Rel l -> StronglySorted Rel' l.
Proof.
  intros Hw Hs. induction Hs as [|a l Hs IH Hall]; constructor.
  - apply IH. intros x y Hx Hy. apply Hw; now right.
  - rewrite List.Forall_forall in *. intros y Hy.
    apply Hw; [now left | now right | now apply Hall].
Qed.

(** The list before the final sort. *)
Lemma extract_sources_permutation (chunks : list Chunk) :
  Permutation
    (_extract_sources chunks)
    (map (fun doc =>
            {| src_document := doc;
               src_pages :=
                 sorted_ints (first_occurrences
                                Z.eqb (map page_number (chunks_of doc chunks)));
               src_relevance := relevance (hd empty_chunk (chunks_of doc chunks)) |})
         (first_occurrences String.eqb (map document chunks))).
Proof.
  unfold _extract_sources.
  pose proof (sources_fold_entries chunks [] (List.Forall_nil _)) as Hfold.
  cbn [map] in Hfold. rewrite Hfold. fold (_group_by_document chunks). rewrite group_by_document_closed_form.
  unfold groups_of. rewrite !map_map.
  etransitivity; [apply Permutation_map, sort_desc_permutation|].
  rewrite !map_map. cbn [fst]. reflexivity.
Qed.

(** X23: [_extract_sources] returns one source per document of the
    chunks, sorted by relevance descending. The pages of a source are the
    page numbers of the chunks of its document, each once, in ascending
    order; its relevance is the relevance of the first chunk of the
    document in the list (0 when that chunk has no [relevance_score]), not
    the highest one. *)
Theorem X23_extract_sources (chunks : list Chunk) :
  Permutation (map src_document (_extract_sources chunks))
              (first_occurrences String.eqb (map document chunks))
  /\ List.NoDup (map src_document (_extract_sources chunks))
  /\ StronglySorted (fun a b => (src_relevance b <= src_relevance a)%Q)
                    (_extract_sources chunks)
  /\ List.Forall
       (fun src =>
          StronglySorted Z.lt (src_pages src)
          /\ (forall page,
                 In page (src_pages src)
                 <-> exists c, In c chunks /\ document c = src_document src
                               /\ page_number c = page)
          /\ exists first rest,
               chunks_of (src_document src) chunks = first :: rest
               /\ src_relevance src = relevance first)
       (_extract_sources chunks).
Proof.
  pose proof (extract_sources_permutation chunks) as Hperm.
  set (docs := first_occurrences String.eqb (map document chunks)) in *.
  assert (Hdocs : Permutation (map src_document (_extract_sources chunks)) docs).
  { etransitivity; [apply Permutation_map, Hperm|].
    rewrite map_map. cbn [src_document]. now rewrite map_id. }
  split; [exact Hdocs|]. split; [|split].
  - apply (Permutation_NoDup (Permutation_sym Hdocs)).
    apply first_occurrences_NoDup, string_eqb_spec.
  - unfold _extract_sources. apply StronglySorted_map.
    match goal with |- StronglySorted _ (sort_desc ?l) => set (pairs := l) end.
    apply (StronglySorted_weaken_in by_score_desc); [|apply sort_desc_sorted].
    assert (Hsnd : forall p, In p (sort_desc pairs) -> snd p = src_relevance (fst p)).
    { intros p Hp. apply (Permutation_in _ (sort_desc_permutation _)) in Hp.
      unfold pairs in Hp. apply in_map_iff in Hp as (src & <- & _). reflexivity. }
    intros x y Hx Hy. unfold by_score_desc.
    now rewrite (Hsnd x Hx), (Hsnd y Hy).
  - apply (Permutation_Forall (Permutation_sym Hperm)).
    apply List.Forall_forall. intros src Hsrc.
    apply in_map_iff in Hsrc as (doc & <- & Hdoc). cbn [src_pages src_document
      src_relevance].
    apply (proj1 (first_occurrences_In String.eqb string_eqb_spec _ _)) in Hdoc.
    split; [|split].
    + apply sorted_NoDup_strict; [apply sorted_ints_sorted|].
      apply (Permutation_NoDup (Permutation_sym (sorted_ints_permutation _))).
      apply first_occurrences_NoDup, Z_eqb_spec.
    + intros page. split.
      * intros Hp. apply (Permutation_in _ (sorted_ints_permutation _)) in Hp.
        apply (proj1 (first_occurrences_In Z.eqb Z_eqb_spec _ _)) in Hp.
        apply in_map_iff in Hp as (c & Hpage & Hc).
        apply filter_In in Hc as [Hc Hd]. apply String.eqb_eq in Hd. eauto.
      * intros (c & Hc & Hd & Hpage).
        apply (Permutation_in _ (Permutation_sym (sorted_ints_permutation _))).
        apply (first_occurrences_In Z.eqb Z_eqb_spec).
        apply in_map_iff. exists c. split; [exact Hpage|].
        apply filter_In. split; [exact Hc | now apply String.eqb_eq].
    + destruct (chunks_of doc chunks) as [|first rest] eqn:Hcs.
      * apply chunks_of_nil_iff in Hcs. contradiction.
      * exists first, rest. split; reflexivity.
Qed.

End Sources.

Section SourcesOfRankedChunks.

(** X24: on a list of chunks ordered by relevance descending, as
    [retrieve] returns it, the relevance of each source is the highest
    relevance among the chunks of its document. *)
Theorem X24_source_relevance_is_best_of_ranked_chunks (chunks : list Chunk) :
  StronglySorted (fun a b => (relevance b <= relevance a)%Q) chunks ->
  List.Forall
    (fun src =>
       (exists c, In c chunks /\ document c = src_document src
                  /\ src_relevance src = relevance c)
       /\ forall c, In c chunks -> document c = src_document src ->
                    (relevance c <= src_relevance src)%Q)
    (_extract_sources chunks).
Proof.
  intros Hsorted.
  apply (Permutation_Forall (Permutation_sym (extract_sources_permutation chunks))).
  apply List.Forall_forall. intros src Hsrc.
  apply in_map_iff in Hsrc as (doc & <- & Hdoc).
  cbn [src_document src_relevance].
  apply (proj1 (first_occurrences_In String.eqb string_eqb_spec _ _)) in Hdoc.
  pose proof (StronglySorted_filter _ (fun c => String.eqb (document c) doc)
                                    _ Hsorted) as Hf.
  fold (chunks_of doc chunks) in Hf.
  assert (Hmem : forall c, In c (chunks_of doc chunks)
                           <-> In c chunks /\ document c = doc).
  { intros c. unfold chunks_of. rewrite filter_In, String.eqb_eq. reflexivity. }
  destruct (chunks_of doc chunks) as [|first rest] eqn:Hcs.
  - apply chunks_of_nil_iff in Hcs. contradiction.
  - cbn [hd]. split.
    + exists first. destruct (proj1 (Hmem first) (or_introl eq_refl)). auto.
    + intros c Hc Hd. apply StronglySorted_inv in Hf as [_ Hall].
      destruct (proj2 (Hmem c) (conj Hc Hd)) as [<-|Hin]; [apply Qle_refl|].
      rewrite List.Forall_forall in Hall. now apply Hall.
Qed.

End SourcesOfRankedChunks.

Section StartPositions.
Variable self : TextChunker.
Variables (page : Z) (src : string).
Hypothesis overlap_nonneg : 0 <= chunk_overlap self.
Hypothesis overlap_half : 2 * chunk_overlap self <= chunk_size self.

(** At a split the running offset does not go back. *)
Lemma split_advances (cur para : string) :
  chunk_size self < PyStr.len cur + PyStr.len para ->
  0 <= PyStr.len (next_buffer self cur para) - chunk_overlap self.
Proof.
  intros Hsplit. unfold next_buffer.
  pose proof (len_nonneg para). pose proof (len_nonneg cur).
  destruct (Z.ltb_spec (chunk_overlap self) (PyStr.len cur)).
  - rewrite len_append.
    destruct (Z.eq_dec (chunk_overlap self) 0) as [Hz|Hz].
    + rewrite Hz, tail_slice_zero. lia.
    + rewrite tail_slice_len by lia. lia.
  - lia.
Qed.

Lemma chunk_paragraphs_start_positions (paragraphs : list string) :
  forall cur start,
    List.Forall (fun c => start <= pc_start_position c)
                (chunk_paragraphs self page src paragraphs cur start)
    /\ StronglySorted Z.le
         (map pc_start_position
              (chunk_paragraphs self page src paragraphs cur start)).
Proof.
  induction paragraphs as [|para rest IH]; intros cur start;
    cbn [chunk_paragraphs].
  - destruct (_ <=? _); [|split; constructor].
    split; [constructor; [cbn; lia | constructor] | cbn; repeat constructor].
  - destruct (Z.ltb_spec (chunk_size self) (PyStr.len cur + PyStr.len para));
      [|apply IH].
    pose proof (split_advances cur para H) as Hadv.
    destruct (IH (next_buffer self cur para)
                 (start + (PyStr.len (next_buffer self cur para)
                           - chunk_overlap self))) as [Hge Hsorted].
    assert (Hge' : List.Forall (fun c => start <= pc_start_position c)
                     (chunk_paragraphs self page src rest (next_buffer self cur para)
                        (start + (PyStr.len (next_buffer self cur para)
                                  - chunk_overlap self)))).
    { eapply List.Forall_impl; [|exact Hge]. cbn. intros c Hc. lia. }
    destruct (negb _); cbn [app map]; [|split; assumption].
    split.
    + constructor; [cbn; lia | exact Hge'].
    + constructor; [exact Hsorted|]. cbn [_create_chunk pc_start_position].
      apply Forall_map. exact Hge'.
Qed.

(** X25: when [0 <= chunk_overlap] and [2 * chunk_overlap <= chunk_size],
    as in the default configuration, the [start_position] of the chunks of
    a page is never negative and never decreases from one chunk to the
    next. *)
Theorem X25_start_positions_do_not_go_back (txt : string) :
  List.Forall (fun c => 0 <= pc_start_position c) (_chunk_page self page src txt)
  /\ StronglySorted Z.le (map pc_start_position (_chunk_page self page src txt)).
Proof. apply chunk_paragraphs_start_positions. Qed.

End StartPositions.

(* ===================================================================== *)
(** * No paragraph is lost *)
(* ===================================================================== *)

Section Substrings.

Lemma prefix_iff (b s : string) :
  String.prefix b s = true <-> exists z, s = b ++ z.
Proof.
  revert s. induction b as [|a b IH]; intros s.
  - split; [intros _; now exists s | intros _; now destruct s].
  - destruct s as [|x s]; cbn [String.prefix].
    + split; [discriminate | intros [z Hz]; discriminate].
    + destruct (ascii_dec a x) as [->|Hne].
      * rewrite IH. split; intros [z Hz]; exists z.
        -- now rewrite append_cons, Hz.
        -- rewrite append_cons in Hz. now injection Hz.
      * split; [discriminate|]. intros [z Hz]. rewrite append_cons in Hz.
        injection Hz as Hx _. congruence.
Qed.

Lemma contains_iff (b s : string) :
  PyStr.contains b s = true <-> exists x z, s = x ++ b ++ z.
Proof.
  split.
  - induction s as [|c r IH]; cbn [PyStr.contains];
      destruct (String.prefix b _) eqn:Hp.
    + apply prefix_iff in Hp as [z Hz]. intros _. now exists "", z.
    + discriminate.
    + apply prefix_iff in Hp as [z Hz]. intros _. now exists "", z.
    + intros H. destruct (IH H) as (x & z & ->). now exists (String c x), z.
  - intros (x & z & ->). induction x as [|c x IH].
    + change ("" ++ b ++ z) with (b ++ z).
      assert (Hp : String.prefix b (b ++ z) = true) by (apply prefix_iff; eauto).
      destruct (b ++ z); cbn [PyStr.contains]; now rewrite Hp.
    + rewrite append_cons. cbn [PyStr.contains]. rewrite IH.
      now destruct (String.prefix b _).
Qed.

Lemma trimmed_head (s : string) :
  trimmed s -> exists c r, s = String c r /\ PyStr.isspace c = false.
Proof.
  intros (Hl & _ & Hne). destruct s as [|c r]; [contradiction|].
  exists c, r. split; [reflexivity|].
  destruct (PyStr.isspace c) eqn:Hc; [|reflexivity].
  cbn [PyStr.lstrip] in Hl. rewrite Hc in Hl.
  pose proof (lstrip_length r) as Hlen. rewrite Hl in Hlen. cbn in Hlen. lia.
Qed.

Lemma lstrip_keeps (body : string) :
  trimmed body ->
  forall x z, exists x', PyStr.lstrip (x ++ body ++ z) = x' ++ body ++ z.
Proof.
  intros Ht x z. destruct (trimmed_head body Ht) as (c & r & -> & Hc).
  induction x as [|a x IH].
  - exists "". change ("" ++ String c r ++ z) with (String c (r ++ z)).
    cbn [PyStr.lstrip]. now rewrite Hc.
  - rewrite append_cons. cbn [PyStr.lstrip]. destruct (PyStr.isspace a).
    + exact IH.
    + exists (String a x). now rewrite append_cons.
Qed.

Lemma rstrip_app (a b : string) :
  PyStr.rstrip (a ++ b)
  = if PyStr.is_empty (PyStr.rstrip b) then PyStr.rstrip a else a ++ PyStr.rstrip b.
Proof.
  induction a as [|c a IH].
  - change ("" ++ b) with b. destruct (PyStr.rstrip b); reflexivity.
  - rewrite append_cons. cbn [PyStr.rstrip]. rewrite IH.
    destruct (PyStr.is_empty (PyStr.rstrip b)) eqn:He; [reflexivity|].
    rewrite append_cons.
    assert (Hne : PyStr.is_empty (a ++ PyStr.rstrip b) = false).
    { destruct a; [exact He | reflexivity]. }
    rewrite Hne, andb_false_r. reflexivity.
Qed.

Lemma rstrip_keeps (body : string) :
  trimmed body ->
  forall x z, exists z', PyStr.rstrip (x ++ body ++ z) = x ++ body ++ z'.
Proof.
  intros (_ & Hr & Hne) x z.
  assert (Hbody : exists z', PyStr.rstrip (body ++ z) = body ++ z').
  { rewrite rstrip_app, Hr. destruct (PyStr.is_empty (PyStr.rstrip z)).
    - exists "". now rewrite append_empty_r.
    - eauto. }
  destruct Hbody as [z' Hz']. exists z'. rewrite rstrip_app, Hz'.
  destruct body; [contradiction | reflexivity].
Qed.

(** Stripping a string does not cut into a trimmed substring. *)
Lemma contains_strip (body s : string) :
  trimmed body -> PyStr.contains body s = true ->
  PyStr.contains body (PyStr.strip s) = true.
Proof.
  intros Ht Hc. apply contains_iff in Hc as (x & z & ->).
  unfold PyStr.strip. destruct (rstrip_keeps body Ht x z) as [z' ->].
  destruct (lstrip_keeps body Ht x z') as [x' ->].
  apply contains_iff. eauto.
Qed.

Lemma contains_non_empty (body s : string) :
  body <> "" -> PyStr.contains body s = true -> PyStr.is_empty s = false.
Proof.
  intros Hne Hc. apply contains_iff in Hc as (x & z & ->).
  destruct x; [|reflexivity]. destruct body; [contradiction | reflexivity].
Qed.

Lemma contains_app_l (body s t : string) :
  PyStr.contains body s = true -> PyStr.contains body (s ++ t) = true.
Proof.
  intros Hc. apply contains_iff in Hc as (x & z & ->). apply contains_iff.
  exists x, (z ++ t). now rewrite !append_assoc.
Qed.

Lemma contains_app_r (body s t : string) :
  PyStr.contains body t = true -> PyStr.contains body (s ++ t) = true.
Proof.
  intros Hc. apply contains_iff in Hc as (x & z & ->). apply contains_iff.
  exists (s ++ x), z. now rewrite !append_assoc.
Qed.

Lemma contains_self_app (body t : string) :
  PyStr.contains body (body ++ t) = true.
Proof. apply contains_iff. now exists "", t. Qed.

Lemma strip_trimmed (s : string) :
  PyStr.is_empty (PyStr.strip s) = false -> trimmed (PyStr.strip s).
Proof.
  intros Hne. unfold trimmed, PyStr.strip in *. split; [|split].
  - apply lstrip_idempotent.
  - now rewrite rstrip_lstrip, rstrip_idempotent.
  - intros H. rewrite H in Hne. discriminate.
Qed.

End Substrings.

Section Coverage.
Variable self : TextChunker.
Variables (page : Z) (src : string).
Hypothesis keep_all : min_chunk_size self <= 1.

Lemma chunk_paragraphs_covers (body : string) (paragraphs : list string) :
  trimmed body ->
  forall cur start,
    PyStr.contains body cur = true
    \/ (exists sep, In (body ++ sep) paragraphs) ->
    exists c, In c (chunk_paragraphs self page src paragraphs cur start)
              /\ PyStr.contains body (pc_text c) = true.
Proof.
  intros Ht. assert (Hne : body <> "") by apply Ht.
  induction paragraphs as [|para rest IH]; intros cur start Hin;
    cbn [chunk_paragraphs].
  - destruct Hin as [Hc|[sep []]].
    pose proof (contains_strip body cur Ht Hc) as Hs.
    pose proof (is_empty_len _ (contains_non_empty body _ Hne Hs)) as Hlen.
    destruct (Z.leb_spec (min_chunk_size self) (PyStr.len (PyStr.strip cur)));
      [|lia].
    eexists. split; [now left | exact Hs].
  - assert (Hnext : forall buffer start',
               (forall sep, para = body ++ sep ->
                            PyStr.contains body buffer = true) ->
               (PyStr.contains body cur = true ->
                PyStr.contains body buffer = true
                \/ exists c, In c (chunk_paragraphs self page src rest buffer start')
                             /\ PyStr.contains body (pc_text c) = true) ->
               exists c, In c (chunk_paragraphs self page src rest buffer start')
                         /\ PyStr.contains body (pc_text c) = true).
    { intros buffer start' Hpara Hcur.
      destruct Hin as [Hc|[sep [Hp|Hr]]].
      - destruct (Hcur Hc) as [Hb|Hdone]; [|exact Hdone]. apply IH. now left.
      - apply IH. left. now apply (Hpara sep).
      - apply IH. right. eauto. }
    destruct (_ <? _).
    + destruct (PyStr.contains body cur) eqn:Hc.
      * pose proof (contains_strip body cur Ht Hc) as Hs.
        rewrite (contains_non_empty body _ Hne Hs). cbn [negb].
        eexists. split; [apply in_or_app; left; now left | exact Hs].
      * destruct (Hnext (next_buffer self cur para)
                        (start + (PyStr.len (next_buffer self cur para)
                                  - chunk_overlap self)))
          as (c & Hcin & Hcc).
        -- intros sep ->. unfold next_buffer. destruct (_ <? _).
           ++ apply contains_app_r, contains_self_app.
           ++ apply contains_self_app.
        -- discriminate.
        -- exists c. split; [apply in_or_app; now right | exact Hcc].
    + apply Hnext.
      * intros sep ->. apply contains_app_r, contains_self_app.
      * intros Hc. left. now apply contains_app_l.
Qed.

(** X26: when [min_chunk_size <= 1], so that nothing is dropped for being
    short, no paragraph of a page is lost: the text of every retained
    paragraph occurs in the text of at least one chunk of the page. *)
Theorem X26_every_paragraph_is_in_a_chunk (txt piece : string) :
  In piece (re_split txt) -> PyStr.is_empty (PyStr.strip piece) = false ->
  exists c, In c (_chunk_page self page src txt)
            /\ PyStr.contains (PyStr.strip piece) (pc_text c) = true.
Proof.
  intros Hin Hne. unfold _chunk_page.
  apply chunk_paragraphs_covers; [now apply strip_trimmed|].
  right. exists paragraph_separator. unfold _split_into_paragraphs.
  apply in_map_iff. exists piece. split; [reflexivity|].
  apply filter_In. split; [exact Hin | now rewrite Hne].
Qed.

End Coverage.

(* ===================================================================== *)
(** * Query enhancement only appends terms *)
(* ===================================================================== *)

Section Enhancement.

Lemma split_from_append_space (a b : string) (sp : ascii) :
  PyStr.isspace sp = true ->
  forall cur,
    PyStr.split_from (a ++ String sp b) cur
    = (PyStr.split_from a cur ++ PyStr.split_from b "")%list.
Proof.
  intros Hsp. induction a as [|c a IH]; intros cur.
  - change ("" ++ String sp b) with (String sp b). cbn [PyStr.split_from].
    rewrite Hsp. destruct (PyStr.is_empty cur); reflexivity.
  - rewrite append_cons. cbn [PyStr.split_from].
    destruct (PyStr.isspace c); [|apply IH].
    destruct (PyStr.is_empty cur); cbn [app]; now rewrite IH.
Qed.

Lemma enhance_with_cases (table : list (string * string)) (query query_lower : string) :
  (List.Forall (fun kv => PyStr.contains (fst kv) query_lower = false) table
   /\ enhance_with table query query_lower = query)
  \/ exists key expansion,
       In (key, expansion) table
       /\ PyStr.contains key query_lower = true
       /\ enhance_with table query query_lower = query ++ " " ++ expansion.
Proof.
  induction table as [|[key expansion] rest IH]; cbn [enhance_with].
  - left. split; [constructor | reflexivity].
  - destruct (PyStr.contains key query_lower) eqn:Hc.
    + right. exists key, expansion. split; [now left | now split].
    + destruct IH as [[Hall Heq]|(k & e & Hin & Hk & Heq)].
      * left. split; [now constructor | exact Heq].
      * right. exists k, e. split; [now right | now split].
Qed.

(** X27: query enhancement keeps the query and only appends to it. When
    none of the trigger words occurs in the lower-cased query the query is
    unchanged; otherwise the enhanced query is the query, a space, and the
    expansion of one trigger that occurs, and its whitespace-separated
    terms are the terms of the query followed by the terms of that
    expansion. *)
Theorem X27_enhancement_appends_terms (query : string) :
  (List.Forall (fun kv => PyStr.contains (fst kv) (PyStr.lower query) = false)
               enhancements
   /\ _enhance_query query = query)
  \/ exists key expansion,
       In (key, expansion) enhancements
       /\ PyStr.contains key (PyStr.lower query) = true
       /\ _enhance_query query = query ++ " " ++ expansion
       /\ PyStr.split (_enhance_query query)
          = (PyStr.split query ++ PyStr.split expansion)%list.
Proof.
  unfold _enhance_query.
  destruct (enhance_with_cases enhancements query (PyStr.lower query))
    as [H|(key & expansion & Hin & Hc & Heq)]; [now left|].
  right. exists key, expansion. repeat split; try assumption.
  rewrite Heq. unfold PyStr.split.
  change (" " ++ expansion) with (String " "%char expansion).
  now apply split_from_append_space.
Qed.

End Enhancement.

(* ===================================================================== *)
(** * Properties of the PDF loader *)
(* ===================================================================== *)

Section PdfPages.

Lemma extract_pages_sound (texts : list string) :
  forall page_num,
    List.Forall
      (fun p => page_num <= pdf_page_number p < page_num + Z.of_nat (length texts)
                /\ nth_error texts (Z.to_nat (pdf_page_number p - page_num))
                   = Some (pdf_text p)
                /\ PyStr.is_empty (PyStr.strip (pdf_text p)) = false
                /\ pdf_char_count p = PyStr.len (pdf_text p))
      (extract_pages texts page_num)
    /\ StronglySorted Z.lt (map pdf_page_number (extract_pages texts page_num)).
Proof.
  induction texts as [|t rest IH]; intros page_num; cbn [extract_pages].
  - split; constructor.
  - destruct (IH (page_num + 1)) as [Hall Hsorted].
    assert (Htail : List.Forall
              (fun p => page_num <= pdf_page_number p
                                  < page_num + Z.of_nat (length (t :: rest))
                        /\ nth_error (t :: rest)
                                     (Z.to_nat (pdf_page_number p - page_num))
                           = Some (pdf_text p)
                        /\ PyStr.is_empty (PyStr.strip (pdf_text p)) = false
                        /\ pdf_char_count p = PyStr.len (pdf_text p))
              (extract_pages rest (page_num + 1))).
    { eapply List.Forall_impl; [|exact Hall]. cbn beta.
      intros p (Hrange & Hnth & Hne & Hcc). cbn [length].
      split; [lia|]. split; [|split; assumption].
      replace (Z.to_nat (pdf_page_number p - page_num))
        with (S (Z.to_nat (pdf_page_number p - (page_num + 1)))) by lia.
      exact Hnth. }
    destruct (PyStr.is_empty (PyStr.strip t)) eqn:He; cbn [negb];
      [split; assumption|].
    split.
    + constructor; [|exact Htail]. cbn [pdf_page_number pdf_text pdf_char_count length].
      split; [lia|]. split; [|split; [exact He | reflexivity]].
      replace (page_num - page_num) with 0 by lia. reflexivity.
    + cbn [map pdf_page_number]. constructor; [exact Hsorted|].
      apply Forall_map. eapply List.Forall_impl; [|exact Hall]. cbn beta.
      intros p (Hrange & _). lia.
Qed.

Lemma extract_pages_count (texts : list string) :
  forall page_num,
    length (extract_pages texts page_num)
    = length (List.filter (fun t => negb (PyStr.is_empty (PyStr.strip t))) texts).
Proof.
  induction texts as [|t rest IH]; intros page_num; [reflexivity|].
  cbn [extract_pages List.filter].
  destruct (negb _); cbn [length]; now rewrite IH.
Qed.

Context {Metadata Timestamp : Type}.

(** X28: [_process_pdf] numbers the pages by their position in the PDF,
    from 1, and skips the pages whose text is blank without renumbering:
    the pages it keeps have strictly increasing numbers between 1 and
    [total_pages], each holds the text extracted from the page of that
    number, which is not blank, with [char_count] its length, and there
    are as many of them as pages with text. *)
Theorem X28_pdf_pages_keep_their_numbers
        (file_path file_name : string)
        (pdf_reader : @PdfReader Metadata) (now : Timestamp) :
  let data := _process_pdf file_path file_name pdf_reader now in
  StronglySorted Z.lt (map pdf_page_number (dd_pages data))
  /\ List.Forall
       (fun p => 1 <= pdf_page_number p <= dd_total_pages data
                 /\ nth_error (reader_page_texts pdf_reader)
                              (Z.to_nat (pdf_page_number p - 1))
                    = Some (pdf_text p)
                 /\ PyStr.is_empty (PyStr.strip (pdf_text p)) = false
                 /\ pdf_char_count p = PyStr.len (pdf_text p))
       (dd_pages data)
  /\ length (dd_pages data)
     = length (List.filter (fun t => negb (PyStr.is_empty (PyStr.strip t)))
                           (reader_page_texts pdf_reader)).
Proof.
  cbn. destruct (extract_pages_sound (reader_page_texts pdf_reader) 1)
    as [Hall Hsorted].
  split; [exact Hsorted|]. split; [|apply extract_pages_count].
  eapply List.Forall_impl; [|exact Hall]. cbn beta.
  intros p (Hrange & Hnth & Hne & Hcc). repeat split; try assumption; lia.
Qed.

End PdfPages.

(* ===================================================================== *)
(** * From the PDF to the chunks *)
(* ===================================================================== *)

Section LoadedDocuments.
Context {Metadata Timestamp : Type}.

(** X6: every chunk made from a document that [_process_pdf] loaded
    carries the file name of the PDF and the number of one of its pages
    with text: a number between 1 and [total_pages] whose page is not
    blank. *)
Theorem X6_chunks_of_a_loaded_pdf
        (self : TextChunker) (file_path file_name : string)
        (pdf_reader : @PdfReader Metadata) (now : Timestamp) :
  let data := _process_pdf file_path file_name pdf_reader now in
  List.Forall
    (fun c =>
       document c = file_name
       /\ 1 <= page_number c <= dd_total_pages data
       /\ exists page_text,
            nth_error (reader_page_texts pdf_reader) (Z.to_nat (page_number c - 1))
            = Some page_text
            /\ PyStr.is_empty (PyStr.strip page_text) = false)
    (chunk_document self (as_document data)).
Proof.
  cbn zeta.
  pose proof (chunk_document_consistent
                self (as_document (_process_pdf file_path file_name pdf_reader now)))
    as Hchunks.
  destruct (extract_pages_sound (reader_page_texts pdf_reader) 1) as [Hpages _].
  rewrite List.Forall_forall in Hpages.
  eapply List.Forall_impl; [|exact Hchunks]. cbn beta.
  intros c (_ & _ & _ & Hdoc & _ & _ & p & Hp & Hno).
  split; [exact Hdoc|]. cbn [as_document pages _process_pdf dd_pages] in Hp.
  apply in_map_iff in Hp as (pp & <- & Hpp). cbn [page_no] in Hno.
  destruct (Hpages pp Hpp) as (Hrange & Hnth & Hne & _).
  rewrite Hno. cbn [_process_pdf dd_total_pages]. split; [lia|].
  exists (pdf_text pp). split; assumption.
Qed.

End LoadedDocuments.

(* ===================================================================== *)
(** * The further properties on concrete inputs *)
(* ===================================================================== *)

(** X1 on a build of two chunks, a search, an empty build and a call of
    [get_stats]. *)
Lemma X1_flag_sound_while_fits_return_witness :
  search (run_operations (sk := BagOfWords.library) new_store
            [AddChunks [Examples.chunk_a; Examples.chunk_b]; Search "bank" 5 0%Q;
             AddChunks []; GetStats])
         "bank" 5 0%Q
  <> Raise NotFittedError.
Proof.
  destruct (X1_flag_sound_while_fits_return (laws := BagOfWordsLaws.laws)
              [AddChunks [Examples.chunk_a; Examples.chunk_b]; Search "bank" 5 0%Q;
               AddChunks []; GetStats] "bank" 5 0%Q) as (_ & Hsearch & _);
    [reflexivity | exact Hsearch].
Defined.

(** X2 on the store of two chunks, after an empty build and a search. *)
Lemma X2_is_indexed_is_never_reset_witness :
  is_indexed (run_operations Examples.bank_store
                             [AddChunks []; Search "bank" 5 0%Q; GetStats])
  = true.
Proof.
  apply (X2_is_indexed_is_never_reset Examples.bank_store). reflexivity.
Defined.

(** X3 on the store of two chunks, with [top_k] 1 and 2. *)
Lemma X3_search_larger_top_k_extends_witness :
  exists r1 r2,
    search Examples.bank_store "registered office" 1 0%Q = Return r1
    /\ search Examples.bank_store "registered office" 2 0%Q = Return r2
    /\ is_prefix r1 r2.
Proof.
  apply (X3_search_larger_top_k_extends (laws := BagOfWordsLaws.laws)
           Examples.bank_store "registered office" 1 2 0%Q
           ExampleFacts.bank_store_built); lia.
Defined.

(** X4 on the store of two chunks, loaded into a new store. *)
Lemma X4_load_after_save_witness :
  load new_store "index.pkl" (save Examples.bank_store "index.pkl" ∅)
  = Some Examples.bank_store.
Proof.
  apply (X4_load_after_save Examples.bank_store new_store "index.pkl" ∅).
  reflexivity.
Defined.

(** X5 on a new store. *)
Lemma X5_load_marks_unbuilt_store_indexed_witness :
  search (sk := BagOfWords.library) new_store "bank" 5 0%Q = Return []
  /\ exists s',
       load new_store "index.pkl"
            (save (sk := BagOfWords.library) new_store "index.pkl" ∅) = Some s'
       /\ is_indexed s' = true
       /\ search s' "bank" 5 0%Q = Raise NotFittedError.
Proof.
  apply (X5_load_marks_unbuilt_store_indexed
           (sk := BagOfWords.library) new_store new_store "index.pkl" ∅
           "bank" 5 0%Q); reflexivity.
Defined.

(** X7 on the store of two chunks of one document. *)
Lemma X7_get_stats_counts_witness :
  exists stats,
    get_stats Examples.bank_store = Return stats
    /\ total_chunks stats = 2
    /\ 1 <= documents stats <= total_chunks stats.
Proof.
  destruct (get_stats Examples.bank_store) as [stats|e] eqn:Hstats;
    [|vm_compute in Hstats; discriminate].
  destruct (X7_get_stats_counts Examples.bank_store stats Hstats)
    as (Htotal & _ & Hrange & Hone & _).
  exists stats. split; [reflexivity|]. split; [exact Htotal|].
  split; [apply Hone; discriminate | apply Hrange].
Defined.

(** X8 on one candidate with the base score 0.5 and a query of one
    term. *)
Lemma X8_rerank_bonus_within_caps_witness :
  exists out,
    _rerank_results id "hello" [(greeting, (1 # 2)%Q)] = Return out
    /\ List.Forall
         (fun p => exists base_score,
                     In (fst p, base_score) [(greeting, (1 # 2)%Q)]
                     /\ (base_score <= snd p <= capped_score base_score)%Q)
         out.
Proof.
  destruct (_rerank_results id "hello" [(greeting, (1 # 2)%Q)]) as [out|e] eqn:Hr;
    [|vm_compute in Hr; discriminate].
  exists out. split; [reflexivity|].
  apply (X8_rerank_bonus_within_caps id "hello" [(greeting, (1 # 2)%Q)] out);
    [|exact Hr].
  repeat constructor. vm_compute. discriminate.
Defined.

(** X9 on the store of two chunks, filtered by their document. *)
Lemma X9_retrieve_filter_document_witness :
  exists l,
    retrieve Examples.bank_store "registered office" 2 0%Q (Some "charter.pdf")
    = Return l
    /\ List.Forall (fun c => document c = "charter.pdf") l.
Proof.
  destruct (retrieve Examples.bank_store "registered office" 2 0%Q
                     (Some "charter.pdf")) as [l|e] eqn:Hr;
    [|vm_compute in Hr; discriminate].
  exists l. split; [reflexivity|].
  apply (X9_retrieve_filter_document Examples.bank_store "registered office" 2 0%Q
           "charter.pdf" l); [discriminate | exact Hr].
Defined.

(** X10 on the store of two chunks with [max_results = 1]. *)
Lemma X10_retrieve_bounded_and_from_store_witness :
  exists l,
    retrieve Examples.bank_store "registered office" 1 0%Q None = Return l
    /\ (length l <= 1)%nat.
Proof.
  destruct (retrieve Examples.bank_store "registered office" 1 0%Q None)
    as [l|e] eqn:Hr; [|vm_compute in Hr; discriminate].
  exists l. split; [reflexivity|].
  apply (X10_retrieve_bounded_and_from_store
           Examples.bank_store "registered office" 1 0%Q None l); [lia | exact Hr].
Defined.

(** X11 on the store of two chunks. *)
Lemma X11_retrieve_sorted_by_relevance_witness :
  exists l,
    retrieve Examples.bank_store "registered office" 2 0%Q None = Return l
    /\ StronglySorted (fun a b => (relevance b <= relevance a)%Q) l.
Proof.
  destruct (retrieve Examples.bank_store "registered office" 2 0%Q None)
    as [l|e] eqn:Hr; [|vm_compute in Hr; discriminate].
  exists l. split; [reflexivity|].
  apply (X11_retrieve_sorted_by_relevance
           Examples.bank_store "registered office" 2 0%Q None l Hr).
Defined.

(** X12 on the store of two chunks with the float 0.1 as threshold,
    which one chunk reaches. *)
Lemma X12_retrieve_relevance_reaches_threshold_witness :
  exists c,
    retrieve Examples.bank_store "registered office" 2 (PyFloat.literal (1 # 10)) None
    = Return [c]
    /\ List.Forall (fun c => (PyFloat.literal (1 # 10) <= relevance c)%Q) [c].
Proof.
  destruct (retrieve Examples.bank_store "registered office" 2
                     (PyFloat.literal (1 # 10)) None)
    as [[|c [|c' l]]|e] eqn:Hr; try (vm_compute in Hr; discriminate).
  exists c. split; [reflexivity|].
  apply (X12_retrieve_relevance_reaches_threshold
           Examples.bank_store "registered office" 2 (PyFloat.literal (1 # 10)) None
           [c]);
    [vm_compute; reflexivity | | exact Hr].
  repeat constructor; vm_compute; discriminate.
Defined.

(** X13 on a new store and a query of blanks. *)
Lemma X13_retrieve_on_unbuilt_store_witness :
  retrieve (sk := BagOfWords.library) new_store "   " 5 0%Q None = Return [].
Proof.
  apply (X13_retrieve_on_unbuilt_store (sk := BagOfWords.library)). reflexivity.
Defined.

(** X15 on the default chunker and a page of one paragraph. *)
Lemma X15_page_chunks_non_empty_and_counted_witness :
  List.Forall (fun c => 1 <= pc_char_count c)
              (_chunk_page default_chunker 1 "charter.pdf" sample_page_text)
  /\ (length (_chunk_page default_chunker 1 "charter.pdf" sample_page_text)
      <= length (_split_into_paragraphs sample_page_text))%nat.
Proof.
  destruct (X15_page_chunks_non_empty_and_counted
              default_chunker 1 "charter.pdf" sample_page_text)
    as (Hne & Hcount & _); [vm_compute; discriminate|].
  split; assumption.
Defined.

(** X16 on the default chunker and a page of one paragraph. *)
Lemma X16_page_that_fits_is_one_chunk_witness :
  _chunk_page default_chunker 1 "charter.pdf" sample_page_text
  = if min_chunk_size default_chunker
       <=? PyStr.len (PyStr.strip (join_all (_split_into_paragraphs sample_page_text)))
    then [_create_chunk (join_all (_split_into_paragraphs sample_page_text))
                        1 "charter.pdf" 0]
    else [].
Proof.
  apply (X16_page_that_fits_is_one_chunk
           default_chunker 1 "charter.pdf" sample_page_text).
  vm_compute. discriminate.
Defined.

(** X17 on a chunker with [chunk_size = 10] and a paragraph of 109
    characters. *)
Lemma X17_single_paragraph_is_never_split_witness :
  map pc_text (_chunk_page no_overlap_chunker 1 "charter.pdf" sample_page_text)
  = if min_chunk_size no_overlap_chunker
       <=? PyStr.len (PyStr.strip (sample_page_text ++ paragraph_separator))
    then [PyStr.strip (sample_page_text ++ paragraph_separator)] else [].
Proof.
  apply (X17_single_paragraph_is_never_split
           no_overlap_chunker 1 "charter.pdf" sample_page_text
           (sample_page_text ++ paragraph_separator)).
  vm_compute. reflexivity.
Defined.

(** X20 on a query that starts with a capitalised [Compare]. *)
Lemma X20_compare_queries_witness :
  QueryPlanner.complexity (QueryPlanner.plan "Compare the two charters" "qa") = "high"
  /\ QueryPlanner.requires_multi_doc
       (QueryPlanner.plan "Compare the two charters" "qa") = true
  /\ QueryPlanner.requires_synthesis
       (QueryPlanner.plan "Compare the two charters" "qa") = true
  /\ 8 <= QueryPlanner.max_chunks (QueryPlanner.plan "Compare the two charters" "qa").
Proof.
  apply (X20_compare_queries "Compare the two charters" "qa").
  vm_compute. reflexivity.
Defined.

(** X24 on two chunks of one document with relevances 0.75 and 0.5. *)
Lemma X24_source_relevance_is_best_of_ranked_chunks_witness :
  List.Forall
    (fun src =>
       (exists c, In c [set_relevance_score Examples.chunk_a (3 # 4)%Q;
                        set_relevance_score Examples.chunk_b (1 # 2)%Q]
                  /\ document c = src_document src
                  /\ src_relevance src = relevance c)
       /\ forall c, In c [set_relevance_score Examples.chunk_a (3 # 4)%Q;
                          set_relevance_score Examples.chunk_b (1 # 2)%Q] ->
                    document c = src_document src ->
                    (relevance c <= src_relevance src)%Q)
    (_extract_sources [set_relevance_score Examples.chunk_a (3 # 4)%Q;
                       set_relevance_score Examples.chunk_b (1 # 2)%Q]).
Proof.
  apply X24_source_relevance_is_best_of_ranked_chunks.
  repeat constructor. vm_compute. discriminate.
Defined.

(** X25 on the default chunker. *)
Lemma X25_start_positions_do_not_go_back_witness :
  List.Forall (fun c => 0 <= pc_start_position c)
              (_chunk_page default_chunker 1 "charter.pdf" sample_page_text)
  /\ StronglySorted Z.le
       (map pc_start_position
            (_chunk_page default_chunker 1 "charter.pdf" sample_page_text)).
Proof.
  apply (X25_start_positions_do_not_go_back default_chunker 1 "charter.pdf");
    vm_compute; discriminate.
Defined.

(** X26 on the three paragraphs and a chunker with [min_chunk_size = 1]. *)
Lemma X26_every_paragraph_is_in_a_chunk_witness :
  exists c, In c (_chunk_page no_overlap_chunker 1 "doc.pdf" three_paragraphs)
            /\ PyStr.contains (PyStr.strip "bbbbbb") (pc_text c) = true.
Proof.
  apply (X26_every_paragraph_is_in_a_chunk no_overlap_chunker 1 "doc.pdf").
  - vm_compute. discriminate.
  - vm_compute. right. left. reflexivity.
  - reflexivity.
Defined.
